(** * vega: the DCGAN and CycleGAN training scripts

    A shallow embedding of [dcgan/dcgan.py] and [cyclegan/cyclegan.py].

    The scripts are orchestration code over three libraries.  Each library
    is represented by the fragment of its documented behaviour that the
    scripts exercise:

    - [Py]: Python exceptions, attribute lookup on an object, [%]-formatting,
      [os.path.join], [glob];
    - [Np]: numpy arrays as a shape and a row-major list of elements,
      IEEE binary32 arithmetic (Stdlib's [SpecFloat] at precision 24),
      [array], [ones], [zeros], integer-array indexing, [astype];
    - [Keras]: layers and their static shape inference, [Sequential] and
      functional models over a shared weight store, [compile], [predict]
      and [train_on_batch].

    [DCGAN] and [CYCLEGAN] then follow the two classes method by method. *)

From Stdlib Require Import ZArith QArith List String Ascii Lia.
From Stdlib Require Import Floats.SpecFloat.
From Stdlib Require Import Decimal DecimalString DecimalZ.
From stdpp Require Import gmap strings.
Import ListNotations.

Open Scope Z_scope.

(* ===================================================================== *)
(** * Python *)
(* ===================================================================== *)

Module Py.

(** The exceptions the two scripts can raise. *)
Inductive exn : Type :=
| AttributeError (attr : string)
| ValueError (msg : string)
| TypeError (msg : string)
| RuntimeError (msg : string)
| ZeroDivisionError
| FileNotFoundError (path : string)
| InvalidArgumentError (msg : string).

(** A computation over a mutable world [W]: it returns a value or raises,
    and in both cases leaves a world behind (effects performed before a
    [raise] stay performed). *)
Definition M (W A : Type) : Type := W -> (exn + A) * W.

Definition ret {W A} (a : A) : M W A := fun w => (inr a, w).

Definition raise {W A} (e : exn) : M W A := fun w => (inl e, w).

Definition bind {W A B} (m : M W A) (k : A -> M W B) : M W B :=
  fun w => match m w with
           | (inl e, w') => (inl e, w')
           | (inr a, w') => k a w'
           end.

Definition get {W} : M W W := fun w => (inr w, w).

Definition modify {W} (f : W -> W) : M W unit := fun w => (inr tt, f w).

(** [for x in xs: body], where the body may rebind the local variables
    [acc]. *)
Fixpoint for_each {W A B} (xs : list A) (acc : B) (body : A -> B -> M W B)
  : M W B :=
  match xs with
  | [] => ret acc
  | x :: xs' => bind (body x acc) (fun acc' => for_each xs' acc' body)
  end.

(** [range(n)]: empty when [n <= 0]. *)
Definition range (n : Z) : list Z := map Z.of_nat (seq 0 (Z.to_nat n)).

(** [a % b] on ints: the sign of the result follows the divisor, and a zero
    divisor raises. *)
Definition mod_ {W} (a b : Z) : M W Z :=
  if b =? 0 then raise ZeroDivisionError else ret (a mod b).

(** ** Objects

    An instance is its [__dict__]; [self.name] raises [AttributeError]
    when [__init__] stored nothing under [name]. *)
Definition getattr {W V} (self : gmap string V) (name : string) : M W V :=
  match self !! name with
  | Some v => ret v
  | None => raise (AttributeError name)
  end.

(** ** Strings *)

(** [str(n)] for an int. *)
Definition str_int (n : Z) : string := NilZero.string_of_int (Z.to_int n).

(** Left padding with the character 0 up to width [w]. *)
Definition zfill (w : nat) (s : string) : string :=
  String.concat "" (repeat "0"%string (w - String.length s)) +:+ s.

(** ['%04i' % n]: the sign first, then zeros up to a total width of 4. *)
Definition format_04i (n : Z) : string :=
  if n <? 0 then "-" +:+ zfill 3 (str_int (- n)) else zfill 4 (str_int n).

(** [str(t)] for a tuple of ints. *)
Definition str_tuple (t : list Z) : string :=
  match t with
  | [] => "()"
  | [a] => "(" +:+ str_int a +:+ ",)"
  | _ => "(" +:+ String.concat ", " (map str_int t) +:+ ")"
  end.

Definition ends_with (suffix s : string) : bool :=
  let n := String.length s in
  let k := String.length suffix in
  (k <=? n)%nat && String.eqb (String.substring (n - k) k s) suffix.

(** [os.path.join(a, b)] (posix) for a relative [b]. *)
Definition join (a b : string) : string :=
  if String.prefix "/" b then b
  else if String.eqb a "" || ends_with "/" a then a +:+ b
  else a +:+ "/" +:+ b.

(** [fnmatch(name, '*' + ext)] as [glob] applies it: the name ends with
    [ext], and a name starting with a dot is hidden from a pattern that
    starts with a star. *)
Definition glob_match (ext name : string) : bool :=
  negb (String.prefix "." name) && ends_with ext name.

(** [glob.has_magic]: one of the characters [*], [?] and [[] occurs. *)
Definition has_magic (s : string) : bool :=
  existsb (fun c => (c =? "*")%char || (c =? "?")%char || (c =? "[")%char)
          (list_ascii_of_string s).

(** A directory name that [glob] takes as it is written: it holds none of
    the characters [glob] reads as a pattern, and it does not end with a
    slash (which [os.path.split] would strip from the paths returned). *)
Definition literal_dir (dir : string) : bool :=
  negb (has_magic dir) && negb (ends_with "/" dir).

Fixpoint drop_while {A} (f : A -> bool) (l : list A) : list A :=
  match l with
  | [] => []
  | x :: l' => if f x then drop_while f l' else l
  end.

(** [os.path.dirname] (posix): the path up to its last slash, without the
    slashes that end this part unless it is made of slashes only. *)
Definition dirname (p : string) : string :=
  let is_slash := fun c => (c =? "/")%char in
  let head := rev (drop_while (fun c => negb (is_slash c))
                              (rev (list_ascii_of_string p))) in
  if forallb is_slash head then string_of_list_ascii head
  else string_of_list_ascii (rev (drop_while is_slash (rev head))).

(** A name without a slash: a file name, not a path. *)
Definition slash_free (s : string) : bool :=
  forallb (fun c => negb (c =? "/")%char) (list_ascii_of_string s).

(** [glob(join(dir, '*' + ext))] over the listing of [dir], for a [dir]
    that is a [literal_dir] (with pattern characters in it, [glob] would
    match [dir] itself against the directories that exist; the statements
    about [glob] below are about literal directories): the matching
    entries, each under its joined path.  An entry carries what its file
    holds, so that the loop [for f in glob(..): Image.open(f)] reads the
    pair. *)
Definition glob {F} (dir ext : string) (listing : list (string * F))
  : list (string * F) :=
  map (fun e => (join dir (fst e), snd e))
      (List.filter (fun e => glob_match ext (fst e)) listing).

End Py.

Notation "'let!' x := m 'in' k" := (Py.bind m (fun x => k))
  (at level 10, x binder, m at level 200, k at level 200).
Notation "m ;; k" := (Py.bind m (fun _ => k))
  (at level 100, right associativity).

(* ===================================================================== *)
(** * numpy *)
(* ===================================================================== *)

Module Np.

(** ** binary32 *)

Definition float32 : Type := spec_float.

Definition prec : Z := 24.
Definition emax : Z := 128.

(** The binary32 number nearest to [m * 2^e]. *)
Definition f32 (m e : Z) : float32 := binary_normalize prec emax m e false.

Definition of_int (k : Z) : float32 := f32 k 0.

Definition add : float32 -> float32 -> float32 := SFadd prec emax.
Definition sub : float32 -> float32 -> float32 := SFsub prec emax.
Definition mul : float32 -> float32 -> float32 := SFmul prec emax.
Definition div : float32 -> float32 -> float32 := SFdiv prec emax.
Definition leb : float32 -> float32 -> bool := SFleb.

(** The literal [127.5] (255 halves), and 0, 1 and -1. *)
Definition c127_5 : float32 := f32 255 (-1).
Definition zero : float32 := of_int 0.
Definition one : float32 := of_int 1.
Definition minus_one : float32 := SFopp one.


(** The integer part of a finite number (rounding toward zero). *)
Definition trunc (x : float32) : option Z :=
  match x with
  | S754_zero _ => Some 0
  | S754_finite s m e =>
      let a := if 0 <=? e then Z.shiftl (Z.pos m) e
               else Z.shiftr (Z.pos m) (- e) in
      Some (if s then - a else a)
  | _ => None
  end.

(** [x.astype(uint8)] for one element: the integer part, kept to 8 bits.
    The conversion of an infinity or a NaN is left to the platform; 0 stands
    for it. *)
Definition to_uint8 (x : float32) : Z :=
  match trunc x with
  | Some k => k mod 256
  | None => 0
  end.

(** ** Arrays *)

Record ndarray (A : Type) : Type := mk { shape : list Z; data : list A }.
Arguments mk {A} shape data.
Arguments shape {A} _.
Arguments data {A} _.

Definition map_ {A B} (f : A -> B) (a : ndarray A) : ndarray B :=
  mk (shape a) (map f (data a)).

(** Number of elements a shape stands for. *)
Definition size_of (s : list Z) : Z := fold_right Z.mul 1 s.

(** [array(xs)] for a list of arrays of one shape: they are stacked along a
    new first axis; the empty list gives the empty one-dimensional array. *)
Definition array {A} (xs : list (ndarray A)) : ndarray A :=
  match xs with
  | [] => mk [0] []
  | x :: _ => mk (Z.of_nat (length xs) :: shape x) (concat (map data xs))
  end.

(** [a[i]] along the first axis. *)
Definition row {A} (a : ndarray A) (i : Z) : ndarray A :=
  let n := Z.to_nat (size_of (tl (shape a))) in
  mk (tl (shape a)) (firstn n (skipn (Z.to_nat i * n) (data a))).

(** The rows of an array, in order. *)
Definition rows {A} (a : ndarray A) : list (ndarray A) :=
  map (row a) (Py.range (hd 0 (shape a))).

(** [a[idx]] for an array of indices (the indices are in range here: they
    come from [randint(0, a.shape[0], ..)]). *)
Definition take {A} (a : ndarray A) (idx : list Z) : ndarray A :=
  mk (Z.of_nat (length idx) :: tl (shape a))
     (concat (map (fun i => data (row a i)) idx)).

(** [ones((n, 1))] and [zeros((n, 1))]. *)
Definition full (v : float32) (n : Z) : ndarray float32 :=
  mk [n; 1] (repeat v (Z.to_nat n)).
Definition ones : Z -> ndarray float32 := full one.
Definition zeros : Z -> ndarray float32 := full zero.

(** An image file decoded by [array(Image.open(f))]: 8-bit samples. *)
Abbreviation image := (ndarray Z).

Definition is_uint8 (v : Z) : Prop := 0 <= v <= 255.

(** [img.astype(float32)]: every 8-bit value is a binary32 number. *)
Definition astype_float32 (a : image) : ndarray float32 := map_ of_int a.

(** [a.astype(uint8)]. *)
Definition astype_uint8 (a : ndarray float32) : ndarray Z := map_ to_uint8 a.

(** Tuple equality [s == t]. *)
Definition shape_eqb (s t : list Z) : bool :=
  if decide (s = t) then true else false.

End Np.

(* ===================================================================== *)
(** * Keras *)
(* ===================================================================== *)

Module Keras.

Inductive padding : Type := Valid | Same.

Inductive activation : Type :=
| Linear
| Relu
| Tanh
| Sigmoid
| Leaky (alpha : Q).

(** The layers the scripts add, with the arguments they pass; an argument a
    script leaves out has the library's default ([strides=1],
    [padding='valid'], [activation=None]). *)
Inductive layer : Type :=
| Reshape (target_shape : list Z)
| Conv2D (filters kernel_size strides : Z) (pad : padding) (act : activation)
| Conv2DTranspose (filters kernel_size strides : Z) (pad : padding)
                  (act : activation)
| Activation (act : activation)
| LeakyReLU (alpha : Q)
| BatchNormalization
| MaxPooling2D (pool_size : Z)
| UpSampling2D (size : Z)
| Flatten.

(** ** Shape inference ([compute_output_shape], channels last, without the
    batch axis) *)

(** [conv_utils.conv_output_length]. *)
Definition conv_output_length (input_length filter_size : Z) (pad : padding)
                              (stride : Z) : Z :=
  let output_length :=
    match pad with
    | Same => input_length
    | Valid => input_length - filter_size + 1
    end in
  (output_length + stride - 1) / stride.

(** [conv_utils.deconv_length]. *)
Definition deconv_length (dim_size stride_size kernel_size : Z)
                         (pad : padding) : Z :=
  match pad with
  | Valid => dim_size * stride_size + Z.max (kernel_size - stride_size) 0
  | Same => dim_size * stride_size
  end.

(** A spatial layer maps [(rows, cols, channels)]; the backend refuses a
    result with an axis that is not positive. *)
Definition spatial (f : Z -> Z) (channels : Z -> Z) (s : list Z)
  : option (list Z) :=
  match s with
  | [rows; cols; ch] =>
      let s' := [f rows; f cols; channels ch] in
      if forallb (fun d => 0 <? d) s' then Some s' else None
  | _ => None
  end.

Definition compute_output_shape (l : layer) (s : list Z) : option (list Z) :=
  match l with
  | Reshape target =>
      if Np.size_of s =? Np.size_of target then Some target else None
  | Conv2D filters k strides pad _ =>
      spatial (fun d => conv_output_length d k pad strides)
              (fun _ => filters) s
  | Conv2DTranspose filters k strides pad _ =>
      spatial (fun d => deconv_length d strides k pad) (fun _ => filters) s
  | MaxPooling2D p =>
      spatial (fun d => conv_output_length d p Valid p) (fun ch => ch) s
  | UpSampling2D k => spatial (fun d => d * k) (fun ch => ch) s
  | Flatten => Some [Np.size_of s]
  | Activation _ | LeakyReLU _ | BatchNormalization => Some s
  end.

(** The output shape of a stack of layers, when every layer accepts its
    input. *)
Fixpoint output_shape_of (layers : list layer) (s : list Z)
  : option (list Z) :=
  match layers with
  | [] => Some s
  | l :: layers' =>
      match compute_output_shape l s with
      | Some s' => output_shape_of layers' s'
      | None => None
      end
  end.

(** The same with the batch axis in front. *)
Definition batch_output_shape (l : layer) (s : list Z) : list Z :=
  match s with
  | [] => []
  | n :: s' => n :: default s' (compute_output_shape l s')
  end.

(** Layers that own weight tensors. *)
Definition has_weights (l : layer) : bool :=
  match l with
  | Conv2D _ _ _ _ _ | Conv2DTranspose _ _ _ _ _ | BatchNormalization => true
  | _ => false
  end.

Definition layer_activation (l : layer) : activation :=
  match l with
  | Conv2D _ _ _ _ a | Conv2DTranspose _ _ _ _ a | Activation a => a
  | LeakyReLU alpha => Leaky alpha
  | _ => Linear
  end.

(** ** The forward pass

    What a layer computes on numbers is the backend's: [kernel_op] is the
    layer's own transformation (convolution, normalisation, pooling) under
    its current weights, [act_fn] an activation on one element.  A layer
    applies its transformation and then its activation elementwise;
    [Reshape] and [Flatten] keep the row-major elements as they are. *)
Section Forward.

Context {S : Type}.
Variable act_fn : activation -> S -> S.
Variable kernel_op : option (list S) -> layer -> Np.ndarray S -> list S.

Definition linear_part (w : option (list S)) (l : layer) (x : Np.ndarray S)
  : list S :=
  match l with
  | Reshape _ | Flatten | Activation _ | LeakyReLU _ => Np.data x
  | _ => kernel_op w l x
  end.

Definition activate (a : activation) (xs : list S) : list S :=
  match a with
  | Linear => xs
  | _ => map (act_fn a) xs
  end.

Definition call_layer (w : option (list S)) (l : layer) (x : Np.ndarray S)
  : Np.ndarray S :=
  Np.mk (batch_output_shape l (Np.shape x))
        (activate (layer_activation l) (linear_part w l x)).

(** The layers in order; [ws i] are the weights of layer number [i]. *)
Fixpoint call_layers (ws : nat -> option (list S)) (i : nat)
                     (layers : list layer) (x : Np.ndarray S)
  : Np.ndarray S :=
  match layers with
  | [] => x
  | l :: layers' => call_layers ws (Datatypes.S i) layers' (call_layer (ws i) l x)
  end.

End Forward.

(** ** Models *)

(** A symbolic tensor: a named [Input], or a model called on a tensor. *)
Inductive sym : Type :=
| Input (name : string)
| Call (m : nat) (arg : sym).

Record tensor : Type := { t_expr : sym; t_shape : list Z }.

Inductive graph : Type :=
| Sequential (layers : list layer)
| Functional (input : string) (output : sym).

(** What [compile] fixes: the loss, the metrics, and the weights the
    optimizer will update, collected when [compile] runs. *)
Record compiled : Type := {
  loss : string;
  metrics : list string;
  collected_trainable_weights : list (nat * nat)
}.

Record model : Type := {
  graph_of : graph;
  input_shape : list Z;
  output_shape : list Z;
  trainable : bool;
  compiled_with : option compiled
}.

(** One optimizer step that was run: the model, the inputs and the
    targets. *)
Record fit : Type := { fit_model : nat; fit_x : Np.ndarray Np.float32;
                       fit_y : Np.ndarray Np.float32 }.

(** The library's state: the models by reference, the weight tensors by
    (model, layer number), each stored once however many graphs reach it,
    and the optimizer steps run so far. *)
Record heap : Type := {
  models : gmap nat model;
  weights : gmap (nat * nat) (list Np.float32);
  fits : list fit
}.

Definition empty_heap : heap := {| models := ∅; weights := ∅; fits := [] |}.

(** The numerical side of the library, which the scripts never look into:
    activations and layer transformations on binary32 numbers, the initial
    value of a layer's weights, the value the optimizer gives one collected
    weight in one step (a function of everything the library holds and of
    the batch), and the loss and metric values a step reports. *)
Class Backend : Type := {
  act_fn : activation -> Np.float32 -> Np.float32;
  kernel_op : option (list Np.float32) -> layer -> Np.ndarray Np.float32
              -> list Np.float32;
  initializer : nat -> nat -> layer -> list Np.float32;
  optimizer_update : heap -> nat -> Np.ndarray Np.float32
                     -> Np.ndarray Np.float32 -> nat * nat -> list Np.float32;
  loss_value : heap -> nat -> Np.ndarray Np.float32
               -> Np.ndarray Np.float32 -> Np.float32;
  metric_value : string -> heap -> nat -> Np.ndarray Np.float32
                 -> Np.ndarray Np.float32 -> Np.float32
}.

Section Api.

Context {backend : Backend}.

Definition lookup_model (m : nat) : Py.M heap model :=
  fun h => match models h !! m with
           | Some md => (inr md, h)
           | None => (inl (Py.RuntimeError "no such model"), h)
           end.

(** The weight keys of the layers of model [m], in layer order. *)
Definition layer_weights (m : nat) (layers : list layer) : list (nat * nat) :=
  map (fun il => (m, fst il))
      (List.filter (fun il => has_weights (snd il))
              (combine (seq 0 (length layers)) layers)).

(** A new model is stored under the next free reference. *)
Definition fresh (h : heap) : nat := size (models h).

(** [Sequential()] followed by the [add] calls, the first of which gives
    [input_shape]: every layer must accept the shape it is given, and every
    layer with weights gets its initial ones. *)
Definition sequential (layers : list layer) (input : list Z)
  : Py.M heap nat :=
  fun h =>
    match output_shape_of layers input with
    | None => (inl (Py.ValueError "incompatible layer input"), h)
    | Some out =>
        let m := fresh h in
        let md := {| graph_of := Sequential layers; input_shape := input;
                     output_shape := out; trainable := true;
                     compiled_with := None |} in
        let ws := fold_left
                    (fun acc il =>
                       if has_weights (snd il)
                       then <[(m, fst il) := initializer m (fst il) (snd il)]> acc
                       else acc)
                    (combine (seq 0 (length layers)) layers) (weights h) in
        (inr m, {| models := <[m := md]> (models h); weights := ws;
                   fits := fits h |})
    end.

(** [Input(shape=s)]. *)
Definition input_ (name : string) (s : list Z) : tensor :=
  {| t_expr := Input name; t_shape := s |}.

(** A layer with weights accepts an input of the rank and the channel
    count it was built for. *)
Definition input_compatible (built s : list Z) : bool :=
  (length built =? length s)%nat && (List.last built 0 =? List.last s 0).

(** The layers of a built model applied again to a tensor of shape [s]:
    [built] is the shape each layer saw when the model was built. *)
Fixpoint reapply (layers : list layer) (built s : list Z)
  : option (list Z) :=
  match layers with
  | [] => Some s
  | l :: layers' =>
      if has_weights l && negb (input_compatible built s) then None
      else
        match compute_output_shape l built, compute_output_shape l s with
        | Some built', Some s' => reapply layers' built' s'
        | _, _ => None
        end
  end.

(** [m(t)]: the model called on a symbolic tensor.  A [Sequential] model
    runs its layers again on the tensor; a functional one (no script calls
    one) is taken at its own input shape. *)
Definition call (m : nat) (t : tensor) : Py.M heap tensor :=
  let! md := lookup_model m in
  let out :=
    match graph_of md with
    | Sequential layers => reapply layers (input_shape md) (t_shape t)
    | Functional _ _ =>
        if Np.shape_eqb (t_shape t) (input_shape md)
        then Some (output_shape md) else None
    end in
  match out with
  | Some s => Py.ret {| t_expr := Call m (t_expr t); t_shape := s |}
  | None => Py.raise (Py.ValueError "incompatible model input")
  end.

Fixpoint sym_input (e : sym) : string :=
  match e with
  | Input name => name
  | Call _ e' => sym_input e'
  end.

(** The models a symbolic tensor calls, innermost first. *)
Fixpoint sym_calls (e : sym) : list nat :=
  match e with
  | Input _ => []
  | Call m e' => sym_calls e' ++ [m]
  end.

(** [Model(x, y)]: [y] has to be computed from the input [x]. *)
Definition functional (x y : tensor) : Py.M heap nat :=
  fun h =>
    match t_expr x with
    | Input name =>
        if String.eqb (sym_input (t_expr y)) name then
          let m := fresh h in
          let md := {| graph_of := Functional name (t_expr y);
                       input_shape := t_shape x; output_shape := t_shape y;
                       trainable := true; compiled_with := None |} in
          (inr m, {| models := <[m := md]> (models h); weights := weights h;
                     fits := fits h |})
        else (inl (Py.ValueError "graph disconnected"), h)
    | Call _ _ => (inl (Py.ValueError "not an Input tensor"), h)
    end.

(** [m.trainable = b]. *)
Definition set_trainable (m : nat) (b : bool) : Py.M heap unit :=
  let! md := lookup_model m in
  Py.modify (fun h =>
    {| models := <[m := {| graph_of := graph_of md;
                           input_shape := input_shape md;
                           output_shape := output_shape md;
                           trainable := b;
                           compiled_with := compiled_with md |}]> (models h);
       weights := weights h; fits := fits h |}).

(** [m.trainable_weights] of a [Sequential] model: nothing when the model
    is not trainable. *)
Definition sequential_trainable_weights (h : heap) (m : nat)
  : list (nat * nat) :=
  match models h !! m with
  | Some md =>
      match graph_of md with
      | Sequential layers =>
          if trainable md then layer_weights m layers else []
      | Functional _ _ => []
      end
  | None => []
  end.

(** [m.trainable_weights]: a functional model gathers those of the models
    its graph calls (all [Sequential] in these scripts), each according to
    its own [trainable] attribute at the time of asking. *)
Definition trainable_weights (h : heap) (m : nat) : list (nat * nat) :=
  match models h !! m with
  | Some md =>
      if trainable md then
        match graph_of md with
        | Sequential _ => sequential_trainable_weights h m
        | Functional _ out =>
            concat (map (sequential_trainable_weights h) (sym_calls out))
        end
      else []
  | None => []
  end.

(** [m.compile(loss=.., optimizer=.., metrics=..)]. *)
Definition compile (m : nat) (loss_name : string) (metric_names : list string)
  : Py.M heap unit :=
  let! md := lookup_model m in
  Py.modify (fun h =>
    let c := {| loss := loss_name; metrics := metric_names;
                collected_trainable_weights := trainable_weights h m |} in
    {| models := <[m := {| graph_of := graph_of md;
                           input_shape := input_shape md;
                           output_shape := output_shape md;
                           trainable := trainable md;
                           compiled_with := Some c |}]> (models h);
       weights := weights h; fits := fits h |}).

(** The value of a [Sequential] model on a batch, under the weights the
    heap holds now. *)
Definition run_sequential (h : heap) (m : nat) (x : Np.ndarray Np.float32)
  : Np.ndarray Np.float32 :=
  match models h !! m with
  | Some md =>
      match graph_of md with
      | Sequential layers =>
          call_layers act_fn kernel_op (fun i => weights h !! (m, i)) 0 layers x
      | Functional _ _ => x
      end
  | None => x
  end.

(** The value of a symbolic tensor when its input is [x]. *)
Fixpoint eval_sym (h : heap) (e : sym) (x : Np.ndarray Np.float32)
  : Np.ndarray Np.float32 :=
  match e with
  | Input _ => x
  | Call m e' => run_sequential h m (eval_sym h e' x)
  end.

(** The value of any model on a batch. *)
Definition forward (h : heap) (m : nat) (x : Np.ndarray Np.float32)
  : Np.ndarray Np.float32 :=
  match models h !! m with
  | Some md =>
      match graph_of md with
      | Sequential _ => run_sequential h m x
      | Functional _ out => eval_sym h out x
      end
  | None => x
  end.

(** The arrays handed to a model are checked against its shapes before
    anything is computed. *)
Definition check_array (what : string) (expected : list Z)
                       (a : Np.ndarray Np.float32) : Py.M heap unit :=
  if Np.shape_eqb (tl (Np.shape a)) expected then Py.ret tt
  else Py.raise (Py.ValueError what).

(** A batch without a sample is refused. *)
Definition check_non_empty (e : Py.exn) (a : Np.ndarray Np.float32)
  : Py.M heap unit :=
  if hd 0 (Np.shape a) <=? 0 then Py.raise e else Py.ret tt.

(** [m.predict(x)]: an empty batch raises [ValueError], like an array of
    another shape than the model's input. *)
Definition predict (m : nat) (x : Np.ndarray Np.float32)
  : Py.M heap (Np.ndarray Np.float32) :=
  let! md := lookup_model m in
  check_non_empty (Py.ValueError "Expected input data to be non-empty.") x ;;
  check_array "Error when checking input" (input_shape md) x ;;
  let! h := Py.get in
  Py.ret (forward h m x).

(** [m.train_on_batch(x, y)]: one optimizer step.  Exactly the weights
    collected by [compile] get a new value (a model that was not trainable
    then contributes neither weights nor updates of its normalisation
    statistics); the step is recorded, and the loss comes back, followed by
    the metrics.  Arrays of the right shapes that hold no sample make the
    step fail with the backend's [InvalidArgumentError], no weight having
    moved. *)
Definition train_on_batch (m : nat) (x y : Np.ndarray Np.float32)
  : Py.M heap (list Np.float32) :=
  let! md := lookup_model m in
  match compiled_with md with
  | None => Py.raise (Py.RuntimeError "You must compile a model before training/testing")
  | Some c =>
      check_array "Error when checking input" (input_shape md) x ;;
      check_array "Error when checking target" (output_shape md) y ;;
      (if hd 0 (Np.shape x) =? hd 0 (Np.shape y) then Py.ret tt
       else Py.raise (Py.ValueError "Input arrays should have the same number of samples as target arrays")) ;;
      check_non_empty (Py.InvalidArgumentError "empty batch") x ;;
      let! h := Py.get in
      Py.modify (fun _ =>
        {| models := models h;
           weights := fold_left
                        (fun acc k => <[k := optimizer_update h m x y k]> acc)
                        (collected_trainable_weights c) (weights h);
           fits := fits h ++ [{| fit_model := m; fit_x := x; fit_y := y |}] |}) ;;
      Py.ret (loss_value h m x y
              :: map (fun name => metric_value name h m x y) (metrics c))
  end.

End Api.

End Keras.

(* ===================================================================== *)
(** * The world of a script *)
(* ===================================================================== *)

Module Env.

(** What the scripts send to standard output. *)
Inductive output : Type :=
| Line (s : string)
| Summary (m : nat)
| Progress (epoch : Z) (d_loss d_acc g_loss : Np.float32).

(** The pixels handed to [Image.fromarray]. *)
Inductive tile : Type :=
| Bytes (a : Np.ndarray Z)
| Floats (a : Np.ndarray Np.float32).

(** A PIL image under construction: its mode and size, and the tiles
    pasted so far with their offsets. *)
Record canvas : Type := {
  mode : string;
  extent : Z * Z;
  pasted : list (tile * (Z * Z))
}.

(** What an attribute of a script's object holds. *)
Inductive value : Type :=
| VInt (n : Z)
| VNum (q : Q)
| VStr (s : string)
| VTuple (t : list Z)
| VModel (ref : nat)
| VTensor (t : Keras.tensor).

(** An instance, as its [__dict__]. *)
Abbreviation object := (gmap string value).

Record world : Type := {
  keras : Keras.heap;
  (** numpy's global generator: the number of draws made so far *)
  rng : nat;
  stdout : list output;
  (** the directories that exist, each with its image files, decoded *)
  dirs : gmap string (list (string * Np.image));
  (** the files written, latest last *)
  written : list (string * canvas)
}.

Definition initial (d : gmap string (list (string * Np.image))) : world :=
  {| keras := Keras.empty_heap; rng := 0%nat; stdout := []; dirs := d;
     written := [] |}.

(** The generator's stream and nothing else: draw number [i] as an integer
    and as a standard normal sample (as Keras receives it, in binary32). *)
Class Random : Type := {
  uniform : nat -> Z;
  gauss : nat -> Np.float32
}.

Definition with_keras (w : world) (h : Keras.heap) : world :=
  {| keras := h; rng := rng w; stdout := stdout w; dirs := dirs w;
     written := written w |}.

(** A library call inside a script. *)
Definition lift {A} (m : Py.M Keras.heap A) : Py.M world A :=
  fun w => let (r, h) := m (keras w) in (r, with_keras w h).

(** Attribute reads at the type the reading expression needs. *)
Definition get_int (self : object) (name : string) : Py.M world Z :=
  let! v := Py.getattr self name in
  match v with VInt n => Py.ret n | _ => Py.raise (Py.TypeError name) end.

Definition get_num (self : object) (name : string) : Py.M world Q :=
  let! v := Py.getattr self name in
  match v with VNum q => Py.ret q | _ => Py.raise (Py.TypeError name) end.

Definition get_str (self : object) (name : string) : Py.M world string :=
  let! v := Py.getattr self name in
  match v with VStr x => Py.ret x | _ => Py.raise (Py.TypeError name) end.

Definition get_tuple (self : object) (name : string) : Py.M world (list Z) :=
  let! v := Py.getattr self name in
  match v with VTuple t => Py.ret t | _ => Py.raise (Py.TypeError name) end.

Definition get_model (self : object) (name : string) : Py.M world nat :=
  let! v := Py.getattr self name in
  match v with VModel r => Py.ret r | _ => Py.raise (Py.TypeError name) end.

Definition print (o : output) : Py.M world unit :=
  Py.modify (fun w =>
    {| keras := keras w; rng := rng w; stdout := stdout w ++ [o];
       dirs := dirs w; written := written w |}).

Definition listdir (d : string) : Py.M world (list (string * Np.image)) :=
  fun w => (inr (default [] (dirs w !! d)), w).

Section Numpy_random.

Context {random : Random}.

Definition draws {A} (f : nat -> A) (n : nat) : Py.M world (list A) :=
  fun w => (inr (map (fun i => f (rng w + i)%nat) (seq 0 n)),
            {| keras := keras w; rng := (rng w + n)%nat; stdout := stdout w;
               dirs := dirs w; written := written w |}).

(** [randint(low, high, size)]: [size] integers of [low .. high - 1].
    A size of 0 gives the empty array before the bounds are looked at;
    the bounds are checked next, and a negative size is refused last, when
    the result is allocated. *)
Definition randint (low high size : Z) : Py.M world (list Z) :=
  if size =? 0 then Py.ret []
  else if high <=? low then Py.raise (Py.ValueError "low >= high")
  else if size <? 0 then
    Py.raise (Py.ValueError "negative dimensions are not allowed")
  else draws (fun i => low + uniform i mod (high - low)) (Z.to_nat size).

(** [normal(0, 1, (n, k))]. *)
Definition normal (n k : Z) : Py.M world (Np.ndarray Np.float32) :=
  if (n <? 0) || (k <? 0) then
    Py.raise (Py.ValueError "negative dimensions are not allowed")
  else
    let! xs := draws gauss (Z.to_nat (n * k)) in
    Py.ret (Np.mk [n; k] xs).

End Numpy_random.

(** [Image.new(mode, size)]. *)
Definition image_new (m : string) (sz : Z * Z) : Py.M world canvas :=
  if existsb (String.eqb m) ["1"; "L"; "P"; "RGB"; "RGBA"; "CMYK"; "YCbCr";
                             "LAB"; "HSV"; "I"; "F"]%string
  then Py.ret {| mode := m; extent := sz; pasted := [] |}
  else Py.raise (Py.ValueError "unrecognized image mode").

(** [out.paste(Image.fromarray(tile, mode=..), at)]. *)
Definition paste (out : canvas) (t : tile) (at_ : Z * Z) : canvas :=
  {| mode := mode out; extent := extent out;
     pasted := pasted out ++ [(t, at_)] |}.

(** Whether a directory exists: the current directory does, and so does
    every directory the world lists. *)
Definition dir_exists (w : world) (dir : string) : bool :=
  String.eqb dir ""
  || match dirs w !! dir with Some _ => true | None => false end.

(** [out.save(path)]: the file is created in the directory of [path],
    which has to exist. *)
Definition save (out : canvas) (path : string) : Py.M world unit :=
  fun w =>
    if dir_exists w (Py.dirname path) then
      (inr tt,
       {| keras := keras w; rng := rng w; stdout := stdout w; dirs := dirs w;
          written := written w ++ [(path, out)] |})
    else (inl (Py.FileNotFoundError path), w).

End Env.

Abbreviation object := (gmap string Env.value).

(* ===================================================================== *)
(** * dcgan/dcgan.py *)
(* ===================================================================== *)

Module DCGAN.

Record config : Type := {
  size : Z;          (* size of generated pictures *)
  ngf : Z;           (* number of G filters for the first conv layer *)
  nz : Z;            (* dimension for Z *)
  nc : Z;            (* number of output channels *)
  ndf : Z;           (* number of D filters for the first conv layer *)
  lr : Q;            (* initial learning rate for adam *)
  beta1 : Q;         (* momentum term for adam *)
  alpha : Q;         (* LeakyReLU slope parameter *)
  src_path : string; (* path where test images are *)
  otp_path : string  (* path in which to put generated images *)
}.

Definition CONFIG : config := {|
  size := 64; ngf := 64; nz := 200; nc := 3; ndf := 64;
  lr := 2 # 10000; beta1 := 5 # 10; alpha := 2 # 10;
  src_path := "../input/hands_64"; otp_path := "../output"
|}.

Definition newline : string := String (ascii_of_nat 10) "".

(** The layers [build_generator] adds, in order. *)
Definition generator_layers (nz ngf channels : Z) : list Keras.layer :=
  [ Keras.Reshape [1; 1; nz];
    Keras.Conv2DTranspose (ngf * 8) 4 1 Keras.Valid Keras.Linear;
    Keras.Activation Keras.Relu;
    Keras.BatchNormalization;
    Keras.Conv2DTranspose (ngf * 4) 4 2 Keras.Same Keras.Linear;
    Keras.Activation Keras.Relu;
    Keras.BatchNormalization;
    Keras.BatchNormalization;
    Keras.Conv2DTranspose (ngf * 2) 4 2 Keras.Same Keras.Linear;
    Keras.Activation Keras.Relu;
    Keras.BatchNormalization;
    Keras.BatchNormalization;
    Keras.MaxPooling2D 4;
    Keras.UpSampling2D 4;
    Keras.Conv2DTranspose ngf 4 2 Keras.Same Keras.Linear;
    Keras.Activation Keras.Relu;
    Keras.BatchNormalization;
    Keras.BatchNormalization;
    Keras.Conv2DTranspose channels 4 2 Keras.Same Keras.Tanh ].

(** The layers [build_discriminator] adds, in order. *)
Definition discriminator_layers (ndf : Z) (alpha : Q) : list Keras.layer :=
  [ Keras.Conv2D ndf 4 2 Keras.Same Keras.Linear;
    Keras.LeakyReLU alpha;
    Keras.BatchNormalization;
    Keras.Conv2D (ndf * 2) 4 2 Keras.Same Keras.Linear;
    Keras.LeakyReLU alpha;
    Keras.BatchNormalization;
    Keras.Conv2D (ndf * 4) 4 2 Keras.Same Keras.Linear;
    Keras.LeakyReLU alpha;
    Keras.BatchNormalization;
    Keras.MaxPooling2D 2;
    Keras.UpSampling2D 2;
    Keras.Conv2D (ndf * 8) 4 2 Keras.Same Keras.Linear;
    Keras.LeakyReLU alpha;
    Keras.BatchNormalization;
    Keras.Conv2D 1 4 1 Keras.Valid Keras.Sigmoid;
    Keras.Flatten ].

(** [(img.astype(float32) - 127.5) / 127.5] on one sample. *)
Definition normalize (v : Z) : Np.float32 :=
  Np.div (Np.sub (Np.of_int v) Np.c127_5) Np.c127_5.

(** [(127.5 * imgs + 127.5).astype(uint8)] on one sample. *)
Definition denormalize (x : Np.float32) : Z :=
  Np.to_uint8 (Np.add (Np.mul Np.c127_5 x) Np.c127_5).

(** ['dcgan_%04i.png' % epoch] under [otp_path]. *)
Definition sample_path (otp : string) (epoch : Z) : string :=
  Py.join otp ("dcgan_" +:+ Py.format_04i epoch +:+ ".png").

Section Script.

Context {backend : Keras.Backend} {random : Env.Random}.

Definition build_generator (self : object) : Py.M Env.world nat :=
  let! nz := Env.get_int self "nz" in
  let! ngf := Env.get_int self "ngf" in
  let! img_shape := Env.get_tuple self "img_shape" in
  let! model := Env.lift (Keras.sequential
                            (generator_layers nz ngf (nth 2 img_shape 0))
                            [nz]) in
  Env.print (Env.Line (newline +:+ "%%% Generator %%%")) ;;
  Env.print (Env.Summary model) ;;
  Py.ret model.

Definition build_discriminator (self : object) : Py.M Env.world nat :=
  let! ndf := Env.get_int self "ndf" in
  let! img_shape := Env.get_tuple self "img_shape" in
  let! alpha := Env.get_num self "alpha" in
  let! model := Env.lift (Keras.sequential (discriminator_layers ndf alpha)
                                           img_shape) in
  Env.print (Env.Line (newline +:+ "%%% Discriminator %%%")) ;;
  Env.print (Env.Summary model) ;;
  Py.ret model.

Definition __init__ (cfg : config) : Py.M Env.world object :=
  let self : object := ∅ in
  let self := <["img_shape" := Env.VTuple [size cfg; size cfg; nc cfg]]> self in
  let self := <["nz" := Env.VInt (nz cfg)]> self in
  let self := <["ngf" := Env.VInt (ngf cfg)]> self in
  let self := <["ndf" := Env.VInt (ndf cfg)]> self in
  let self := <["alpha" := Env.VNum (alpha cfg)]> self in
  let! discr := build_discriminator self in
  let self := <["discr" := Env.VModel discr]> self in
  Env.lift (Keras.compile discr "binary_crossentropy" ["accuracy"%string]) ;;
  Env.lift (Keras.set_trainable discr false) ;;
  let! gen := build_generator self in
  let self := <["gen" := Env.VModel gen]> self in
  let self := <["src_path" := Env.VStr (src_path cfg)]> self in
  let self := <["otp_path" := Env.VStr (otp_path cfg)]> self in
  let z := Keras.input_ "z" [nz cfg] in
  let! gz := Env.lift (Keras.call gen z) in
  let! dgz := Env.lift (Keras.call discr gz) in
  let! comb := Env.lift (Keras.functional z dgz) in
  let self := <["comb" := Env.VModel comb]> self in
  Env.lift (Keras.compile comb "binary_crossentropy" []) ;;
  Py.ret self.

Definition load_images (self : object)
  : Py.M Env.world (Np.ndarray Np.float32) :=
  let! src := Env.get_str self "src_path" in
  let! files := Env.listdir src in
  let! xs :=
    Py.for_each (Py.glob src ".jpg" files) []
      (fun f xs =>
         let img := snd f in
         let! img_shape := Env.get_tuple self "img_shape" in
         if Np.shape_eqb (Np.shape img) img_shape
         then Py.ret (xs ++ [Np.map_ normalize img])
         else
           Env.print (Env.Line ("bad shape for " +:+ fst f +:+ ": "
                                +:+ Py.str_tuple (Np.shape img))) ;;
           Py.ret xs) in
  Py.ret (Np.array xs).

Definition save_images (self : object) (epoch : Z) (n : Z * Z)
  : Py.M Env.world unit :=
  let! gen := Env.get_model self "gen" in
  let! nz := Env.get_int self "nz" in
  let! z := Env.normal (fst n * snd n) nz in
  let! imgs := Env.lift (Keras.predict gen z) in
  let imgs := Np.map_ denormalize imgs in
  let! img_shape := Env.get_tuple self "img_shape" in
  let s0 := nth 0 img_shape 0 + 2 in
  let s1 := nth 1 img_shape 0 + 2 in
  let! out := Env.image_new "RGB" (2 + fst n * s0, 2 + snd n * s1) in
  let! out :=
    Py.for_each (Py.range (fst n)) out (fun i out =>
      Py.for_each (Py.range (snd n)) out (fun j out =>
        Py.ret (Env.paste out (Env.Bytes (Np.row imgs (snd n * i + j)))
                          (2 + s0 * i, 2 + s1 * j)))) in
  let! otp := Env.get_str self "otp_path" in
  Env.save out (sample_path otp epoch).

(** The body of the loop of [train]. *)
Definition train_epoch (self : object) (x_train : Np.ndarray Np.float32)
                       (half_batch save_interval epoch : Z)
  : Py.M Env.world unit :=
  (* Discriminator Training *)
  let! idx := Env.randint 0 (hd 0 (Np.shape x_train)) half_batch in
  let real_imgs := Np.take x_train idx in
  let! gen := Env.get_model self "gen" in
  let! nz := Env.get_int self "nz" in
  let! z0 := Env.normal half_batch nz in
  let! fake_imgs := Env.lift (Keras.predict gen z0) in
  let! discr := Env.get_model self "discr" in
  let! d_loss_r :=
    Env.lift (Keras.train_on_batch discr real_imgs (Np.ones half_batch)) in
  let! d_loss_f :=
    Env.lift (Keras.train_on_batch discr fake_imgs (Np.zeros half_batch)) in
  let d_loss := map (fun p => Np.mul (Np.f32 1 (-1)) (Np.add (fst p) (snd p)))
                    (combine d_loss_r d_loss_f) in
  (* Generator Training *)
  let! z := Env.normal (2 * half_batch) nz in
  let! comb := Env.get_model self "comb" in
  let! g_loss :=
    Env.lift (Keras.train_on_batch comb z (Np.ones (2 * half_batch))) in
  Env.print (Env.Progress epoch (nth 0 d_loss Np.zero)
                          (Np.mul (Np.of_int 100) (nth 1 d_loss Np.zero))
                          (hd Np.zero g_loss)) ;;
  let! r := Py.mod_ epoch save_interval in
  if r =? 0 then save_images self epoch (5, 5) else Py.ret tt.

Definition train (self : object) (epochs half_batch save_interval : Z)
  : Py.M Env.world unit :=
  let! x_train := load_images self in
  Py.for_each (Py.range epochs) tt
    (fun epoch _ => train_epoch self x_train half_batch save_interval epoch).

(** The script: the object is built from [CONFIG], then trained (with
    4000, 140 and 3 in the file). *)
Definition main (epochs half_batch save_interval : Z) : Py.M Env.world unit :=
  let! dcgan := __init__ CONFIG in
  train dcgan epochs half_batch save_interval.

End Script.

End DCGAN.

(* ===================================================================== *)
(** * cyclegan/cyclegan.py *)
(* ===================================================================== *)

Module CYCLEGAN.

Record config : Type := {
  size : Z;   (* size of generated pictures *)
  ngf : Z;    (* number of G filters for the first conv layer *)
  nx : Z;     (* dimension for X *)
  ny : Z;     (* dimension for Y *)
  nc : Z;     (* number of output channels *)
  ndf : Z;    (* number of D filters for the first conv layer *)
  lr : Q;     (* initial learning rate for adam *)
  beta1 : Q;  (* momentum term for adam *)
  alpha : Q   (* LeakyReLU slope parameter *)
}.

Definition CONFIG : config := {|
  size := 32; ngf := 16; nx := 100; ny := 100; nc := 3; ndf := 64;
  lr := 2 # 10000; beta1 := 5 # 10; alpha := 2 # 10
|}.

(** The layers [build_generator] adds, in order. *)
Definition generator_layers (ngf channels : Z) : list Keras.layer :=
  [ Keras.Conv2D ngf 4 1 Keras.Valid Keras.Linear;
    Keras.Activation Keras.Relu;
    Keras.BatchNormalization;
    Keras.Conv2D (ngf * 4) 4 1 Keras.Valid Keras.Linear;
    Keras.Activation Keras.Relu;
    Keras.BatchNormalization;
    Keras.Conv2DTranspose ngf 4 1 Keras.Valid Keras.Linear;
    Keras.Activation Keras.Relu;
    Keras.BatchNormalization;
    Keras.Conv2DTranspose ngf 3 1 Keras.Valid Keras.Linear;
    Keras.Conv2DTranspose channels 2 1 Keras.Valid Keras.Tanh ].

(** The layers [build_discriminator] adds, in order. *)
Definition discriminator_layers (ndf : Z) (alpha : Q) : list Keras.layer :=
  [ Keras.Conv2D ndf 4 2 Keras.Same Keras.Linear;
    Keras.LeakyReLU alpha;
    Keras.Conv2D ndf 4 2 Keras.Same Keras.Linear;
    Keras.LeakyReLU alpha;
    Keras.BatchNormalization;
    Keras.Conv2D (ndf * 8) 4 2 Keras.Same Keras.Linear;
    Keras.LeakyReLU alpha;
    Keras.BatchNormalization;
    Keras.Conv2D 1 4 1 Keras.Valid Keras.Sigmoid;
    Keras.Flatten ].

(** The name [save_images] saves under: the format string itself, which
    the method never applies to [epoch]. *)
Definition sample_path (epoch : Z) : string := "output/dcgan_%04i.png".

Section Script.

Context {backend : Keras.Backend} {random : Env.Random}.

Definition build_generator (self : object) : Py.M Env.world nat :=
  let! ngf := Env.get_int self "ngf" in
  let! img_shape := Env.get_tuple self "img_shape" in
  let! model := Env.lift (Keras.sequential
                            (generator_layers ngf (nth 2 img_shape 0))
                            img_shape) in
  Env.print (Env.Line (DCGAN.newline +:+ "%%% Generator %%%")) ;;
  Env.print (Env.Summary model) ;;
  Py.ret model.

Definition build_discriminator (self : object) : Py.M Env.world nat :=
  let! ndf := Env.get_int self "ndf" in
  let! img_shape := Env.get_tuple self "img_shape" in
  let! alpha := Env.get_num self "alpha" in
  let! model := Env.lift (Keras.sequential (discriminator_layers ndf alpha)
                                           img_shape) in
  Env.print (Env.Line (DCGAN.newline +:+ "%%% Discriminator %%%")) ;;
  Env.print (Env.Summary model) ;;
  Py.ret model.

Definition __init__ (cfg : config) : Py.M Env.world object :=
  let self : object := ∅ in
  let img_shape := [size cfg; size cfg; nc cfg] in
  let self := <["img_shape" := Env.VTuple img_shape]> self in
  let self := <["nx" := Env.VInt (nx cfg)]> self in
  let self := <["ny" := Env.VInt (ny cfg)]> self in
  let self := <["ngf" := Env.VInt (ngf cfg)]> self in
  let self := <["ndf" := Env.VInt (ndf cfg)]> self in
  let self := <["alpha" := Env.VNum (alpha cfg)]> self in
  let self := <["nc" := Env.VInt (nc cfg)]> self in
  let! discr1 := build_discriminator self in
  let self := <["discr1" := Env.VModel discr1]> self in
  Env.lift (Keras.compile discr1 "binary_crossentropy" ["accuracy"%string]) ;;
  Env.lift (Keras.set_trainable discr1 false) ;;
  let! discr2 := build_discriminator self in
  let self := <["discr2" := Env.VModel discr2]> self in
  Env.lift (Keras.compile discr2 "binary_crossentropy" ["accuracy"%string]) ;;
  Env.lift (Keras.set_trainable discr2 false) ;;
  let! gen1 := build_generator self in
  let self := <["gen1" := Env.VModel gen1]> self in
  let! gen2 := build_generator self in
  let self := <["gen2" := Env.VModel gen2]> self in
  let x := Keras.input_ "x" img_shape in
  let y := Keras.input_ "y" img_shape in
  let! g1x := Env.lift (Keras.call gen1 x) in
  let! first_gen := Env.lift (Keras.call discr1 g1x) in
  let self := <["first_gen" := Env.VTensor first_gen]> self in
  let! g2y := Env.lift (Keras.call gen2 y) in
  let! second_gen := Env.lift (Keras.call discr2 g2y) in
  let self := <["second_gen" := Env.VTensor second_gen]> self in
  let! comb1 := Env.lift (Keras.functional x first_gen) in
  let self := <["comb1" := Env.VModel comb1]> self in
  let! comb2 := Env.lift (Keras.functional y second_gen) in
  let self := <["comb2" := Env.VModel comb2]> self in
  let! g1x' := Env.lift (Keras.call gen1 x) in
  let! g2g1x := Env.lift (Keras.call gen2 g1x') in
  let! comb := Env.lift (Keras.functional x g2g1x) in
  let self := <["comb" := Env.VModel comb]> self in
  Env.lift (Keras.compile comb "mean_absolute_error" []) ;;
  Env.print (Env.Summary comb) ;;
  Py.ret self.

Definition load_images (self : object) : Py.M Env.world (Np.ndarray Z) :=
  let! files := Env.listdir "input" in
  let! xs :=
    Py.for_each (Py.glob "input" ".png" files) []
      (fun path xs =>
         let img := snd path in
         let! img_shape := Env.get_tuple self "img_shape" in
         if Np.shape_eqb (Np.shape img) img_shape
         then Py.ret (xs ++ [img])
         else
           Env.print (Env.Line ("bad shape for " +:+ fst path +:+ ": "
                                +:+ Py.str_tuple (Np.shape img))) ;;
           Py.ret xs) in
  Py.ret (Np.array xs).

Definition save_images (self : object) (epoch : Z) (n : Z * Z)
  : Py.M Env.world unit :=
  let! gen := Env.get_model self "gen" in
  let! nz := Env.get_int self "nz" in
  let! z := Env.normal (fst n * snd n) nz in
  let! imgs := Env.lift (Keras.predict gen z) in
  let! img_shape := Env.get_tuple self "img_shape" in
  let s0 := nth 0 img_shape 0 + 2 in
  let s1 := nth 1 img_shape 0 + 2 in
  let! out := Env.image_new "rgb" (2 + fst n * s0, 2 + snd n * s1) in
  let! out :=
    Py.for_each (Py.range (fst n)) out (fun i out =>
      Py.for_each (Py.range (snd n)) out (fun j out =>
        Py.ret (Env.paste out (Env.Floats (Np.row imgs (snd n * i + j)))
                          (2 + s0 * i, 2 + s1 * j)))) in
  Env.save out (sample_path epoch).

(** The body of the loop of [train].  [train_on_batch] of a model with a
    metric returns a list, so [.5 * (d_loss_r + d_loss_f)] multiplies a
    list by a float. *)
Definition train_epoch (self : object) (x_train : Np.ndarray Z)
                       (half_batch save_interval epoch : Z)
  : Py.M Env.world unit :=
  (* Discriminator *)
  let! idx := Env.randint 0 (hd 0 (Np.shape x_train)) half_batch in
  let real := Np.take x_train idx in
  let! discr1 := Env.get_model self "discr1" in
  let! d_loss_r :=
    Env.lift (Keras.train_on_batch discr1 (Np.astype_float32 real)
                                   (Np.ones half_batch)) in
  let! nz := Env.get_int self "nz" in
  let! z := Env.normal half_batch nz in
  let! gen1 := Env.get_model self "gen1" in
  let! fake := Env.lift (Keras.predict gen1 z) in
  let! discr1 := Env.get_model self "discr1" in
  let! d_loss_f :=
    Env.lift (Keras.train_on_batch discr1 fake (Np.zeros half_batch)) in
  let! d_loss :=
    (Py.raise (Py.TypeError "can't multiply sequence by non-int of type 'float'")
     : Py.M Env.world (list Np.float32)) in
  (* Generator *)
  let! nz := Env.get_int self "nz" in
  let! z := Env.normal (2 * half_batch) nz in
  let! comb := Env.get_model self "comb" in
  let! g_loss :=
    Env.lift (Keras.train_on_batch comb z (Np.ones (2 * half_batch))) in
  Env.print (Env.Progress epoch (nth 0 d_loss Np.zero)
                          (Np.mul (Np.of_int 100) (nth 1 d_loss Np.zero))
                          (hd Np.zero g_loss)) ;;
  let! r := Py.mod_ epoch save_interval in
  if r =? 0 then save_images self epoch (5, 5) else Py.ret tt.

Definition train (self : object) (epochs half_batch save_interval : Z)
  : Py.M Env.world unit :=
  let! x_train := load_images self in
  Py.for_each (Py.range epochs) tt
    (fun epoch _ => train_epoch self x_train half_batch save_interval epoch).

(** The script builds [d = CYCLEGAN(CONFIG)]; this is [d.train(..)] on that
    object. *)
Definition main (epochs half_batch save_interval : Z) : Py.M Env.world unit :=
  let! d := __init__ CONFIG in
  train d epochs half_batch save_interval.

End Script.

End CYCLEGAN.

(* ===================================================================== *)
(** * Vocabulary of the statements *)
(* ===================================================================== *)

(** The world after more lines went to standard output. *)
Definition printed (w : Env.world) (lines : list Env.output) : Env.world :=
  {| Env.keras := Env.keras w; Env.rng := Env.rng w;
     Env.stdout := Env.stdout w ++ lines; Env.dirs := Env.dirs w;
     Env.written := Env.written w |}.

(** The files of a listing whose image has shape [shp], and the others. *)
Definition has_shape (shp : list Z) (f : string * Np.image) : bool :=
  Np.shape_eqb (Np.shape (snd f)) shp.

Definition kept (shp : list Z) (files : list (string * Np.image))
  : list (string * Np.image) :=
  List.filter (has_shape shp) files.

Definition skipped (shp : list Z) (files : list (string * Np.image))
  : list (string * Np.image) :=
  List.filter (fun f => negb (has_shape shp f)) files.

(** The line printed for a skipped file. *)
Definition bad_shape_line (f : string * Np.image) : Env.output :=
  Env.Line ("bad shape for " +:+ fst f +:+ ": "
            +:+ Py.str_tuple (Np.shape (snd f))).

(** A binary32 number between -1 and 1. *)
Definition in_unit_range (x : Np.float32) : Prop :=
  Np.leb Np.minus_one x = true /\ Np.leb x Np.one = true.

(** The training arrays the two scripts load from the directories [d]. *)
Definition dcgan_training_set (d : gmap string (list (string * Np.image)))
  : Np.ndarray Np.float32 :=
  Np.array
    (map (fun f => Np.map_ DCGAN.normalize (snd f))
         (kept [64; 64; 3]
               (Py.glob "../input/hands_64" ".jpg"
                        (default [] (d !! "../input/hands_64"%string))))).

Definition cyclegan_training_set (d : gmap string (list (string * Np.image)))
  : Np.ndarray Z :=
  Np.array
    (map snd (kept [32; 32; 3]
                   (Py.glob "input" ".png"
                            (default [] (d !! "input"%string))))).

(** The files a script's [load_images] goes through, in order. *)
Definition dcgan_files (src : string) (w : Env.world)
  : list (string * Np.image) :=
  Py.glob src ".jpg" (default [] (Env.dirs w !! src)).

Definition cyclegan_files (w : Env.world) : list (string * Np.image) :=
  Py.glob "input" ".png" (default [] (Env.dirs w !! "input"%string)).


(** A heap holding the given models, whatever the weights and the steps
    run so far. *)
Definition heap_of (ms : gmap nat Keras.model)
                   (ws : gmap (nat * nat) (list Np.float32))
                   (fs : list Keras.fit) : Keras.heap :=
  {| Keras.models := ms; Keras.weights := ws; Keras.fits := fs |}.

(** ** The objects the constructors build

    The models are numbered in the order of their creation. *)




Definition sequential_model (layers : list Keras.layer) (input output : list Z)
                            (is_trainable : bool)
                            (c : option Keras.compiled) : Keras.model :=
  {| Keras.graph_of := Keras.Sequential layers; Keras.input_shape := input;
     Keras.output_shape := output; Keras.trainable := is_trainable;
     Keras.compiled_with := c |}.

Definition functional_model (x : string) (out : Keras.sym)
                            (input output : list Z)
                            (c : option Keras.compiled) : Keras.model :=
  {| Keras.graph_of := Keras.Functional x out; Keras.input_shape := input;
     Keras.output_shape := output; Keras.trainable := true;
     Keras.compiled_with := c |}.

Definition compiled_with (loss_name : string) (metric_names : list string)
                         (ws : list (nat * nat)) : option Keras.compiled :=
  Some {| Keras.loss := loss_name; Keras.metrics := metric_names;
          Keras.collected_trainable_weights := ws |}.

(** The weights a new [Sequential] model [m] starts with. *)
Definition initial_weights `{Keras.Backend} (m : nat)
                           (layers : list Keras.layer)
  : list (nat * nat * list Np.float32) :=
  map (fun il => ((m, fst il), Keras.initializer m (fst il) (snd il)))
      (List.filter (fun il => Keras.has_weights (snd il))
                   (combine (seq 0 (length layers)) layers)).

Definition banner (title : string) (m : nat) : list Env.output :=
  [Env.Line (DCGAN.newline +:+ "%%% " +:+ title +:+ " %%%"); Env.Summary m].

Module DCGAN_built.

Definition discr : nat := 0.
Definition gen : nat := 1.
Definition comb : nat := 2.

Definition discr_layers : list Keras.layer :=
  DCGAN.discriminator_layers 64 (2 # 10).
Definition gen_layers : list Keras.layer := DCGAN.generator_layers 200 64 3.

(** The object the script builds from [CONFIG]. *)
Definition self : object :=
  list_to_map
    [ ("img_shape", Env.VTuple [64; 64; 3]); ("nz", Env.VInt 200);
      ("ngf", Env.VInt 64); ("ndf", Env.VInt 64);
      ("alpha", Env.VNum (2 # 10)); ("discr", Env.VModel discr);
      ("gen", Env.VModel gen); ("src_path", Env.VStr "../input/hands_64");
      ("otp_path", Env.VStr "../output"); ("comb", Env.VModel comb) ]%string.

(** The models it holds. *)
Definition models : gmap nat Keras.model :=
  list_to_map
    [ (discr, sequential_model discr_layers [64; 64; 3] [1] false
                (compiled_with "binary_crossentropy" ["accuracy"%string]
                               (Keras.layer_weights discr discr_layers)));
      (gen, sequential_model gen_layers [200] [64; 64; 3] true None);
      (comb, functional_model "z"
               (Keras.Call discr (Keras.Call gen (Keras.Input "z")))
               [200] [1]
               (compiled_with "binary_crossentropy" []
                              (Keras.layer_weights gen gen_layers))) ].

(** The world right after the constructor returned. *)
Definition world `{Keras.Backend} (d : gmap string (list (string * Np.image)))
  : Env.world :=
  {| Env.keras :=
       {| Keras.models := models;
          Keras.weights := list_to_map (initial_weights discr discr_layers
                                        ++ initial_weights gen gen_layers);
          Keras.fits := [] |};
     Env.rng := 0%nat;
     Env.stdout := banner "Discriminator" discr ++ banner "Generator" gen;
     Env.dirs := d;
     Env.written := [] |}.

End DCGAN_built.

Module CYCLEGAN_built.

Definition discr1 : nat := 0.
Definition discr2 : nat := 1.
Definition gen1 : nat := 2.
Definition gen2 : nat := 3.
Definition comb1 : nat := 4.
Definition comb2 : nat := 5.
Definition comb : nat := 6.

Definition discr_layers : list Keras.layer :=
  CYCLEGAN.discriminator_layers 64 (2 # 10).
Definition gen_layers : list Keras.layer := CYCLEGAN.generator_layers 16 3.

Definition first_gen : Keras.tensor :=
  {| Keras.t_expr := Keras.Call discr1 (Keras.Call gen1 (Keras.Input "x"));
     Keras.t_shape := [1] |}.

Definition second_gen : Keras.tensor :=
  {| Keras.t_expr := Keras.Call discr2 (Keras.Call gen2 (Keras.Input "y"));
     Keras.t_shape := [1] |}.

(** The object [CYCLEGAN(CONFIG)]. *)
Definition self : object :=
  list_to_map
    [ ("img_shape", Env.VTuple [32; 32; 3]); ("nx", Env.VInt 100);
      ("ny", Env.VInt 100); ("ngf", Env.VInt 16); ("ndf", Env.VInt 64);
      ("alpha", Env.VNum (2 # 10)); ("nc", Env.VInt 3);
      ("discr1", Env.VModel discr1); ("discr2", Env.VModel discr2);
      ("gen1", Env.VModel gen1); ("gen2", Env.VModel gen2);
      ("first_gen", Env.VTensor first_gen);
      ("second_gen", Env.VTensor second_gen);
      ("comb1", Env.VModel comb1); ("comb2", Env.VModel comb2);
      ("comb", Env.VModel comb) ]%string.

Definition discr_model (m : nat) : Keras.model :=
  sequential_model discr_layers [32; 32; 3] [1] false
    (compiled_with "binary_crossentropy" ["accuracy"%string]
                   (Keras.layer_weights m discr_layers)).

Definition gen_model : Keras.model :=
  sequential_model gen_layers [32; 32; 3] [32; 32; 3] true None.

(** The models it holds. *)
Definition models : gmap nat Keras.model :=
  list_to_map
    [ (discr1, discr_model discr1); (discr2, discr_model discr2);
      (gen1, gen_model); (gen2, gen_model);
      (comb1, functional_model "x" (Keras.t_expr first_gen)
                [32; 32; 3] [1] None);
      (comb2, functional_model "y" (Keras.t_expr second_gen)
                [32; 32; 3] [1] None);
      (comb, functional_model "x"
               (Keras.Call gen2 (Keras.Call gen1 (Keras.Input "x")))
               [32; 32; 3] [32; 32; 3]
               (compiled_with "mean_absolute_error" []
                  (Keras.layer_weights gen1 gen_layers
                   ++ Keras.layer_weights gen2 gen_layers))) ].

(** The world right after the constructor returned. *)
Definition world `{Keras.Backend} (d : gmap string (list (string * Np.image)))
  : Env.world :=
  {| Env.keras :=
       {| Keras.models := models;
          Keras.weights :=
            list_to_map (initial_weights discr1 discr_layers
                         ++ initial_weights discr2 discr_layers
                         ++ initial_weights gen1 gen_layers
                         ++ initial_weights gen2 gen_layers);
          Keras.fits := [] |};
     Env.rng := 0%nat;
     Env.stdout := banner "Discriminator" discr1
                   ++ banner "Discriminator" discr2
                   ++ banner "Generator" gen1 ++ banner "Generator" gen2
                   ++ [Env.Summary comb];
     Env.dirs := d;
     Env.written := [] |}.

End CYCLEGAN_built.

(** ** Worlds, steps and names the statements speak of *)

(** The world after [n] more draws of the generator. *)
Definition advanced (w : Env.world) (n : nat) : Env.world :=
  {| Env.keras := Env.keras w; Env.rng := (Env.rng w + n)%nat;
     Env.stdout := Env.stdout w; Env.dirs := Env.dirs w;
     Env.written := Env.written w |}.

(** The world after one more file was written. *)
Definition saved (w : Env.world) (path : string) (out : Env.canvas)
  : Env.world :=
  {| Env.keras := Env.keras w; Env.rng := Env.rng w;
     Env.stdout := Env.stdout w; Env.dirs := Env.dirs w;
     Env.written := Env.written w ++ [(path, out)] |}.

(** [k] characters 0. *)
Fixpoint zeros (k : nat) : string :=
  match k with
  | O => ""
  | S k' => String "0" (zeros k')
  end.

(** The number a string of decimal digits stands for. *)
Definition read_digits (s : string) : option Z :=
  option_map Z.of_uint (NilEmpty.uint_of_string s).

(** The grid [save_images] pastes: tile number [n1 * i + j] at column [i],
    row [j]. *)
Definition tiled (as_tile : Np.ndarray Z -> Env.tile) (imgs : Np.ndarray Z)
                 (s0 s1 : Z) (n : Z * Z) (out : Env.canvas) : Env.canvas :=
  fold_left
    (fun out i =>
       fold_left
         (fun out j =>
            Env.paste out (as_tile (Np.row imgs (snd n * i + j)))
                      (2 + s0 * i, 2 + s1 * j))
         (Py.range (snd n)) out)
    (Py.range (fst n)) out.

(** The sample grid of the DCGAN script for the generated batch [imgs]. *)
Definition dcgan_grid (imgs : Np.ndarray Np.float32) : Env.canvas :=
  tiled Env.Bytes (Np.map_ DCGAN.denormalize imgs) 66 66 (5, 5)
        {| Env.mode := "RGB"; Env.extent := (2 + 5 * 66, 2 + 5 * 66);
           Env.pasted := [] |}.

(** An array whose elements fill its shape [s]. *)
Definition filled {A} (s : list Z) (x : Np.ndarray A) : Prop :=
  Np.shape x = s /\ length (Np.data x) = Z.to_nat (Np.size_of s).

Section Run_vocabulary.

Context {backend : Keras.Backend} {random : Env.Random}.

(** The heap after a step of model [m] with collected weights [ks]. *)
Definition stepped (h : Keras.heap) (m : nat) (ks : list (nat * nat))
                   (x y : Np.ndarray Np.float32) : Keras.heap :=
  {| Keras.models := Keras.models h;
     Keras.weights :=
       fold_left (fun acc k => <[k := Keras.optimizer_update h m x y k]> acc)
                 ks (Keras.weights h);
     Keras.fits := Keras.fits h
                   ++ [{| Keras.fit_model := m; Keras.fit_x := x;
                          Keras.fit_y := y |}] |}.

(** The indices [randint] draws. *)
Definition drawn_indices (w : Env.world) (low high : Z) (n : nat) : list Z :=
  map (fun i => low + Env.uniform (Env.rng w + i)%nat mod (high - low))
      (seq 0 n).

(** The samples [normal] draws. *)
Definition drawn_normal (w : Env.world) (n : nat) : list Np.float32 :=
  map (fun i => Env.gauss (Env.rng w + i)%nat) (seq 0 n).

(** The three optimizer steps of one iteration of [DCGAN.train]: the
    discriminator on training images drawn by index with labels 1, the
    discriminator on generated images with labels 0, the composite on a
    latent batch with labels 1. *)
Definition dcgan_iteration (x_train : Np.ndarray Np.float32) (half_batch : Z)
                           (steps : list Keras.fit) : Prop :=
  exists (idx : list Z) (h : Keras.heap) (z0 z : Np.ndarray Np.float32),
    List.Forall (fun i => 0 <= i < hd 0 (Np.shape x_train)) idx
    /\ Z.of_nat (length idx) = half_batch
    /\ Keras.models h = DCGAN_built.models
    /\ Np.shape z0 = [half_batch; 200]
    /\ Np.shape z = [2 * half_batch; 200]
    /\ steps
       = [ {| Keras.fit_model := DCGAN_built.discr;
              Keras.fit_x := Np.take x_train idx;
              Keras.fit_y := Np.ones half_batch |};
           {| Keras.fit_model := DCGAN_built.discr;
              Keras.fit_x := Keras.forward h DCGAN_built.gen z0;
              Keras.fit_y := Np.zeros half_batch |};
           {| Keras.fit_model := DCGAN_built.comb;
              Keras.fit_x := z;
              Keras.fit_y := Np.ones (2 * half_batch) |} ].

(** The first optimizer step of an iteration of [CYCLEGAN.train]. *)
Definition cyclegan_first_step (x_train : Np.ndarray Z) (half_batch : Z)
                               (step : Keras.fit) : Prop :=
  exists idx : list Z,
    List.Forall (fun i => 0 <= i < hd 0 (Np.shape x_train)) idx
    /\ Z.of_nat (length idx) = half_batch
    /\ step = {| Keras.fit_model := CYCLEGAN_built.discr1;
                 Keras.fit_x := Np.astype_float32 (Np.take x_train idx);
                 Keras.fit_y := Np.ones half_batch |}.

End Run_vocabulary.

(** The side of the square map the discriminator of each script leaves
    before [Flatten], for images of side [size]: three (or four) halvings
    rounding up, the pooling and upsampling pair of the DCGAN script, and
    the final 4x4 convolution without padding. *)
Definition dcgan_discriminator_side (size : Z) : Z :=
  ((((size + 1) / 2 + 1) / 2 + 1) / 2 / 2 * 2 + 1) / 2 - 3.

Definition cyclegan_discriminator_side (size : Z) : Z :=
  (((size + 1) / 2 + 1) / 2 + 1) / 2 - 3.

(** The epochs of the progress lines among what was printed, in order. *)
Definition progress_epochs (out : list Env.output) : list Z :=
  flat_map (fun o => match o with
                     | Env.Progress epoch _ _ _ => [epoch]
                     | _ => []
                     end) out.

(** ** Sample inputs *)

Module Demo.

(** A backend that passes numbers through and never moves a weight. *)
Definition null : Keras.Backend := {|
  Keras.act_fn := fun _ x => x;
  Keras.kernel_op := fun _ _ x => Np.data x;
  Keras.initializer := fun _ _ _ => [];
  Keras.optimizer_update := fun _ _ _ _ _ => [];
  Keras.loss_value := fun _ _ _ _ => Np.zero;
  Keras.metric_value := fun _ _ _ _ _ => Np.zero
|}.

(** A generator stream that counts. *)
Definition counter : Env.Random := {|
  Env.uniform := fun i => Z.of_nat i;
  Env.gauss := fun i => Np.of_int (Z.of_nat i)
|}.

(** An image of the given shape with every sample at 255. *)
Definition white (shp : list Z) : Np.image :=
  Np.mk shp (repeat 255 (Z.to_nat (Np.size_of shp))).

Definition hands : gmap string (list (string * Np.image)) :=
  {[ "../input/hands_64"%string :=
       [ ("a.jpg"%string, white [64; 64; 3]);
         ("b.jpg"%string, white [64; 64; 4]);
         ("c.png"%string, white [64; 64; 3]) ] ]}.

Definition inputs : gmap string (list (string * Np.image)) :=
  {[ "input"%string :=
       [ ("a.png"%string, white [32; 32; 3]);
         ("b.png"%string, white [32; 32]) ] ]}.

(** The directory the DCGAN script writes to, empty. *)
Definition output : gmap string (list (string * Np.image)) :=
  {[ "../output"%string := [] ]}.

(** The three directories. *)
Definition disk : gmap string (list (string * Np.image)) :=
  hands ∪ inputs ∪ output.


End Demo.

(* ===================================================================== *)
(** * The constructors *)
(* ===================================================================== *)

Lemma dcgan_init `{Keras.Backend} (d : gmap string (list (string * Np.image))) :
  DCGAN.__init__ DCGAN.CONFIG (Env.initial d)
  = (inr DCGAN_built.self, DCGAN_built.world d).
Proof. vm_compute. reflexivity. Qed.

Lemma cyclegan_init `{Keras.Backend}
      (d : gmap string (list (string * Np.image))) :
  CYCLEGAN.__init__ CYCLEGAN.CONFIG (Env.initial d)
  = (inr CYCLEGAN_built.self, CYCLEGAN_built.world d).
Proof. vm_compute. reflexivity. Qed.

(* ===================================================================== *)
(** * Loading images *)
(* ===================================================================== *)

Lemma printed_nil (w : Env.world) : printed w [] = w.
Proof. destruct w; unfold printed; simpl. now rewrite app_nil_r. Qed.

Lemma printed_app (w : Env.world) (a b : list Env.output) :
  printed (printed w a) b = printed w (a ++ b).
Proof. unfold printed; simpl. now rewrite app_assoc. Qed.

Lemma print_printed (o : Env.output) (w : Env.world) :
  Env.print o w = (inr tt, printed w [o]).
Proof. reflexivity. Qed.

(** A loop whose body appends to the local list and prints, and never
    raises, is a fold. *)
Lemma for_each_collect {A B} (body : A -> list B -> Py.M Env.world (list B))
      (item : A -> list B) (lines : A -> list Env.output) :
  (forall x acc w, body x acc w = (inr (acc ++ item x), printed w (lines x))) ->
  forall xs acc w,
    Py.for_each xs acc body w
    = (inr (acc ++ flat_map item xs), printed w (flat_map lines xs)).
Proof.
  intros Hbody xs; induction xs as [|x xs IH]; intros acc w; simpl.
  - now rewrite app_nil_r, printed_nil.
  - unfold Py.bind. rewrite Hbody, IH, printed_app.
    now rewrite <- app_assoc.
Qed.

Lemma flat_map_kept {A B} (p : A -> bool) (f : A -> B) (xs : list A) :
  flat_map (fun x => if p x then [f x] else []) xs = map f (List.filter p xs).
Proof.
  induction xs as [|x xs IH]; simpl; [reflexivity|].
  destruct (p x); simpl; now rewrite IH.
Qed.

Lemma flat_map_skipped {A B} (p : A -> bool) (f : A -> B) (xs : list A) :
  flat_map (fun x => if p x then [] else [f x]) xs
  = map f (List.filter (fun x => negb (p x)) xs).
Proof.
  induction xs as [|x xs IH]; simpl; [reflexivity|].
  destruct (p x); simpl; now rewrite IH.
Qed.

(** ** Running a computation step by step *)

Lemma bind_ok {W A B} (m : Py.M W A) (k : A -> Py.M W B) (w w' : W) (a : A) :
  m w = (inr a, w') -> Py.bind m k w = k a w'.
Proof. intros E. unfold Py.bind. now rewrite E. Qed.

Lemma bind_err {W A B} (m : Py.M W A) (k : A -> Py.M W B) (w w' : W)
      (e : Py.exn) :
  m w = (inl e, w') -> Py.bind m k w = (inl e, w').
Proof. intros E. unfold Py.bind. now rewrite E. Qed.

Section Attributes.

Variables (self : object) (name : string) (w : Env.world).

Lemma get_int_some (n : Z) :
  self !! name = Some (Env.VInt n) -> Env.get_int self name w = (inr n, w).
Proof. intros E. unfold Env.get_int, Py.bind, Py.getattr. now rewrite E. Qed.

Lemma get_num_some (q : Q) :
  self !! name = Some (Env.VNum q) -> Env.get_num self name w = (inr q, w).
Proof. intros E. unfold Env.get_num, Py.bind, Py.getattr. now rewrite E. Qed.

Lemma get_str_some (x : string) :
  self !! name = Some (Env.VStr x) -> Env.get_str self name w = (inr x, w).
Proof. intros E. unfold Env.get_str, Py.bind, Py.getattr. now rewrite E. Qed.

Lemma get_tuple_some (t : list Z) :
  self !! name = Some (Env.VTuple t) -> Env.get_tuple self name w = (inr t, w).
Proof. intros E. unfold Env.get_tuple, Py.bind, Py.getattr. now rewrite E. Qed.

Lemma get_model_some (r : nat) :
  self !! name = Some (Env.VModel r) -> Env.get_model self name w = (inr r, w).
Proof. intros E. unfold Env.get_model, Py.bind, Py.getattr. now rewrite E. Qed.

Lemma get_int_none :
  self !! name = None ->
  Env.get_int self name w = (inl (Py.AttributeError name), w).
Proof. intros E. unfold Env.get_int, Py.bind, Py.getattr. now rewrite E. Qed.

Lemma get_model_none :
  self !! name = None ->
  Env.get_model self name w = (inl (Py.AttributeError name), w).
Proof. intros E. unfold Env.get_model, Py.bind, Py.getattr. now rewrite E. Qed.

End Attributes.

(** ** Rows of a stacked array *)

Lemma length_concat_filled {A} (s : list Z) (xs : list (Np.ndarray A)) :
  List.Forall (filled s) xs ->
  length (concat (map Np.data xs))
  = (length xs * Z.to_nat (Np.size_of s))%nat.
Proof.
  induction 1 as [|x xs [_ Hx] _ IH]; simpl; [reflexivity|].
  rewrite length_app, Hx, IH. reflexivity.
Qed.

Lemma rows_from {A} (s : list Z) (xs : list (Np.ndarray A)) :
  forall pre : list (Np.ndarray A),
    List.Forall (filled s) pre -> List.Forall (filled s) xs ->
    map (fun i =>
           Np.mk s (firstn (Z.to_nat (Np.size_of s))
                      (skipn (Z.to_nat i * Z.to_nat (Np.size_of s))
                             (concat (map Np.data (pre ++ xs))))))
        (map Z.of_nat (seq (length pre) (length xs)))
    = xs.
Proof.
  induction xs as [|x xs IH]; intros pre Hpre Hxs; [reflexivity|].
  inversion Hxs as [|? ? Hx Hxs']; subst. simpl. f_equal.
  - rewrite Nat2Z.id, map_app, concat_app.
    rewrite <- (length_concat_filled s pre Hpre).
    rewrite skipn_app, skipn_all, Nat.sub_diag. simpl.
    destruct Hx as [Hs Hlen]. rewrite <- Hlen, skipn_O.
    rewrite firstn_app, firstn_all, Nat.sub_diag, firstn_O, app_nil_r.
    destruct x; simpl in *. now subst.
  - specialize (IH (pre ++ [x])).
    rewrite <- app_assoc, length_app, Nat.add_1_r in IH. simpl in IH.
    apply IH; [|exact Hxs'].
    apply Forall_app. split; [exact Hpre | now constructor].
Qed.

(** The rows of [array(xs)] are the stacked arrays themselves, in order. *)
Lemma rows_array {A} (s : list Z) (xs : list (Np.ndarray A)) :
  List.Forall (filled s) xs -> Np.rows (Np.array xs) = xs.
Proof.
  intros Hxs. destruct xs as [|x xs]; [reflexivity|].
  unfold Np.rows, Np.array, Np.row, Py.range. cbn [Np.shape Np.data hd tl].
  rewrite Nat2Z.id.
  inversion Hxs as [|? ? [Hs Hlen] Hxs']; subst.
  exact (rows_from (Np.shape x) (x :: xs) [] ltac:(constructor) Hxs).
Qed.

(** [DCGAN.load_images] as a function of the directory. *)
Lemma dcgan_load_images_eq (self : object) (src : string) (shp : list Z)
      (w : Env.world) :
  self !! "src_path"%string = Some (Env.VStr src) ->
  self !! "img_shape"%string = Some (Env.VTuple shp) ->
  DCGAN.load_images self w
  = (inr (Np.array (map (fun f => Np.map_ DCGAN.normalize (snd f))
                        (kept shp (dcgan_files src w)))),
     printed w (map bad_shape_line (skipped shp (dcgan_files src w)))).
Proof.
  intros Hsrc Hshape. unfold DCGAN.load_images.
  rewrite (bind_ok _ _ _ _ _ (get_str_some _ _ _ _ Hsrc)).
  rewrite (bind_ok _ _ w w (default [] (Env.dirs w !! src))) by reflexivity.
  erewrite bind_ok; cycle 1.
  - apply (for_each_collect _
             (fun f => if has_shape shp f
                       then [Np.map_ DCGAN.normalize (snd f)] else [])
             (fun f => if has_shape shp f then [] else [bad_shape_line f])).
    intros f acc w0.
    rewrite (bind_ok _ _ _ _ _ (get_tuple_some _ _ _ _ Hshape)).
    unfold has_shape. destruct (Np.shape_eqb (Np.shape (snd f)) shp).
    + unfold Py.ret. now rewrite printed_nil.
    + rewrite (bind_ok _ _ _ _ _ (print_printed _ _)).
      unfold Py.ret. now rewrite app_nil_r.
  - unfold Py.ret, kept, skipped, dcgan_files; simpl.
    now rewrite flat_map_kept, flat_map_skipped.
Qed.

(** [CYCLEGAN.load_images] as a function of the directory. *)
Lemma cyclegan_load_images_eq (self : object) (shp : list Z) (w : Env.world) :
  self !! "img_shape"%string = Some (Env.VTuple shp) ->
  CYCLEGAN.load_images self w
  = (inr (Np.array (map snd (kept shp (cyclegan_files w)))),
     printed w (map bad_shape_line (skipped shp (cyclegan_files w)))).
Proof.
  intros Hshape. unfold CYCLEGAN.load_images.
  rewrite (bind_ok _ _ w w (default [] (Env.dirs w !! "input"%string)))
    by reflexivity.
  erewrite bind_ok; cycle 1.
  - apply (for_each_collect _
             (fun f => if has_shape shp f then [snd f] else [])
             (fun f => if has_shape shp f then [] else [bad_shape_line f])).
    intros f acc w0.
    rewrite (bind_ok _ _ _ _ _ (get_tuple_some _ _ _ _ Hshape)).
    unfold has_shape. destruct (Np.shape_eqb (Np.shape (snd f)) shp).
    + unfold Py.ret. now rewrite printed_nil.
    + rewrite (bind_ok _ _ _ _ _ (print_printed _ _)).
      unfold Py.ret. now rewrite app_nil_r.
  - unfold Py.ret, kept, skipped, cyclegan_files; simpl.
    now rewrite flat_map_kept, flat_map_skipped.
Qed.

Lemma kept_spec (shp : list Z) (files : list (string * Np.image))
      (f : string * Np.image) :
  In f (kept shp files) <-> In f files /\ Np.shape (snd f) = shp.
Proof.
  unfold kept, has_shape, Np.shape_eqb. rewrite filter_In.
  destruct (decide (Np.shape (snd f) = shp)); intuition congruence.
Qed.


Lemma glob_entry {F} (dir ext : string) (listing : list (string * F))
      (f : string * F) :
  In f (Py.glob dir ext listing) -> exists name, In (name, snd f) listing.
Proof.
  unfold Py.glob. rewrite in_map_iff. intros ((name & x) & <- & Hin).
  apply filter_In in Hin as [Hin _]. now exists name.
Qed.

Lemma filled_map {A B} (f : A -> B) (x : Np.ndarray A) :
  filled (Np.shape x) x -> filled (Np.shape x) (Np.map_ f x).
Proof.
  intros [_ Hlen]. split; [reflexivity|].
  cbn [Np.map_ Np.data]. now rewrite length_map.
Qed.





(* ===================================================================== *)
(** * Pixel values *)
(* ===================================================================== *)

Lemma normalize_range_checked :
  forallb (fun k => Np.leb Np.minus_one (DCGAN.normalize (Z.of_nat k))
                    && Np.leb (DCGAN.normalize (Z.of_nat k)) Np.one)
          (seq 0 256) = true.
Proof. vm_compute. reflexivity. Qed.

(** Every 8-bit sample is normalised into the closed interval from -1
    to 1. *)
Lemma normalize_in_unit_range (v : Z) :
  Np.is_uint8 v -> in_unit_range (DCGAN.normalize v).
Proof.
  intros [Hlo Hhi].
  assert (Hv : In (Z.to_nat v) (seq 0 256)) by (apply in_seq; lia).
  apply (proj1 (forallb_forall _ _) normalize_range_checked) in Hv.
  cbv beta in Hv. rewrite Z2Nat.id in Hv by exact Hlo.
  apply andb_prop in Hv. exact Hv.
Qed.

Lemma data_array {A} (xs : list (Np.ndarray A)) :
  Np.data (Np.array xs) = concat (map Np.data xs).
Proof. destruct xs; reflexivity. Qed.

Lemma Forall_concat_map {A B} (P : B -> Prop) (f : A -> list B) (xs : list A) :
  (forall x, In x xs -> List.Forall P (f x)) ->
  List.Forall P (concat (map f xs)).
Proof.
  induction xs as [|x xs IH]; intros Hall; simpl; [constructor|].
  apply Forall_app. split; [apply Hall; now left|].
  apply IH. intros y Hy. apply Hall. now right.
Qed.

Lemma white_uint8 (shp : list Z) :
  List.Forall Np.is_uint8 (Np.data (Demo.white shp)).
Proof.
  apply List.Forall_forall. intros v Hv. apply repeat_spec in Hv.
  subst v. unfold Np.is_uint8. lia.
Qed.

(** C3 (counterexample).  With a white 32x32x3 image in [input/], the
    training array of the CycleGAN script holds the sample 255, which is
    not in the interval from -1 to 1. *)
Lemma cyclegan_load_images_keeps_raw_samples :
  exists x_train w',
    CYCLEGAN.load_images CYCLEGAN_built.self (Env.initial Demo.inputs)
    = (inr x_train, w')
    /\ In 255 (Np.data x_train) /\ ~ (-1 <= 255 <= 1).
Proof.
  eexists. eexists. split; [|split].
  - erewrite cyclegan_load_images_eq by reflexivity. reflexivity.
  - rewrite data_array. vm_compute. left. reflexivity.
  - lia.
Qed.

(** C3 (amended).  In the DCGAN script, for a source directory that [glob]
    takes literally, every sample of the training array is the binary32
    value [(v - 127.5) / 127.5] of the 8-bit sample [v] it comes from, and
    lies between -1 and 1.  In the CycleGAN script the training array holds
    the 8-bit samples themselves. *)
Theorem load_images_sample_values
        (dcgan cyclegan : object) (src : string) (shp shp' : list Z)
        (w : Env.world) :
  dcgan !! "src_path"%string = Some (Env.VStr src) ->
  Py.literal_dir src = true ->
  dcgan !! "img_shape"%string = Some (Env.VTuple shp) ->
  cyclegan !! "img_shape"%string = Some (Env.VTuple shp') ->
  (forall f, In f (dcgan_files src w) ->
             List.Forall Np.is_uint8 (Np.data (snd f))) ->
  (exists x_train w',
      DCGAN.load_images dcgan w = (inr x_train, w')
      /\ Np.data x_train
         = map DCGAN.normalize
               (concat (map (fun f => Np.data (snd f))
                            (kept shp (dcgan_files src w))))
      /\ List.Forall in_unit_range (Np.data x_train))
  /\ (exists x_train w',
         CYCLEGAN.load_images cyclegan w = (inr x_train, w')
         /\ Np.data x_train
            = concat (map (fun f => Np.data (snd f))
                          (kept shp' (cyclegan_files w)))).
Proof.
  intros Hsrc _ Hshape Hshape' Hraw. split.
  - eexists. eexists.
    split; [exact (dcgan_load_images_eq _ _ _ _ Hsrc Hshape)|].
    rewrite data_array, map_map. simpl.
    split; [rewrite concat_map, map_map; reflexivity|].
    apply Forall_concat_map. intros f Hf. apply List.Forall_map.
    apply kept_spec in Hf as [Hf _].
    eapply List.Forall_impl; [|apply (Hraw f Hf)].
    intros v Hv. now apply normalize_in_unit_range.
  - eexists. eexists.
    split; [exact (cyclegan_load_images_eq _ _ _ Hshape')|].
    rewrite data_array, map_map. reflexivity.
Qed.

Lemma load_images_sample_values_witness :
  let w := Env.initial Demo.disk in
  (exists x_train w',
      DCGAN.load_images DCGAN_built.self w = (inr x_train, w')
      /\ Np.data x_train
         = map DCGAN.normalize
               (concat (map (fun f => Np.data (snd f))
                            (kept [64; 64; 3]
                                  (dcgan_files "../input/hands_64" w))))
      /\ List.Forall in_unit_range (Np.data x_train))
  /\ (exists x_train w',
         CYCLEGAN.load_images CYCLEGAN_built.self w = (inr x_train, w')
         /\ Np.data x_train
            = concat (map (fun f => Np.data (snd f))
                          (kept [32; 32; 3] (cyclegan_files w)))).
Proof.
  intros w.
  apply (load_images_sample_values DCGAN_built.self CYCLEGAN_built.self
           "../input/hands_64" [64; 64; 3] [32; 32; 3] w);
    [reflexivity | reflexivity | reflexivity | reflexivity |].
  intros f Hf. apply glob_entry in Hf as (name & Hin).
  change (In (name, snd f)
             [ ("a.jpg"%string, Demo.white [64; 64; 3]);
               ("b.jpg"%string, Demo.white [64; 64; 4]);
               ("c.png"%string, Demo.white [64; 64; 3]) ]) in Hin.
  destruct Hin as [E | [E | [E | []]]]; inversion E; apply white_uint8.
Defined.

(** C4.  At the two ends of the normalised range the conversion used for
    saving gives back the 8-bit ends exactly: -1 (the normalised 0) becomes
    0 and 1 (the normalised 255) becomes 255. *)
Theorem denormalize_boundaries :
  DCGAN.normalize 0 = Np.minus_one /\ DCGAN.normalize 255 = Np.one
  /\ DCGAN.denormalize Np.minus_one = 0 /\ DCGAN.denormalize Np.one = 255.
Proof. repeat split; vm_compute; reflexivity. Qed.

(* ===================================================================== *)
(** * Shapes *)
(* ===================================================================== *)

Section Shapes.

Context {S : Type}.
Variable act_fn : Keras.activation -> S -> S.
Variable kernel_op : option (list S) -> Keras.layer -> Np.ndarray S -> list S.

(** The forward pass gives a batch the shape that shape inference
    announces. *)
Lemma call_layers_shape (layers : list Keras.layer) :
  forall (ws : nat -> option (list S)) (i : nat) (x : Np.ndarray S)
         (n : Z) (s out : list Z),
    Np.shape x = n :: s ->
    Keras.output_shape_of layers s = Some out ->
    Np.shape (Keras.call_layers act_fn kernel_op ws i layers x) = n :: out.
Proof.
  induction layers as [|l layers IH]; intros ws i x n s out Hx Hout; simpl in *.
  - now inversion Hout; subst.
  - destruct (Keras.compute_output_shape l s) as [s'|] eqn:El; [|discriminate].
    apply (IH ws (Datatypes.S i) _ n s' out); [|exact Hout].
    unfold Keras.call_layer; simpl. rewrite Hx; simpl. now rewrite El.
Qed.





End Shapes.


Lemma output_shape_of_cons (l : Keras.layer) (layers : list Keras.layer)
      (s s' : list Z) :
  Keras.compute_output_shape l s = Some s' ->
  Keras.output_shape_of (l :: layers) s = Keras.output_shape_of layers s'.
Proof. intros E. simpl. now rewrite E. Qed.

Lemma spatial_some (f g : Z -> Z) (r c ch r' c' ch' : Z) :
  f r = r' -> f c = c' -> g ch = ch' -> 0 < r' -> 0 < c' -> 0 < ch' ->
  Keras.spatial f g [r; c; ch] = Some [r'; c'; ch'].
Proof.
  intros <- <- <- Hr Hc Hch. unfold Keras.spatial, forallb.
  now rewrite !(proj2 (Z.ltb_lt _ _)) by assumption.
Qed.

(** One layer of shape inference: the layer keeps the shape, or it is a
    spatial layer whose sizes are evaluated. *)
Ltac infer_layer :=
  erewrite output_shape_of_cons;
  [ | first
        [ reflexivity
        | apply spatial_some;
          [ vm_compute; reflexivity | vm_compute; reflexivity | reflexivity
          | lia | lia | lia ]
        | apply spatial_some;
          [ cbv beta delta [Keras.conv_output_length Keras.deconv_length];
            rewrite ?Z.div_1_r; reflexivity
          | cbv beta delta [Keras.conv_output_length Keras.deconv_length];
            rewrite ?Z.div_1_r; reflexivity
          | reflexivity
          | lia | lia | lia ] ] ].

(** The generator of the DCGAN script outputs 64x64 images whatever [size]
    is configured. *)
Lemma dcgan_generator_shape (nz ngf nc : Z) :
  0 < nz -> 0 < ngf -> 0 < nc ->
  Keras.output_shape_of (DCGAN.generator_layers nz ngf nc) [nz]
  = Some [64; 64; nc].
Proof.
  intros Hz Hf Hc. unfold DCGAN.generator_layers.
  erewrite output_shape_of_cons; cycle 1.
  { unfold Keras.compute_output_shape, Np.size_of, fold_right.
    now rewrite (proj2 (Z.eqb_eq _ _)) by lia. }
  do 18 infer_layer. reflexivity.
Qed.

(** The generator of the CycleGAN script gives back the shape it is given,
    from 7x7 on. *)
Lemma cyclegan_generator_shape (size ngf nc : Z) :
  7 <= size -> 0 < ngf -> 0 < nc ->
  Keras.output_shape_of (CYCLEGAN.generator_layers ngf nc) [size; size; nc]
  = Some [size; size; nc].
Proof.
  intros Hs Hf Hc. unfold CYCLEGAN.generator_layers.
  do 11 infer_layer. simpl. repeat f_equal; lia.
Qed.

(* ===================================================================== *)
(** * The library calls *)
(* ===================================================================== *)

Section Library.

Context {backend : Keras.Backend}.

Lemma lookup_model_some (h : Keras.heap) (m : nat) (md : Keras.model) :
  Keras.models h !! m = Some md -> Keras.lookup_model m h = (inr md, h).
Proof. intros E. unfold Keras.lookup_model. now rewrite E. Qed.

Lemma check_array_ok (what : string) (expected : list Z)
      (a : Np.ndarray Np.float32) (h : Keras.heap) :
  tl (Np.shape a) = expected ->
  Keras.check_array what expected a h = (inr tt, h).
Proof.
  intros E. unfold Keras.check_array, Np.shape_eqb.
  now destruct (decide (tl (Np.shape a) = expected)).
Qed.

Lemma forward_sequential (h : Keras.heap) (m : nat) (md : Keras.model)
      (layers : list Keras.layer) (x : Np.ndarray Np.float32) :
  Keras.models h !! m = Some md ->
  Keras.graph_of md = Keras.Sequential layers ->
  Keras.forward h m x
  = Keras.call_layers Keras.act_fn Keras.kernel_op
      (fun i => Keras.weights h !! (m, i)) 0 layers x.
Proof.
  intros Em Eg. unfold Keras.forward, Keras.run_sequential.
  now rewrite Em, Eg.
Qed.

Lemma forward_functional (h : Keras.heap) (m : nat) (md : Keras.model)
      (name : string) (out : Keras.sym) (x : Np.ndarray Np.float32) :
  Keras.models h !! m = Some md ->
  Keras.graph_of md = Keras.Functional name out ->
  Keras.forward h m x = Keras.eval_sym h out x.
Proof. intros Em Eg. unfold Keras.forward. now rewrite Em, Eg. Qed.

Lemma check_non_empty_ok (e : Py.exn) (a : Np.ndarray Np.float32)
      (h : Keras.heap) :
  1 <= hd 0 (Np.shape a) -> Keras.check_non_empty e a h = (inr tt, h).
Proof.
  intros Ha. unfold Keras.check_non_empty.
  now rewrite (proj2 (Z.leb_gt _ _)) by lia.
Qed.

Lemma check_non_empty_err (e : Py.exn) (a : Np.ndarray Np.float32)
      (h : Keras.heap) :
  hd 0 (Np.shape a) <= 0 -> Keras.check_non_empty e a h = (inl e, h).
Proof.
  intros Ha. unfold Keras.check_non_empty.
  now rewrite (proj2 (Z.leb_le _ _)) by lia.
Qed.

Lemma predict_ok (h : Keras.heap) (m : nat) (md : Keras.model)
      (x : Np.ndarray Np.float32) :
  Keras.models h !! m = Some md ->
  1 <= hd 0 (Np.shape x) ->
  tl (Np.shape x) = Keras.input_shape md ->
  Keras.predict m x h = (inr (Keras.forward h m x), h).
Proof.
  intros Em Hn Ex. unfold Keras.predict.
  rewrite (bind_ok _ _ _ _ _ (lookup_model_some _ _ _ Em)).
  rewrite (bind_ok _ _ _ _ _ (check_non_empty_ok _ _ _ Hn)).
  rewrite (bind_ok _ _ _ _ _ (check_array_ok _ _ _ _ Ex)).
  reflexivity.
Qed.

(** [predict] refuses a batch without a sample. *)
Lemma predict_empty (h : Keras.heap) (m : nat) (md : Keras.model)
      (x : Np.ndarray Np.float32) :
  Keras.models h !! m = Some md ->
  hd 0 (Np.shape x) <= 0 ->
  Keras.predict m x h
  = (inl (Py.ValueError "Expected input data to be non-empty."), h).
Proof.
  intros Em Hn. unfold Keras.predict.
  rewrite (bind_ok _ _ _ _ _ (lookup_model_some _ _ _ Em)).
  now rewrite (bind_err _ _ _ _ _ (check_non_empty_err _ _ _ Hn)).
Qed.

Lemma train_on_batch_ok (h : Keras.heap) (m : nat) (md : Keras.model)
      (c : Keras.compiled) (x y : Np.ndarray Np.float32) :
  Keras.models h !! m = Some md ->
  Keras.compiled_with md = Some c ->
  tl (Np.shape x) = Keras.input_shape md ->
  tl (Np.shape y) = Keras.output_shape md ->
  hd 0 (Np.shape x) = hd 0 (Np.shape y) ->
  1 <= hd 0 (Np.shape x) ->
  Keras.train_on_batch m x y h
  = (inr (Keras.loss_value h m x y
          :: map (fun name => Keras.metric_value name h m x y)
                 (Keras.metrics c)),
     stepped h m (Keras.collected_trainable_weights c) x y).
Proof.
  intros Em Ec Ex Ey Exy Hn. unfold Keras.train_on_batch.
  rewrite (bind_ok _ _ _ _ _ (lookup_model_some _ _ _ Em)). rewrite Ec.
  rewrite (bind_ok _ _ _ _ _ (check_array_ok _ _ _ _ Ex)).
  rewrite (bind_ok _ _ _ _ _ (check_array_ok _ _ _ _ Ey)).
  rewrite Exy at 1. rewrite Z.eqb_refl.
  erewrite bind_ok by reflexivity.
  rewrite (bind_ok _ _ _ _ _ (check_non_empty_ok _ _ _ Hn)).
  reflexivity.
Qed.

(** A step on arrays of the right shapes that hold no sample fails, and
    the library is left as it was. *)
Lemma train_on_batch_empty (h : Keras.heap) (m : nat) (md : Keras.model)
      (c : Keras.compiled) (x y : Np.ndarray Np.float32) :
  Keras.models h !! m = Some md ->
  Keras.compiled_with md = Some c ->
  tl (Np.shape x) = Keras.input_shape md ->
  tl (Np.shape y) = Keras.output_shape md ->
  hd 0 (Np.shape x) = hd 0 (Np.shape y) ->
  hd 0 (Np.shape x) <= 0 ->
  Keras.train_on_batch m x y h
  = (inl (Py.InvalidArgumentError "empty batch"), h).
Proof.
  intros Em Ec Ex Ey Exy Hn. unfold Keras.train_on_batch.
  rewrite (bind_ok _ _ _ _ _ (lookup_model_some _ _ _ Em)). rewrite Ec.
  rewrite (bind_ok _ _ _ _ _ (check_array_ok _ _ _ _ Ex)).
  rewrite (bind_ok _ _ _ _ _ (check_array_ok _ _ _ _ Ey)).
  rewrite Exy at 1. rewrite Z.eqb_refl.
  erewrite bind_ok by reflexivity.
  now rewrite (bind_err _ _ _ _ _ (check_non_empty_err _ _ _ Hn)).
Qed.

(** Whatever a step does, it leaves the models as they are, and it leaves
    every weight that is not among the collected ones as it is. *)
Lemma fold_insert_other {K V} `{Countable K} (f : K -> V) (ks : list K)
      (k : K) :
  forall m : gmap K V,
    ~ In k ks -> fold_left (fun acc j => <[j := f j]> acc) ks m !! k = m !! k.
Proof.
  induction ks as [|j ks IH]; intros m Hk; simpl; [reflexivity|].
  rewrite IH by (intros Hin; apply Hk; now right).
  apply lookup_insert_ne. intros ->. apply Hk. now left.
Qed.

Lemma train_on_batch_frame (h : Keras.heap) (m : nat) (md : Keras.model)
      (c : Keras.compiled) (x y : Np.ndarray Np.float32) (k : nat * nat) :
  Keras.models h !! m = Some md ->
  Keras.compiled_with md = Some c ->
  ~ In k (Keras.collected_trainable_weights c) ->
  Keras.weights (snd (Keras.train_on_batch m x y h)) !! k
  = Keras.weights h !! k.
Proof.
  intros Em Ec Hk. unfold Keras.train_on_batch.
  rewrite (bind_ok _ _ _ _ _ (lookup_model_some _ _ _ Em)). rewrite Ec.
  unfold Py.bind, Keras.check_array.
  destruct (Np.shape_eqb (tl (Np.shape x)) (Keras.input_shape md));
    [|reflexivity].
  destruct (Np.shape_eqb (tl (Np.shape y)) (Keras.output_shape md));
    [|reflexivity].
  simpl. destruct (hd 0 (Np.shape x) =? hd 0 (Np.shape y)); [|reflexivity].
  unfold Keras.check_non_empty.
  destruct (hd 0 (Np.shape x) <=? 0); [reflexivity|].
  simpl. now apply fold_insert_other.
Qed.

Lemma layer_weights_owner (m : nat) (layers : list Keras.layer)
      (k : nat * nat) :
  In k (Keras.layer_weights m layers) -> fst k = m.
Proof.
  unfold Keras.layer_weights. rewrite in_map_iff.
  now intros (il & <- & _).
Qed.

End Library.

(* ===================================================================== *)
(** * The generator and the discriminator *)
(* ===================================================================== *)

(** C5.  In each script as configured, the generator maps every batch of
    at least one input of the configured shape (latent vectors of length
    [nz] in DCGAN, images in CycleGAN) to a batch of images of the
    configured shape [(size, size, nc)], whatever the weights are. *)
Theorem generator_output_has_image_shape `{Keras.Backend}
        (d : gmap string (list (string * Np.image))) :
  (exists self w gen,
      DCGAN.__init__ DCGAN.CONFIG (Env.initial d) = (inr self, w)
      /\ self !! "gen"%string = Some (Env.VModel gen)
      /\ forall ws fs n latent, 1 <= n ->
           let h := heap_of (Keras.models (Env.keras w)) ws fs in
           exists y,
             Keras.predict gen (Np.mk [n; DCGAN.nz DCGAN.CONFIG] latent) h
             = (inr y, h)
             /\ Np.shape y = [n; DCGAN.size DCGAN.CONFIG;
                              DCGAN.size DCGAN.CONFIG; DCGAN.nc DCGAN.CONFIG])
  /\ (exists self w gen1 gen2,
         CYCLEGAN.__init__ CYCLEGAN.CONFIG (Env.initial d) = (inr self, w)
         /\ self !! "gen1"%string = Some (Env.VModel gen1)
         /\ self !! "gen2"%string = Some (Env.VModel gen2)
         /\ forall ws fs n pixels g, 1 <= n -> g = gen1 \/ g = gen2 ->
              let img_shape := [CYCLEGAN.size CYCLEGAN.CONFIG;
                                CYCLEGAN.size CYCLEGAN.CONFIG;
                                CYCLEGAN.nc CYCLEGAN.CONFIG] in
              let h := heap_of (Keras.models (Env.keras w)) ws fs in
              exists y,
                Keras.predict g (Np.mk (n :: img_shape) pixels) h = (inr y, h)
                /\ Np.shape y = n :: img_shape).
Proof.
  split.
  - exists DCGAN_built.self, (DCGAN_built.world d), DCGAN_built.gen.
    split; [apply dcgan_init|]. split; [reflexivity|].
    intros ws fs n latent Hn h. eexists. split.
    + eapply predict_ok; [reflexivity | exact Hn | reflexivity].
    + erewrite forward_sequential by reflexivity.
      eapply call_layers_shape; [reflexivity|].
      apply dcgan_generator_shape; reflexivity.
  - exists CYCLEGAN_built.self, (CYCLEGAN_built.world d),
      CYCLEGAN_built.gen1, CYCLEGAN_built.gen2.
    split; [apply cyclegan_init|]. split; [reflexivity|].
    split; [reflexivity|].
    intros ws fs n pixels g Hn [-> | ->] img_shape h; eexists; (split;
      [ eapply predict_ok; [reflexivity | exact Hn | reflexivity]
      | erewrite forward_sequential by reflexivity;
        eapply call_layers_shape; [reflexivity|];
        apply cyclegan_generator_shape; reflexivity || (vm_compute; discriminate)
      ]).
Qed.








(* ===================================================================== *)
(** * The composite models *)
(* ===================================================================== *)

Lemma forward_run_sequential {backend : Keras.Backend} (h : Keras.heap)
      (m : nat) (md : Keras.model) (layers : list Keras.layer)
      (x : Np.ndarray Np.float32) :
  Keras.models h !! m = Some md ->
  Keras.graph_of md = Keras.Sequential layers ->
  Keras.forward h m x = Keras.run_sequential h m x.
Proof. intros Em Eg. unfold Keras.forward. now rewrite Em, Eg. Qed.

(** C2 (counterexample).  In the CycleGAN object, on a batch of one white
    image, the compiled composite [comb] and the discriminator applied to
    the generator's output differ (the first is an image, the second one
    number). *)
Lemma cyclegan_comb_is_not_discriminator_of_generator :
  let h := Env.keras (snd (CYCLEGAN.__init__ (backend := Demo.null)
                             CYCLEGAN.CONFIG (Env.initial Demo.inputs))) in
  let x := Np.astype_float32 (Np.array [Demo.white [32; 32; 3]]) in
  Keras.forward (backend := Demo.null) h CYCLEGAN_built.comb x
  <> Keras.forward (backend := Demo.null) h CYCLEGAN_built.discr1
       (Keras.forward (backend := Demo.null) h CYCLEGAN_built.gen1 x).
Proof.
  intros h x E. apply (f_equal Np.shape) in E. vm_compute in E.
  discriminate E.
Qed.

(** C2 (amended).  In the DCGAN script, [comb] computes the discriminator
    on the generator's output, [discr] being marked not trainable.  In the
    CycleGAN script the compiled composite [comb] computes the second
    generator on the first generator's output; the discriminator-on-generator
    graphs are [comb1] and [comb2], which are never compiled. *)
Theorem composite_models_compute {backend : Keras.Backend}
        (d : gmap string (list (string * Np.image))) :
  (exists self w discr gen comb,
      DCGAN.__init__ DCGAN.CONFIG (Env.initial d) = (inr self, w)
      /\ self !! "discr"%string = Some (Env.VModel discr)
      /\ self !! "gen"%string = Some (Env.VModel gen)
      /\ self !! "comb"%string = Some (Env.VModel comb)
      /\ (exists md, Keras.models (Env.keras w) !! discr = Some md
                     /\ Keras.trainable md = false)
      /\ forall ws fs x,
           let h := heap_of (Keras.models (Env.keras w)) ws fs in
           Keras.forward h comb x
           = Keras.forward h discr (Keras.forward h gen x))
  /\ (exists self w discr1 discr2 gen1 gen2 comb1 comb2 comb,
         CYCLEGAN.__init__ CYCLEGAN.CONFIG (Env.initial d) = (inr self, w)
         /\ self !! "discr1"%string = Some (Env.VModel discr1)
         /\ self !! "discr2"%string = Some (Env.VModel discr2)
         /\ self !! "gen1"%string = Some (Env.VModel gen1)
         /\ self !! "gen2"%string = Some (Env.VModel gen2)
         /\ self !! "comb1"%string = Some (Env.VModel comb1)
         /\ self !! "comb2"%string = Some (Env.VModel comb2)
         /\ self !! "comb"%string = Some (Env.VModel comb)
         /\ (exists m1 m2,
                Keras.models (Env.keras w) !! comb1 = Some m1
                /\ Keras.models (Env.keras w) !! comb2 = Some m2
                /\ Keras.compiled_with m1 = None
                /\ Keras.compiled_with m2 = None)
         /\ forall ws fs x,
              let h := heap_of (Keras.models (Env.keras w)) ws fs in
              Keras.forward h comb x
              = Keras.forward h gen2 (Keras.forward h gen1 x)
              /\ Keras.forward h comb1 x
                 = Keras.forward h discr1 (Keras.forward h gen1 x)
              /\ Keras.forward h comb2 x
                 = Keras.forward h discr2 (Keras.forward h gen2 x)).
Proof.
  split.
  - exists DCGAN_built.self, (DCGAN_built.world d),
      DCGAN_built.discr, DCGAN_built.gen, DCGAN_built.comb.
    split; [apply dcgan_init|]. do 3 (split; [reflexivity|]).
    split; [eexists; split; reflexivity|].
    intros ws fs x h.
    erewrite forward_functional by reflexivity.
    erewrite !forward_run_sequential by reflexivity. reflexivity.
  - exists CYCLEGAN_built.self, (CYCLEGAN_built.world d),
      CYCLEGAN_built.discr1, CYCLEGAN_built.discr2,
      CYCLEGAN_built.gen1, CYCLEGAN_built.gen2,
      CYCLEGAN_built.comb1, CYCLEGAN_built.comb2, CYCLEGAN_built.comb.
    split; [apply cyclegan_init|]. do 7 (split; [reflexivity|]).
    split; [do 2 eexists; repeat split; reflexivity|].
    intros ws fs x h. split; [|split].
    + erewrite (forward_functional h CYCLEGAN_built.comb) by reflexivity.
      erewrite !forward_run_sequential by reflexivity. reflexivity.
    + erewrite (forward_functional h CYCLEGAN_built.comb1) by reflexivity.
      erewrite !forward_run_sequential by reflexivity. reflexivity.
    + erewrite (forward_functional h CYCLEGAN_built.comb2) by reflexivity.
      erewrite !forward_run_sequential by reflexivity. reflexivity.
Qed.

(* ===================================================================== *)
(** * The frozen discriminator *)
(* ===================================================================== *)

(** C9.  In the DCGAN object, a step of [comb.train_on_batch], whether it
    returns or raises, leaves every weight of the discriminator as it was:
    a weight that changes belongs to the generator. *)
Theorem generator_step_leaves_discriminator_weights
        {backend : Keras.Backend}
        (d : gmap string (list (string * Np.image))) :
  exists self w discr gen comb,
    DCGAN.__init__ DCGAN.CONFIG (Env.initial d) = (inr self, w)
    /\ self !! "discr"%string = Some (Env.VModel discr)
    /\ self !! "gen"%string = Some (Env.VModel gen)
    /\ self !! "comb"%string = Some (Env.VModel comb)
    /\ forall ws fs z y,
         let h := heap_of (Keras.models (Env.keras w)) ws fs in
         let h' := snd (Keras.train_on_batch comb z y h) in
         (forall i, Keras.weights h' !! (discr, i) = ws !! (discr, i))
         /\ (forall k, Keras.weights h' !! k <> ws !! k -> fst k = gen).
Proof.
  exists DCGAN_built.self, (DCGAN_built.world d),
    DCGAN_built.discr, DCGAN_built.gen, DCGAN_built.comb.
  split; [apply dcgan_init|]. do 3 (split; [reflexivity|]).
  intros ws fs z y h h'.
  assert (Hframe : forall k, fst k <> DCGAN_built.gen ->
                             Keras.weights h' !! k = ws !! k).
  { intros k Hk. unfold h'.
    erewrite train_on_batch_frame; [reflexivity | reflexivity | reflexivity |].
    intros Hin. apply layer_weights_owner in Hin. contradiction. }
  split.
  - intros i. apply Hframe. discriminate.
  - intros k Hk. destruct (decide (fst k = DCGAN_built.gen)) as [E | E];
      [exact E|]. contradiction (Hk (Hframe k E)).
Qed.

(* ===================================================================== *)
(** * Running the scripts *)
(* ===================================================================== *)

Section Primitives.

Context {backend : Keras.Backend} {random : Env.Random}.

Lemma lift_ok {A} (m : Py.M Keras.heap A) (w : Env.world) (a : A)
      (h : Keras.heap) :
  m (Env.keras w) = (inr a, h) -> Env.lift m w = (inr a, Env.with_keras w h).
Proof. intros E. unfold Env.lift. now rewrite E. Qed.

Lemma lift_err {A} (m : Py.M Keras.heap A) (w : Env.world) (e : Py.exn)
      (h : Keras.heap) :
  m (Env.keras w) = (inl e, h) -> Env.lift m w = (inl e, Env.with_keras w h).
Proof. intros E. unfold Env.lift. now rewrite E. Qed.

Lemma with_keras_same (w : Env.world) : Env.with_keras w (Env.keras w) = w.
Proof. now destruct w. Qed.

Lemma randint_ok (low high size : Z) (w : Env.world) :
  1 <= size -> low < high ->
  Env.randint low high size w
  = (inr (drawn_indices w low high (Z.to_nat size)),
     advanced w (Z.to_nat size)).
Proof.
  intros Hs Hlh. unfold Env.randint.
  rewrite (proj2 (Z.eqb_neq _ _)) by lia.
  rewrite (proj2 (Z.leb_gt _ _)) by exact Hlh.
  rewrite (proj2 (Z.ltb_ge _ _)) by lia. reflexivity.
Qed.

(** No index is asked for: nothing is drawn, whatever the bounds. *)
Lemma randint_zero (low high : Z) (w : Env.world) :
  Env.randint low high 0 w = (inr [], w).
Proof. reflexivity. Qed.

Lemma randint_negative (low high size : Z) (w : Env.world) :
  size < 0 -> low < high ->
  Env.randint low high size w
  = (inl (Py.ValueError "negative dimensions are not allowed"), w).
Proof.
  intros Hs Hlh. unfold Env.randint.
  rewrite (proj2 (Z.eqb_neq _ _)) by lia.
  rewrite (proj2 (Z.leb_gt _ _)) by exact Hlh.
  now rewrite (proj2 (Z.ltb_lt _ _)) by exact Hs.
Qed.

Lemma randint_empty (low high size : Z) (w : Env.world) :
  size <> 0 -> high <= low ->
  Env.randint low high size w = (inl (Py.ValueError "low >= high"), w).
Proof.
  intros Hs Hlh. unfold Env.randint.
  rewrite (proj2 (Z.eqb_neq _ _)) by exact Hs.
  now rewrite (proj2 (Z.leb_le _ _)) by exact Hlh.
Qed.

Lemma normal_ok (n k : Z) (w : Env.world) :
  0 <= n -> 0 <= k ->
  Env.normal n k w
  = (inr (Np.mk [n; k] (drawn_normal w (Z.to_nat (n * k)))),
     advanced w (Z.to_nat (n * k))).
Proof.
  intros Hn Hk. unfold Env.normal.
  rewrite (proj2 (Z.ltb_ge _ _)) by exact Hn.
  rewrite (proj2 (Z.ltb_ge _ _)) by exact Hk. reflexivity.
Qed.

Lemma mod_ok {W} (a b : Z) (w : W) :
  b <> 0 -> Py.mod_ a b w = (inr (a mod b), w).
Proof.
  intros Hb. unfold Py.mod_.
  now rewrite (proj2 (Z.eqb_neq _ _)) by exact Hb.
Qed.

(** A loop whose body only rebinds its local variable. *)
Lemma for_each_pure {W A B} (body : A -> B -> Py.M W B) (f : A -> B -> B) :
  (forall x acc w, body x acc w = (inr (f x acc), w)) ->
  forall xs acc w,
    Py.for_each xs acc body w = (inr (fold_left (fun a x => f x a) xs acc), w).
Proof.
  intros Hbody xs; induction xs as [|x xs IH]; intros acc w; simpl.
  - reflexivity.
  - rewrite (bind_ok _ _ _ _ _ (Hbody x acc w)). apply IH.
Qed.

Lemma length_drawn_indices (w : Env.world) (low high : Z) (n : nat) :
  length (drawn_indices w low high n) = n.
Proof. unfold drawn_indices. now rewrite length_map, length_seq. Qed.

Lemma drawn_indices_in_range (w : Env.world) (high : Z) (n : nat) :
  0 < high ->
  List.Forall (fun i => 0 <= i < high) (drawn_indices w 0 high n).
Proof.
  intros Hh. unfold drawn_indices. apply List.Forall_map.
  apply List.Forall_forall. intros i _. rewrite Z.sub_0_r.
  pose proof (Z.mod_pos_bound (Env.uniform (Env.rng w + i)%nat) high Hh).
  lia.
Qed.

End Primitives.

(** ** File names of the DCGAN script *)

Lemma concat_zeros (k : nat) :
  String.concat "" (repeat "0"%string k) = zeros k.
Proof.
  induction k as [|k IH]; [reflexivity|].
  destruct k as [|k]; [reflexivity|].
  change (repeat "0"%string (S (S k)))
    with ("0"%string :: repeat "0"%string (S k)).
  change (String.concat "" ("0"%string :: repeat "0"%string (S k)))
    with (String "0" (String.concat "" (repeat "0"%string (S k)))).
  now rewrite IH.
Qed.

Lemma uint_of_zeros (k : nat) (s : string) :
  NilEmpty.uint_of_string (zeros k +:+ s)
  = option_map (Nat.iter k D0) (NilEmpty.uint_of_string s).
Proof.
  induction k as [|k IH].
  - change (zeros 0 +:+ s) with s.
    now destruct (NilEmpty.uint_of_string s).
  - change (zeros (S k) +:+ s) with (String "0" (zeros k +:+ s)).
    cbn [NilEmpty.uint_of_string]. rewrite IH.
    now destruct (NilEmpty.uint_of_string s).
Qed.

Lemma of_uint_leading_zeros (k : nat) (u : uint) :
  Z.of_uint (Nat.iter k D0 u) = Z.of_uint u.
Proof. induction k as [|k IH]; [reflexivity|]. simpl. exact IH. Qed.

(** The decimal digits of a natural number, without a sign. *)
Lemma str_int_digits (n : Z) :
  0 <= n ->
  exists u, Py.str_int n = NilEmpty.string_of_uint u /\ Z.of_uint u = n.
Proof.
  intros Hn. destruct n as [|p|p]; [| |lia].
  - exists (D0 Nil). split; reflexivity.
  - exists (Pos.to_uint p). split.
    + unfold Py.str_int. simpl. unfold NilZero.string_of_uint.
      destruct (Pos.to_uint p) eqn:Eu; try reflexivity.
      pose proof (DecimalPos.Unsigned.of_to p) as Hp.
      rewrite Eu in Hp. discriminate Hp.
    + unfold Z.of_uint. now rewrite DecimalPos.Unsigned.of_to.
Qed.

Lemma read_digits_zfill (w : nat) (n : Z) :
  0 <= n -> read_digits (Py.zfill w (Py.str_int n)) = Some n.
Proof.
  intros Hn. destruct (str_int_digits n Hn) as (u & -> & Hu).
  unfold read_digits, Py.zfill. rewrite concat_zeros, uint_of_zeros.
  rewrite NilEmpty.usu. simpl. now rewrite of_uint_leading_zeros, Hu.
Qed.

(** ['%04i'] gives different epochs different digits. *)
Lemma format_04i_injective (a b : Z) :
  0 <= a -> 0 <= b -> Py.format_04i a = Py.format_04i b -> a = b.
Proof.
  intros Ha Hb. unfold Py.format_04i.
  rewrite !(proj2 (Z.ltb_ge _ _)) by assumption.
  intros E. apply (f_equal read_digits) in E.
  rewrite !read_digits_zfill in E by assumption. now inversion E.
Qed.

Lemma list_ascii_append (s t : string) :
  list_ascii_of_string (s +:+ t)
  = list_ascii_of_string s ++ list_ascii_of_string t.
Proof. induction s as [|c s IH]; simpl; [reflexivity|]. now rewrite IH. Qed.

Lemma append_cancel_r (s x y : string) : x +:+ s = y +:+ s -> x = y.
Proof.
  intros E. apply (f_equal list_ascii_of_string) in E.
  rewrite !list_ascii_append in E. apply app_inv_tail in E.
  apply (f_equal string_of_list_ascii) in E.
  now rewrite !string_of_list_ascii_of_string in E.
Qed.

Lemma join_cancel (dir a b : string) :
  String.prefix "/" a = false -> String.prefix "/" b = false ->
  Py.join dir a = Py.join dir b -> a = b.
Proof.
  intros Ha Hb. unfold Py.join. rewrite Ha, Hb.
  destruct (String.eqb dir "" || Py.ends_with "/" dir); intros E.
  - now apply (inj (String.app dir)) in E.
  - apply (inj (String.app dir)) in E. now apply (inj (String.app "/")) in E.
Qed.

(** Different epochs are saved under different names. *)
Lemma dcgan_sample_path_injective (otp : string) (a b : Z) :
  0 <= a -> 0 <= b ->
  DCGAN.sample_path otp a = DCGAN.sample_path otp b -> a = b.
Proof.
  intros Ha Hb E. unfold DCGAN.sample_path in E.
  apply join_cancel in E; [|reflexivity|reflexivity].
  apply (inj (String.app "dcgan_")) in E.
  apply append_cancel_r in E. now apply format_04i_injective.
Qed.

Lemma append_assoc (a b c : string) : (a +:+ b) +:+ c = a +:+ b +:+ c.
Proof.
  induction a as [|x a IH]; [reflexivity|].
  change (String x ((a +:+ b) +:+ c) = String x (a +:+ b +:+ c)).
  now rewrite IH.
Qed.

(** The name holds the digits of the epoch. *)
Lemma dcgan_sample_path_names_epoch (otp : string) (epoch : Z) :
  0 <= epoch ->
  exists before after,
    DCGAN.sample_path otp epoch
    = before +:+ Py.str_int epoch +:+ after.
Proof.
  intros He. unfold DCGAN.sample_path, Py.join, Py.format_04i.
  rewrite (proj2 (Z.ltb_ge _ _)) by exact He.
  change (String.prefix "/"
            ("dcgan_" +:+ Py.zfill 4 (Py.str_int epoch) +:+ ".png"))
    with false.
  unfold Py.zfill.
  set (z := String.concat "" _).
  destruct (String.eqb otp "" || Py.ends_with "/" otp).
  - exists (otp +:+ "dcgan_" +:+ z), ".png"%string.
    now rewrite !append_assoc.
  - exists (otp +:+ "/" +:+ "dcgan_" +:+ z), ".png"%string.
    now rewrite !append_assoc.
Qed.

(** ** The directory of a saved file *)

Lemma drop_while_app {A} (f : A -> bool) (l1 l2 : list A) :
  forallb f l1 = true ->
  Py.drop_while f (l1 ++ l2) = Py.drop_while f l2.
Proof.
  induction l1 as [|x l1 IH]; intros Hall; simpl in *; [reflexivity|].
  apply andb_prop in Hall as [-> Hall]. now apply IH.
Qed.

Lemma forallb_rev {A} (f : A -> bool) (l : list A) :
  forallb f (rev l) = forallb f l.
Proof.
  induction l as [|x l IH]; simpl; [reflexivity|].
  rewrite forallb_app, IH. simpl. rewrite andb_true_r. apply andb_comm.
Qed.

(** A file name added to a path does not change its directory. *)
Lemma dirname_file (p name : string) :
  Py.slash_free name = true -> Py.dirname (p +:+ name) = Py.dirname p.
Proof.
  intros Hname. unfold Py.dirname.
  rewrite list_ascii_append, rev_app_distr, drop_while_app; [reflexivity|].
  rewrite forallb_rev. exact Hname.
Qed.

Lemma slash_free_app (s t : string) :
  Py.slash_free (s +:+ t) = Py.slash_free s && Py.slash_free t.
Proof. unfold Py.slash_free. now rewrite list_ascii_append, forallb_app. Qed.

Lemma slash_free_uint (d : uint) :
  Py.slash_free (NilEmpty.string_of_uint d) = true.
Proof. induction d; simpl; try reflexivity; exact IHd. Qed.

Lemma slash_free_str_int (n : Z) : Py.slash_free (Py.str_int n) = true.
Proof.
  unfold Py.str_int, NilZero.string_of_int, NilZero.string_of_uint.
  destruct (Z.to_int n) as [d | d]; destruct d;
    try reflexivity; apply (slash_free_uint (_ d)) || apply slash_free_uint.
Qed.

Lemma slash_free_zeros (k : nat) : Py.slash_free (zeros k) = true.
Proof. induction k as [|k IH]; [reflexivity | exact IH]. Qed.

Lemma slash_free_format_04i (n : Z) : Py.slash_free (Py.format_04i n) = true.
Proof.
  unfold Py.format_04i, Py.zfill. rewrite !concat_zeros.
  destruct (n <? 0);
    rewrite !slash_free_app, !slash_free_zeros, !slash_free_str_int;
    reflexivity.
Qed.

(** The DCGAN script saves its samples in [../output]. *)
Lemma dcgan_sample_path_dirname (epoch : Z) :
  Py.dirname (DCGAN.sample_path "../output" epoch) = "../output"%string.
Proof.
  change (DCGAN.sample_path "../output" epoch)
    with ("../output/"
          +:+ ("dcgan_" +:+ Py.format_04i epoch +:+ ".png"))%string.
  rewrite dirname_file; [reflexivity|].
  rewrite !slash_free_app, slash_free_format_04i. reflexivity.
Qed.

Lemma dcgan_save_ok (w : Env.world) (out : Env.canvas) (epoch : Z) :
  is_Some (Env.dirs w !! "../output"%string) ->
  Env.save out (DCGAN.sample_path "../output" epoch) w
  = (inr tt, saved w (DCGAN.sample_path "../output" epoch) out).
Proof.
  intros [files Hdir]. unfold Env.save, Env.dir_exists.
  rewrite dcgan_sample_path_dirname, Hdir. reflexivity.
Qed.

Lemma dcgan_save_missing (w : Env.world) (out : Env.canvas) (epoch : Z) :
  Env.dirs w !! "../output"%string = None ->
  Env.save out (DCGAN.sample_path "../output" epoch) w
  = (inl (Py.FileNotFoundError (DCGAN.sample_path "../output" epoch)), w).
Proof.
  intros Hdir. unfold Env.save, Env.dir_exists.
  rewrite dcgan_sample_path_dirname, Hdir. reflexivity.
Qed.

(** Projections of the worlds and heaps the steps go through. *)
Ltac project :=
  cbn [Env.keras Env.with_keras Env.rng Env.stdout Env.dirs Env.written
       advanced printed saved stepped Keras.models Keras.weights Keras.fits
       fst snd].

Lemma progress_epochs_app (a b : list Env.output) :
  progress_epochs (a ++ b) = progress_epochs a ++ progress_epochs b.
Proof. apply flat_map_app. Qed.

Lemma progress_epochs_lines (fs : list (string * Np.image)) :
  progress_epochs (map bad_shape_line fs) = [].
Proof. induction fs as [|f fs IH]; [reflexivity | exact IH]. Qed.

Section Dcgan_run.

Context {backend : Keras.Backend} {random : Env.Random}.

(** [DCGAN.save_images] up to [out.save]: the latent vectors are drawn and
    the grid is composed. *)
Lemma dcgan_save_images_split (w : Env.world) (epoch n0 n1 : Z) :
  Keras.models (Env.keras w) = DCGAN_built.models -> 1 <= n0 -> 1 <= n1 ->
  DCGAN.save_images DCGAN_built.self epoch (n0, n1) w
  = Env.save
      (tiled Env.Bytes
         (Np.map_ DCGAN.denormalize
            (Keras.forward (Env.keras w) DCGAN_built.gen
               (Np.mk [n0 * n1; 200]
                      (drawn_normal w (Z.to_nat (n0 * n1 * 200))))))
         66 66 (n0, n1)
         {| Env.mode := "RGB"; Env.extent := (2 + n0 * 66, 2 + n1 * 66);
            Env.pasted := [] |})
      (DCGAN.sample_path "../output" epoch)
      (advanced w (Z.to_nat (n0 * n1 * 200))).
Proof.
  intros Hm H0 H1. unfold DCGAN.save_images. cbn [fst snd].
  rewrite (bind_ok _ _ _ _ _
             (get_model_some DCGAN_built.self "gen" _ DCGAN_built.gen eq_refl)).
  rewrite (bind_ok _ _ _ _ _ (get_int_some DCGAN_built.self "nz" _ 200 eq_refl)).
  rewrite (bind_ok _ _ _ _ _
             (normal_ok (n0 * n1) 200 w ltac:(nia) ltac:(lia))).
  erewrite bind_ok; cycle 1.
  { apply lift_ok. eapply predict_ok;
      [simpl; rewrite Hm; reflexivity | cbn [Np.shape hd]; nia | reflexivity]. }
  rewrite with_keras_same.
  rewrite (bind_ok _ _ _ _ _
             (get_tuple_some DCGAN_built.self "img_shape" _ [64; 64; 3] eq_refl)).
  erewrite bind_ok by reflexivity.
  erewrite bind_ok; cycle 1.
  { eapply for_each_pure. intros i out w0.
    eapply for_each_pure. intros j out' w1. reflexivity. }
  rewrite (bind_ok _ _ _ _ _
             (get_str_some DCGAN_built.self "otp_path" _ "../output" eq_refl)).
  reflexivity.
Qed.

(** [DCGAN.save_images] for any grid of at least one tile, when the
    output directory exists: one file is written, under the name made from
    [epoch]. *)
Lemma dcgan_save_images_any (w : Env.world) (epoch n0 n1 : Z) :
  Keras.models (Env.keras w) = DCGAN_built.models -> 1 <= n0 -> 1 <= n1 ->
  is_Some (Env.dirs w !! "../output"%string) ->
  DCGAN.save_images DCGAN_built.self epoch (n0, n1) w
  = (inr tt,
     saved (advanced w (Z.to_nat (n0 * n1 * 200)))
           (DCGAN.sample_path "../output" epoch)
           (tiled Env.Bytes
              (Np.map_ DCGAN.denormalize
                 (Keras.forward (Env.keras w) DCGAN_built.gen
                    (Np.mk [n0 * n1; 200]
                           (drawn_normal w (Z.to_nat (n0 * n1 * 200))))))
              66 66 (n0, n1)
              {| Env.mode := "RGB"; Env.extent := (2 + n0 * 66, 2 + n1 * 66);
                 Env.pasted := [] |})).
Proof.
  intros Hm H0 H1 Hdir. rewrite dcgan_save_images_split by assumption.
  now apply dcgan_save_ok.
Qed.

(** Without the output directory, [out.save] raises: the latent vectors
    were drawn, and nothing is written. *)
Lemma dcgan_save_images_missing (w : Env.world) (epoch n0 n1 : Z) :
  Keras.models (Env.keras w) = DCGAN_built.models -> 1 <= n0 -> 1 <= n1 ->
  Env.dirs w !! "../output"%string = None ->
  DCGAN.save_images DCGAN_built.self epoch (n0, n1) w
  = (inl (Py.FileNotFoundError (DCGAN.sample_path "../output" epoch)),
     advanced w (Z.to_nat (n0 * n1 * 200))).
Proof.
  intros Hm H0 H1 Hdir. rewrite dcgan_save_images_split by assumption.
  now apply dcgan_save_missing.
Qed.

(** The grid [train] asks for: 25 latent vectors are drawn, and one file
    is written. *)
Lemma dcgan_save_images_eq (w : Env.world) (epoch : Z) :
  Keras.models (Env.keras w) = DCGAN_built.models ->
  is_Some (Env.dirs w !! "../output"%string) ->
  DCGAN.save_images DCGAN_built.self epoch (5, 5) w
  = (inr tt,
     saved (advanced w 5000) (DCGAN.sample_path "../output" epoch)
           (dcgan_grid
              (Keras.forward (Env.keras w) DCGAN_built.gen
                 (Np.mk [25; 200] (drawn_normal w 5000))))).
Proof.
  intros Hm Hdir.
  exact (dcgan_save_images_any w epoch 5 5 Hm ltac:(lia) ltac:(lia) Hdir).
Qed.

Lemma dcgan_generated_shape (h : Keras.heap) (z : Np.ndarray Np.float32)
      (n : Z) :
  Keras.models h = DCGAN_built.models -> Np.shape z = [n; 200] ->
  Np.shape (Keras.forward h DCGAN_built.gen z) = [n; 64; 64; 3].
Proof.
  intros Hm Hz.
  erewrite forward_sequential; [| rewrite Hm; reflexivity | reflexivity].
  eapply call_layers_shape; [exact Hz|].
  apply dcgan_generator_shape; reflexivity.
Qed.

(** One iteration of [DCGAN.train] up to its progress line, on a non-empty
    training set of 64x64x3 images and for a batch of at least one image:
    the three steps are run and one line is printed; what is left is the
    test on [save_interval]. *)
Lemma dcgan_train_epoch_split (w : Env.world)
      (x_train : Np.ndarray Np.float32)
      (n half_batch save_interval epoch : Z) :
  Keras.models (Env.keras w) = DCGAN_built.models ->
  Np.shape x_train = [n; 64; 64; 3] -> 0 < n -> 1 <= half_batch ->
  exists w1 steps dl da gl,
    DCGAN.train_epoch DCGAN_built.self x_train half_batch save_interval
                      epoch w
    = (let! r := Py.mod_ epoch save_interval in
       if r =? 0 then DCGAN.save_images DCGAN_built.self epoch (5, 5)
       else Py.ret tt) w1
    /\ Keras.models (Env.keras w1) = DCGAN_built.models
    /\ Keras.fits (Env.keras w1) = Keras.fits (Env.keras w) ++ steps
    /\ dcgan_iteration x_train half_batch steps
    /\ Env.stdout w1 = Env.stdout w ++ [Env.Progress epoch dl da gl]
    /\ Env.written w1 = Env.written w
    /\ Env.dirs w1 = Env.dirs w.
Proof.
  intros Hm Hx Hn Hhb.
  pose (idx := drawn_indices w 0 n (Z.to_nat half_batch)).
  assert (Hidx : Z.of_nat (length idx) = half_batch).
  { unfold idx. rewrite length_drawn_indices. apply Z2Nat.id. lia. }
  assert (Hin : List.Forall (fun i => 0 <= i < hd 0 (Np.shape x_train)) idx).
  { rewrite Hx. cbn [hd]. now apply drawn_indices_in_range. }
  assert (Hfake : forall h z, Keras.models h = DCGAN_built.models ->
                    Np.shape z = [half_batch; 200] ->
                    Np.shape (Keras.forward h DCGAN_built.gen z)
                    = [half_batch; 64; 64; 3])
    by (intros; now apply dcgan_generated_shape).
  eexists. eexists. eexists. eexists. eexists. split.
  { unfold DCGAN.train_epoch. rewrite Hx. cbn [hd].
    rewrite (bind_ok _ _ _ _ _ (randint_ok 0 n half_batch w Hhb Hn)).
    rewrite (bind_ok _ _ _ _ _
               (get_model_some DCGAN_built.self "gen" _ DCGAN_built.gen
                               eq_refl)).
    rewrite (bind_ok _ _ _ _ _
               (get_int_some DCGAN_built.self "nz" _ 200 eq_refl)).
    rewrite (bind_ok _ _ _ _ _
               (normal_ok half_batch 200 _ ltac:(lia) ltac:(lia))).
    erewrite bind_ok; cycle 1.
    { apply lift_ok. eapply predict_ok;
        [ project; rewrite Hm; reflexivity
        | cbn [Np.shape hd]; exact Hhb
        | reflexivity ]. }
    rewrite with_keras_same.
    rewrite (bind_ok _ _ _ _ _
               (get_model_some DCGAN_built.self "discr" _ DCGAN_built.discr
                               eq_refl)).
    erewrite bind_ok; cycle 1.
    { apply lift_ok. eapply train_on_batch_ok.
      - project. rewrite Hm. reflexivity.
      - reflexivity.
      - cbn [Np.take Np.shape tl]. rewrite Hx. reflexivity.
      - reflexivity.
      - cbn [Np.take Np.shape hd Np.ones Np.full]. exact Hidx.
      - cbn [Np.take Np.shape hd]. fold idx. rewrite Hidx. exact Hhb. }
    erewrite bind_ok; cycle 1.
    { apply lift_ok. eapply train_on_batch_ok.
      - project. rewrite Hm. reflexivity.
      - reflexivity.
      - rewrite Hfake by (project; first [exact Hm | reflexivity]).
        reflexivity.
      - reflexivity.
      - rewrite Hfake by (project; first [exact Hm | reflexivity]).
        reflexivity.
      - rewrite Hfake by (project; first [exact Hm | reflexivity]).
        exact Hhb. }
    rewrite (bind_ok _ _ _ _ _
               (normal_ok (2 * half_batch) 200 _ ltac:(lia) ltac:(lia))).
    rewrite (bind_ok _ _ _ _ _
               (get_model_some DCGAN_built.self "comb" _ DCGAN_built.comb
                               eq_refl)).
    erewrite bind_ok; cycle 1.
    { apply lift_ok. eapply train_on_batch_ok.
      - project. rewrite Hm. reflexivity.
      - reflexivity.
      - reflexivity.
      - reflexivity.
      - reflexivity.
      - cbn [Np.shape hd]. lia. }
    rewrite (bind_ok _ _ _ _ _ (print_printed _ _)).
    reflexivity. }
  project. split; [exact Hm|]. split; [rewrite <- !app_assoc; reflexivity|].
  split.
  { eexists idx, _, _, _. split; [exact Hin|]. split; [exact Hidx|].
    split; [|split; [|split; [|reflexivity]]].
    - exact Hm.
    - reflexivity.
    - reflexivity. }
  split; [reflexivity|]. split; reflexivity.
Qed.

(** One iteration of [DCGAN.train] with a non-zero [save_interval] and an
    existing output directory returns; it ran the three steps, printed its
    progress line, and wrote the sample grid when [save_interval] divides
    the epoch. *)
Lemma dcgan_train_epoch_ok (w : Env.world) (x_train : Np.ndarray Np.float32)
      (n half_batch save_interval epoch : Z) :
  Keras.models (Env.keras w) = DCGAN_built.models ->
  Np.shape x_train = [n; 64; 64; 3] -> 0 < n ->
  1 <= half_batch -> save_interval <> 0 ->
  is_Some (Env.dirs w !! "../output"%string) ->
  exists w' steps,
    DCGAN.train_epoch DCGAN_built.self x_train half_batch save_interval
                      epoch w = (inr tt, w')
    /\ Keras.models (Env.keras w') = DCGAN_built.models
    /\ Env.dirs w' = Env.dirs w
    /\ Keras.fits (Env.keras w') = Keras.fits (Env.keras w) ++ steps
    /\ dcgan_iteration x_train half_batch steps
    /\ progress_epochs (Env.stdout w')
       = progress_epochs (Env.stdout w) ++ [epoch]
    /\ map fst (Env.written w')
       = map fst (Env.written w)
         ++ (if epoch mod save_interval =? 0
             then [DCGAN.sample_path "../output" epoch] else []).
Proof.
  intros Hm Hx Hn Hhb Hsi Hdir.
  destruct (dcgan_train_epoch_split w x_train n half_batch save_interval
              epoch Hm Hx Hn Hhb)
    as (w1 & steps & dl & da & gl & Hrun & Hm1 & Hfits & Hsteps & Hout & Hwr
        & Hdirs).
  rewrite Hrun. rewrite (bind_ok _ _ _ _ _ (mod_ok _ _ _ Hsi)).
  destruct (epoch mod save_interval =? 0).
  - rewrite dcgan_save_images_eq by (first [exact Hm1 | now rewrite Hdirs]).
    eexists. exists steps. split; [reflexivity|]. project.
    split; [exact Hm1|]. split; [exact Hdirs|]. split; [exact Hfits|].
    split; [exact Hsteps|]. split.
    + rewrite Hout, progress_epochs_app. reflexivity.
    + rewrite map_app, Hwr. reflexivity.
  - exists w1, steps. split; [reflexivity|].
    split; [exact Hm1|]. split; [exact Hdirs|]. split; [exact Hfits|].
    split; [exact Hsteps|]. split.
    + rewrite Hout, progress_epochs_app. reflexivity.
    + rewrite Hwr, app_nil_r. reflexivity.
Qed.

(** The loop of [DCGAN.train], over any list of epochs. *)
Lemma dcgan_loop_ok (x_train : Np.ndarray Np.float32)
      (n half_batch save_interval : Z) (epochs : list Z) :
  Np.shape x_train = [n; 64; 64; 3] -> 0 < n ->
  1 <= half_batch -> save_interval <> 0 ->
  forall w,
    Keras.models (Env.keras w) = DCGAN_built.models ->
    is_Some (Env.dirs w !! "../output"%string) ->
    exists w' iterations,
      Py.for_each epochs tt
        (fun epoch _ => DCGAN.train_epoch DCGAN_built.self x_train half_batch
                                          save_interval epoch) w
      = (inr tt, w')
      /\ Keras.fits (Env.keras w')
         = Keras.fits (Env.keras w) ++ concat iterations
      /\ length iterations = length epochs
      /\ List.Forall (dcgan_iteration x_train half_batch) iterations
      /\ progress_epochs (Env.stdout w')
         = progress_epochs (Env.stdout w) ++ epochs
      /\ map fst (Env.written w')
         = map fst (Env.written w)
           ++ map (DCGAN.sample_path "../output")
                  (List.filter (fun epoch => epoch mod save_interval =? 0)
                               epochs).
Proof.
  intros Hx Hn Hhb Hsi.
  induction epochs as [|epoch epochs IH]; intros w Hm Hdir.
  - exists w, []. simpl. rewrite !app_nil_r. repeat split. constructor.
  - destruct (dcgan_train_epoch_ok w x_train n half_batch save_interval epoch
                Hm Hx Hn Hhb Hsi Hdir)
      as (w1 & steps & Hrun & Hm1 & Hdirs & Hfits & Hsteps & Hout & Hwr).
    destruct (IH w1 Hm1 ltac:(now rewrite Hdirs))
      as (w' & iterations & Hloop & Hfits' & Hlen & Hall & Hout' & Hwr').
    exists w', (steps :: iterations).
    split; [|split; [|split; [|split; [|split]]]].
    + simpl. rewrite (bind_ok _ _ _ _ _ Hrun). exact Hloop.
    + rewrite Hfits', Hfits. simpl. now rewrite app_assoc.
    + simpl. now rewrite Hlen.
    + now constructor.
    + rewrite Hout', Hout, <- app_assoc. reflexivity.
    + rewrite Hwr', Hwr, <- app_assoc. f_equal. simpl.
      destruct (epoch mod save_interval =? 0); reflexivity.
Qed.

Lemma dcgan_training_set_shape (d : gmap string (list (string * Np.image))) :
  kept [64; 64; 3]
       (Py.glob "../input/hands_64" ".jpg"
                (default [] (d !! "../input/hands_64"%string))) <> [] ->
  exists n, 0 < n /\ Np.shape (dcgan_training_set d) = [n; 64; 64; 3].
Proof.
  unfold dcgan_training_set.
  destruct (kept _ _) as [|f fs] eqn:Ek; [congruence|]. intros _.
  assert (Hf : In f (kept [64; 64; 3]
                       (Py.glob "../input/hands_64" ".jpg"
                          (default [] (d !! "../input/hands_64"%string)))))
    by (rewrite Ek; now left).
  apply kept_spec in Hf as [_ Hf].
  exists (Z.of_nat (length (f :: fs))). split; [simpl; lia|].
  simpl. rewrite length_map, Hf. reflexivity.
Qed.

(** [DCGAN.main] up to the loop. *)
Lemma dcgan_main_eq (d : gmap string (list (string * Np.image)))
      (epochs half_batch save_interval : Z) :
  DCGAN.main epochs half_batch save_interval (Env.initial d)
  = Py.for_each (Py.range epochs) tt
      (fun epoch _ =>
         DCGAN.train_epoch DCGAN_built.self (dcgan_training_set d)
                           half_batch save_interval epoch)
      (printed (DCGAN_built.world d)
         (map bad_shape_line
            (skipped [64; 64; 3]
               (dcgan_files "../input/hands_64" (DCGAN_built.world d))))).
Proof.
  unfold DCGAN.main. rewrite (bind_ok _ _ _ _ _ (dcgan_init d)).
  unfold DCGAN.train.
  rewrite (bind_ok _ _ _ _ _
             (dcgan_load_images_eq DCGAN_built.self "../input/hands_64"
                [64; 64; 3] _ eq_refl eq_refl)).
  reflexivity.
Qed.

(** The DCGAN script on a directory with at least one 64x64x3 [.jpg], for
    a batch of at least one image, a non-zero [save_interval] and an
    existing output directory: it returns; the optimizer steps run are
    those of [epochs] iterations; one progress line is printed per epoch;
    and the files written are the grids of the epochs [save_interval]
    divides. *)
Lemma dcgan_main_ok (d : gmap string (list (string * Np.image)))
      (epochs half_batch save_interval : Z) :
  kept [64; 64; 3]
       (Py.glob "../input/hands_64" ".jpg"
                (default [] (d !! "../input/hands_64"%string))) <> [] ->
  1 <= half_batch -> save_interval <> 0 ->
  is_Some (d !! "../output"%string) ->
  exists w' iterations,
    DCGAN.main epochs half_batch save_interval (Env.initial d) = (inr tt, w')
    /\ Keras.fits (Env.keras w') = concat iterations
    /\ length iterations = Z.to_nat epochs
    /\ List.Forall (dcgan_iteration (dcgan_training_set d) half_batch)
                   iterations
    /\ progress_epochs (Env.stdout w') = Py.range epochs
    /\ map fst (Env.written w')
       = map (DCGAN.sample_path "../output")
             (List.filter (fun epoch => epoch mod save_interval =? 0)
                          (Py.range epochs)).
Proof.
  intros Hkept Hhb Hsi Hdir.
  destruct (dcgan_training_set_shape d Hkept) as (n & Hn & Hshape).
  destruct (dcgan_loop_ok (dcgan_training_set d) n half_batch save_interval
              (Py.range epochs) Hshape Hn Hhb Hsi
              (printed (DCGAN_built.world d)
                 (map bad_shape_line
                    (skipped [64; 64; 3]
                       (dcgan_files "../input/hands_64"
                                    (DCGAN_built.world d)))))
              eq_refl Hdir)
    as (w' & iterations & Hrun & Hfits & Hlen & Hall & Hout & Hwr).
  exists w', iterations. split; [|split; [|split; [|split; [|split]]]].
  - rewrite dcgan_main_eq. exact Hrun.
  - exact Hfits.
  - rewrite Hlen. unfold Py.range. now rewrite length_map, length_seq.
  - exact Hall.
  - rewrite Hout. cbn [printed Env.stdout].
    rewrite progress_epochs_app, progress_epochs_lines. reflexivity.
  - rewrite Hwr. reflexivity.
Qed.

End Dcgan_run.

Lemma range_pos (n : Z) : 1 <= n -> exists rest, Py.range n = 0 :: rest.
Proof.
  intros Hn. unfold Py.range.
  destruct (Z.to_nat n) as [|k] eqn:Ek; [lia|].
  simpl. eexists. reflexivity.
Qed.

Section Cyclegan_run.

Context {backend : Keras.Backend} {random : Env.Random}.

(** On a non-empty training set and for a batch of at least one image, an
    iteration runs the discriminator step on real images and then stops at
    [self.nz]. *)
Lemma cyclegan_train_epoch_nz (w : Env.world) (x_train : Np.ndarray Z)
      (n half_batch save_interval epoch : Z) :
  Keras.models (Env.keras w) = CYCLEGAN_built.models ->
  Np.shape x_train = [n; 32; 32; 3] -> 0 < n -> 1 <= half_batch ->
  exists w' step,
    CYCLEGAN.train_epoch CYCLEGAN_built.self x_train half_batch
                         save_interval epoch w
    = (inl (Py.AttributeError "nz"), w')
    /\ Keras.fits (Env.keras w') = Keras.fits (Env.keras w) ++ [step]
    /\ cyclegan_first_step x_train half_batch step.
Proof.
  intros Hm Hx Hn Hhb. unfold CYCLEGAN.train_epoch.
  rewrite Hx. cbn [hd].
  rewrite (bind_ok _ _ _ _ _ (randint_ok 0 n half_batch w Hhb Hn)).
  rewrite (bind_ok _ _ _ _ _
             (get_model_some CYCLEGAN_built.self "discr1" _
                             CYCLEGAN_built.discr1 eq_refl)).
  set (idx := drawn_indices w 0 n (Z.to_nat half_batch)).
  assert (Hidx : Z.of_nat (length idx) = half_batch).
  { unfold idx. rewrite length_drawn_indices. apply Z2Nat.id. lia. }
  erewrite bind_ok; cycle 1.
  { apply lift_ok. eapply train_on_batch_ok.
    - project. rewrite Hm. reflexivity.
    - reflexivity.
    - cbn [Np.astype_float32 Np.map_ Np.take Np.shape tl]. rewrite Hx.
      reflexivity.
    - reflexivity.
    - cbn [Np.astype_float32 Np.map_ Np.take Np.shape hd Np.ones Np.full].
      exact Hidx.
    - cbn [Np.astype_float32 Np.map_ Np.take Np.shape hd].
      rewrite Hidx. exact Hhb. }
  rewrite (bind_err _ _ _ _ _
             (get_int_none CYCLEGAN_built.self "nz" _ eq_refl)).
  eexists. eexists. split; [reflexivity|]. split; [reflexivity|].
  exists idx. repeat split; try assumption.
  rewrite Hx. cbn [hd]. now apply drawn_indices_in_range.
Qed.

(** With a negative batch size, or without a training image when the batch
    size is not 0, drawing the indices raises. *)
Lemma cyclegan_train_epoch_no_batch (w : Env.world) (x_train : Np.ndarray Z)
      (half_batch save_interval epoch : Z) :
  (hd 0 (Np.shape x_train) <= 0 /\ half_batch <> 0) \/ half_batch < 0 ->
  exists msg,
    CYCLEGAN.train_epoch CYCLEGAN_built.self x_train half_batch
                         save_interval epoch w
    = (inl (Py.ValueError msg), w).
Proof.
  intros Hcase. unfold CYCLEGAN.train_epoch.
  destruct (Z.le_gt_cases (hd 0 (Np.shape x_train)) 0) as [Hempty | Hsome].
  - assert (Hnz : half_batch <> 0) by lia.
    eexists.
    now rewrite (bind_err _ _ _ _ _ (randint_empty _ _ _ w Hnz Hempty)).
  - assert (Hneg : half_batch < 0) by lia.
    assert (Hlh : 0 < hd 0 (Np.shape x_train)) by lia.
    eexists.
    now rewrite (bind_err _ _ _ _ _ (randint_negative _ _ _ w Hneg Hlh)).
Qed.

(** With a batch size of 0 no index is drawn, and the discriminator step
    refuses its empty batch: the iteration raises before [self.nz] is
    read, and no step is run. *)
Lemma cyclegan_train_epoch_zero_batch (w : Env.world)
      (x_train : Np.ndarray Z) (save_interval epoch : Z) :
  Keras.models (Env.keras w) = CYCLEGAN_built.models ->
  exists e,
    CYCLEGAN.train_epoch CYCLEGAN_built.self x_train 0 save_interval epoch w
    = (inl e, w)
    /\ e <> Py.AttributeError "nz"
    /\ (tl (Np.shape x_train) = [32; 32; 3] ->
        e = Py.InvalidArgumentError "empty batch").
Proof.
  intros Hm. unfold CYCLEGAN.train_epoch.
  rewrite (bind_ok _ _ _ _ _ (randint_zero _ _ w)).
  rewrite (bind_ok _ _ _ _ _
             (get_model_some CYCLEGAN_built.self "discr1" _
                             CYCLEGAN_built.discr1 eq_refl)).
  destruct (decide (tl (Np.shape x_train) = [32; 32; 3])) as [Hx | Hx].
  - exists (Py.InvalidArgumentError "empty batch").
    split; [|split; [discriminate | reflexivity]].
    apply bind_err. rewrite <- (with_keras_same w) at 2. apply lift_err.
    eapply train_on_batch_empty.
    + rewrite Hm. reflexivity.
    + reflexivity.
    + cbn [Np.astype_float32 Np.map_ Np.take Np.shape tl]. exact Hx.
    + reflexivity.
    + reflexivity.
    + cbn [Np.astype_float32 Np.map_ Np.take Np.shape hd length]. lia.
  - exists (Py.ValueError "Error when checking input").
    split; [|split; [discriminate | contradiction]].
    apply bind_err. rewrite <- (with_keras_same w) at 2. apply lift_err.
    unfold Keras.train_on_batch.
    erewrite bind_ok
      by (apply lookup_model_some; rewrite Hm; reflexivity).
    cbn [Keras.compiled_with CYCLEGAN_built.discr_model sequential_model
         compiled_with].
    apply bind_err. unfold Keras.check_array, Np.shape_eqb.
    cbn [Np.astype_float32 Np.map_ Np.take Np.shape tl Keras.input_shape
         CYCLEGAN_built.discr_model sequential_model].
    destruct (decide (tl (Np.shape x_train) = _)) as [E | E];
      [exfalso; apply Hx; exact E | reflexivity].
Qed.

Lemma cyclegan_training_set_shape
      (d : gmap string (list (string * Np.image))) :
  kept [32; 32; 3]
       (Py.glob "input" ".png" (default [] (d !! "input"%string))) <> [] ->
  exists n, 0 < n /\ Np.shape (cyclegan_training_set d) = [n; 32; 32; 3].
Proof.
  unfold cyclegan_training_set.
  destruct (kept _ _) as [|f fs] eqn:Ek; [congruence|]. intros _.
  assert (Hf : In f (kept [32; 32; 3]
                       (Py.glob "input" ".png"
                          (default [] (d !! "input"%string)))))
    by (rewrite Ek; now left).
  apply kept_spec in Hf as [_ Hf].
  exists (Z.of_nat (length (f :: fs))). split; [simpl; lia|].
  simpl. rewrite length_map, Hf. reflexivity.
Qed.

(** [train] on the CycleGAN object, up to the loop. *)
Lemma cyclegan_main_eq (d : gmap string (list (string * Np.image)))
      (epochs half_batch save_interval : Z) :
  CYCLEGAN.main epochs half_batch save_interval (Env.initial d)
  = Py.for_each (Py.range epochs) tt
      (fun epoch _ =>
         CYCLEGAN.train_epoch CYCLEGAN_built.self (cyclegan_training_set d)
                              half_batch save_interval epoch)
      (printed (CYCLEGAN_built.world d)
         (map bad_shape_line
            (skipped [32; 32; 3] (cyclegan_files (CYCLEGAN_built.world d))))).
Proof.
  unfold CYCLEGAN.main. rewrite (bind_ok _ _ _ _ _ (cyclegan_init d)).
  unfold CYCLEGAN.train.
  rewrite (bind_ok _ _ _ _ _
             (cyclegan_load_images_eq CYCLEGAN_built.self [32; 32; 3] _
                                      eq_refl)).
  reflexivity.
Qed.

(** [train] on the CycleGAN object never completes an iteration. *)
Lemma cyclegan_main_raises (d : gmap string (list (string * Np.image)))
      (epochs half_batch save_interval : Z) :
  1 <= epochs ->
  let files := Py.glob "input" ".png" (default [] (d !! "input"%string)) in
  exists e w',
    CYCLEGAN.main epochs half_batch save_interval (Env.initial d) = (inl e, w')
    /\ (kept [32; 32; 3] files <> [] -> 1 <= half_batch ->
        e = Py.AttributeError "nz"
        /\ exists step,
             Keras.fits (Env.keras w') = [step]
             /\ cyclegan_first_step (cyclegan_training_set d) half_batch step)
    /\ ((kept [32; 32; 3] files = [] /\ half_batch <> 0) \/ half_batch < 0 ->
        (exists msg, e = Py.ValueError msg)
        /\ Keras.fits (Env.keras w') = [])
    /\ (half_batch = 0 ->
        e <> Py.AttributeError "nz" /\ Keras.fits (Env.keras w') = []).
Proof.
  intros Hep files. rewrite cyclegan_main_eq.
  destruct (range_pos epochs Hep) as (rest & ->). cbn [Py.for_each].
  set (w := printed _ _).
  assert (Hshape : kept [32; 32; 3] files = [] ->
                   hd 0 (Np.shape (cyclegan_training_set d)) <= 0).
  { intros Ek. unfold cyclegan_training_set. fold files. rewrite Ek.
    simpl. lia. }
  destruct (Z.lt_trichotomy half_batch 0) as [Hneg | [Hzero | Hpos]].
  - destruct (cyclegan_train_epoch_no_batch w (cyclegan_training_set d)
                half_batch save_interval 0) as (msg & Hrun); [now right|].
    exists (Py.ValueError msg), w. rewrite (bind_err _ _ _ _ _ Hrun).
    split; [reflexivity|]. split; [lia|]. split; [|lia].
    intros _. split; [now exists msg | reflexivity].
  - subst half_batch.
    destruct (cyclegan_train_epoch_zero_batch w (cyclegan_training_set d)
                save_interval 0 eq_refl) as (e & Hrun & He & _).
    exists e, w. rewrite (bind_err _ _ _ _ _ Hrun).
    split; [reflexivity|]. split; [lia|]. split; [|now split].
    intros [[_ H0] | H0]; lia.
  - destruct (kept [32; 32; 3] files) as [|f fs] eqn:Ek.
    + destruct (cyclegan_train_epoch_no_batch w (cyclegan_training_set d)
                  half_batch save_interval 0) as (msg & Hrun).
      { left. split; [now apply Hshape | lia]. }
      exists (Py.ValueError msg), w. rewrite (bind_err _ _ _ _ _ Hrun).
      split; [reflexivity|]. split; [congruence|]. split; [|lia].
      intros _. split; [now exists msg | reflexivity].
    + destruct (cyclegan_training_set_shape d) as (n & Hn & Hs).
      { fold files. rewrite Ek. discriminate. }
      destruct (cyclegan_train_epoch_nz w (cyclegan_training_set d) n
                  half_batch save_interval 0 eq_refl Hs Hn ltac:(lia))
        as (w' & step & Hrun & Hfits & Hstep).
      exists (Py.AttributeError "nz"), w'. rewrite (bind_err _ _ _ _ _ Hrun).
      split; [reflexivity|]. split; [|split].
      * intros _ _. split; [reflexivity|]. exists step. now split.
      * intros [[Hempty _] | Hneg]; [discriminate | lia].
      * lia.
Qed.

(** [CYCLEGAN.save_images] stops at [self.gen] before anything is drawn or
    written. *)
Lemma cyclegan_save_images_raises (self : object) (epoch : Z) (n : Z * Z)
      (w : Env.world) :
  self !! "gen"%string = None ->
  CYCLEGAN.save_images self epoch n w = (inl (Py.AttributeError "gen"), w).
Proof.
  intros Hgen. unfold CYCLEGAN.save_images.
  now rewrite (bind_err _ _ _ _ _ (get_model_none self "gen" w Hgen)).
Qed.

End Cyclegan_run.

(* ===================================================================== *)
(** * The training loops *)
(* ===================================================================== *)

Lemma full_all (v : Np.float32) (n : Z) :
  List.Forall (fun x => x = v) (Np.data (Np.full v n)).
Proof.
  apply List.Forall_forall. intros x Hx. now apply repeat_spec in Hx.
Qed.

(** One epoch of [train] on the CycleGAN object, with one good image in
    [input/] and a batch of one: the run stops at [self.nz], and the only
    optimizer step it ran is the discriminator's step on real images; no
    step on generated images and no generator step followed. *)
Lemma cyclegan_iteration_stops_after_first_step :
  let r := CYCLEGAN.main (backend := Demo.null) (random := Demo.counter)
             1 1 1 (Env.initial Demo.inputs) in
  fst r = inl (Py.AttributeError "nz")
  /\ map Keras.fit_model (Keras.fits (Env.keras (snd r)))
     = [CYCLEGAN_built.discr1].
Proof. vm_compute. split; reflexivity. Qed.

(** C7.  On a non-empty training set, for a batch of at least one image, a
    non-zero [save_interval] and an existing output directory, the run of
    the DCGAN script returns, and every iteration of its loop ran, in this
    order, the discriminator on a batch of training images with all labels
    1, the discriminator on a batch of generated images with all labels 0,
    and the composite [comb] on a latent batch with all labels 1.  The
    loop of the CycleGAN script, written after it, runs the first of these
    steps only: its first iteration raises [AttributeError] for [nz] right
    after the step of [discr1] on training images, so that no step on
    generated images and no generator step is ever run. *)
Theorem training_iteration_steps
        {backend : Keras.Backend} {random : Env.Random}
        (d : gmap string (list (string * Np.image)))
        (epochs half_batch save_interval : Z) :
  kept [64; 64; 3]
       (Py.glob "../input/hands_64" ".jpg"
                (default [] (d !! "../input/hands_64"%string))) <> [] ->
  kept [32; 32; 3]
       (Py.glob "input" ".png" (default [] (d !! "input"%string))) <> [] ->
  1 <= half_batch -> save_interval <> 0 -> 1 <= epochs ->
  is_Some (d !! "../output"%string) ->
  (exists w' iterations,
      DCGAN.main epochs half_batch save_interval (Env.initial d)
      = (inr tt, w')
      /\ Keras.fits (Env.keras w') = concat iterations
      /\ length iterations = Z.to_nat epochs
      /\ List.Forall (dcgan_iteration (dcgan_training_set d) half_batch)
                     iterations)
  /\ (exists w' step,
         CYCLEGAN.main epochs half_batch save_interval (Env.initial d)
         = (inl (Py.AttributeError "nz"), w')
         /\ Keras.fits (Env.keras w') = [step]
         /\ cyclegan_first_step (cyclegan_training_set d) half_batch step)
  /\ (forall n,
         List.Forall (fun x => x = Np.one) (Np.data (Np.ones n))
         /\ List.Forall (fun x => x = Np.zero) (Np.data (Np.zeros n))).
Proof.
  intros Hd Hc Hhb Hsi Hep Hdir. split; [|split].
  - destruct (dcgan_main_ok d epochs half_batch save_interval Hd Hhb Hsi
                Hdir)
      as (w' & iterations & Hrun & Hfits & Hlen & Hall & _).
    exists w', iterations. split; [exact Hrun|]. split; [exact Hfits|].
    split; [exact Hlen | exact Hall].
  - destruct (cyclegan_main_raises d epochs half_batch save_interval Hep)
      as (e & w' & Hrun & Hnz & _).
    destruct (Hnz Hc Hhb) as (-> & step & Hfits & Hstep).
    exists w', step. split; [exact Hrun|]. split; [exact Hfits | exact Hstep].
  - intros n. split; apply full_all.
Qed.

Lemma training_iteration_steps_witness :
  (exists w' iterations,
      DCGAN.main (backend := Demo.null) (random := Demo.counter) 2 1 1
                 (Env.initial Demo.disk)
      = (inr tt, w')
      /\ Keras.fits (Env.keras w') = concat iterations
      /\ length iterations = Z.to_nat 2
      /\ List.Forall (dcgan_iteration (backend := Demo.null)
                        (dcgan_training_set Demo.disk) 1)
                     iterations)
  /\ (exists w' step,
         CYCLEGAN.main (backend := Demo.null) (random := Demo.counter) 2 1 1
                       (Env.initial Demo.disk)
         = (inl (Py.AttributeError "nz"), w')
         /\ Keras.fits (Env.keras w') = [step]
         /\ cyclegan_first_step (cyclegan_training_set Demo.disk) 1 step)
  /\ (forall n,
         List.Forall (fun x => x = Np.one) (Np.data (Np.ones n))
         /\ List.Forall (fun x => x = Np.zero) (Np.data (Np.zeros n))).
Proof.
  apply (training_iteration_steps (backend := Demo.null)
           (random := Demo.counter) Demo.disk 2 1 1);
    [ vm_compute; discriminate | vm_compute; discriminate
    | lia | lia | lia | vm_compute; eexists; reflexivity ].
Defined.

(** C10 (counterexample).  With no image in [input/], one epoch of [train]
    on the CycleGAN object with a batch of one raises [ValueError] from
    [randint], before [self.nz] is read. *)
Lemma cyclegan_train_without_images_raises_value_error :
  fst (CYCLEGAN.main (backend := Demo.null) (random := Demo.counter)
         1 1 1 (Env.initial ∅))
  = inl (Py.ValueError "low >= high").
Proof. vm_compute. reflexivity. Qed.

(** C10 (amended).  The constructor stores [nx] and [ny] and no [nz].  For
    every [epochs >= 1] and every [half_batch], [train] on the CycleGAN
    object raises in its first iteration: when the training set is not
    empty and [half_batch >= 1], it raises [AttributeError] for [nz] when
    building the latent batch; when [half_batch] is negative, or the
    training set is empty and [half_batch] is not 0, drawing the indices of
    the real batch raises [ValueError] before that; and when [half_batch]
    is 0, the discriminator step on the empty batch raises before [nz] is
    read. *)
Theorem cyclegan_train_never_completes
        {backend : Keras.Backend} {random : Env.Random}
        (d : gmap string (list (string * Np.image)))
        (epochs half_batch save_interval : Z) :
  1 <= epochs ->
  let files := Py.glob "input" ".png" (default [] (d !! "input"%string)) in
  (exists self w,
      CYCLEGAN.__init__ CYCLEGAN.CONFIG (Env.initial d) = (inr self, w)
      /\ self !! "nz"%string = None
      /\ self !! "nx"%string = Some (Env.VInt (CYCLEGAN.nx CYCLEGAN.CONFIG))
      /\ self !! "ny"%string = Some (Env.VInt (CYCLEGAN.ny CYCLEGAN.CONFIG)))
  /\ exists e w',
       CYCLEGAN.main epochs half_batch save_interval (Env.initial d)
       = (inl e, w')
       /\ (kept [32; 32; 3] files <> [] -> 1 <= half_batch ->
           e = Py.AttributeError "nz")
       /\ ((kept [32; 32; 3] files = [] /\ half_batch <> 0)
           \/ half_batch < 0 ->
           exists msg, e = Py.ValueError msg)
       /\ (half_batch = 0 -> e <> Py.AttributeError "nz").
Proof.
  intros Hep files. split.
  - exists CYCLEGAN_built.self, (CYCLEGAN_built.world d).
    split; [apply cyclegan_init|]. repeat split; reflexivity.
  - destruct (cyclegan_main_raises d epochs half_batch save_interval Hep)
      as (e & w' & Hrun & Hnz & Hval & Hzero).
    exists e, w'. split; [exact Hrun|]. split; [|split].
    + intros Hk Hhb. apply (Hnz Hk Hhb).
    + intros Hcase. apply (Hval Hcase).
    + intros H0. apply (Hzero H0).
Qed.

Lemma cyclegan_train_never_completes_witness :
  let files := Py.glob "input" ".png"
                 (default [] (Demo.inputs !! "input"%string)) in
  (exists self w,
      CYCLEGAN.__init__ (backend := Demo.null) CYCLEGAN.CONFIG
                        (Env.initial Demo.inputs) = (inr self, w)
      /\ self !! "nz"%string = None
      /\ self !! "nx"%string = Some (Env.VInt (CYCLEGAN.nx CYCLEGAN.CONFIG))
      /\ self !! "ny"%string = Some (Env.VInt (CYCLEGAN.ny CYCLEGAN.CONFIG)))
  /\ exists e w',
       CYCLEGAN.main (backend := Demo.null) (random := Demo.counter) 1 1 1
                     (Env.initial Demo.inputs)
       = (inl e, w')
       /\ (kept [32; 32; 3] files <> [] -> 1 <= 1 ->
           e = Py.AttributeError "nz")
       /\ ((kept [32; 32; 3] files = [] /\ 1 <> 0) \/ 1 < 0 ->
           exists msg, e = Py.ValueError msg)
       /\ (1 = 0 -> e <> Py.AttributeError "nz").
Proof.
  apply (cyclegan_train_never_completes (backend := Demo.null)
           (random := Demo.counter) Demo.inputs 1 1 1).
  lia.
Defined.

(* ===================================================================== *)
(** * Saving samples *)
(* ===================================================================== *)

(** C8 (the CycleGAN script).  On the object the constructor builds,
    [save_images] raises [AttributeError] for [gen] for every epoch and
    writes nothing; and the name it would save under is the same for every
    epoch, the format string being left unapplied. *)
Theorem cyclegan_save_images_ignores_epoch
        {backend : Keras.Backend} {random : Env.Random}
        (d : gmap string (list (string * Np.image))) (epoch : Z) :
  exists self w,
    CYCLEGAN.__init__ CYCLEGAN.CONFIG (Env.initial d) = (inr self, w)
    /\ CYCLEGAN.save_images self epoch (5, 5) w
       = (inl (Py.AttributeError "gen"), w)
    /\ Env.written w = []
    /\ forall e, CYCLEGAN.sample_path e = "output/dcgan_%04i.png"%string.
Proof.
  exists CYCLEGAN_built.self, (CYCLEGAN_built.world d).
  split; [apply cyclegan_init|]. split; [|split].
  - now apply cyclegan_save_images_raises.
  - reflexivity.
  - reflexivity.
Qed.

(* ===================================================================== *)
(** * Further properties *)
(* ===================================================================== *)

(** X1.  The generator of the DCGAN script ignores the configured [size]:
    for every configuration with positive [nz], [ngf] and [nc] its output
    is 64x64x[nc], so it has the configured image shape exactly when
    [size] is 64. *)
Theorem dcgan_generator_ignores_size (cfg : DCGAN.config) :
  0 < DCGAN.nz cfg -> 0 < DCGAN.ngf cfg -> 0 < DCGAN.nc cfg ->
  Keras.output_shape_of
    (DCGAN.generator_layers (DCGAN.nz cfg) (DCGAN.ngf cfg) (DCGAN.nc cfg))
    [DCGAN.nz cfg]
  = Some [64; 64; DCGAN.nc cfg]
  /\ (Some [64; 64; DCGAN.nc cfg]
      = Some [DCGAN.size cfg; DCGAN.size cfg; DCGAN.nc cfg]
      <-> DCGAN.size cfg = 64).
Proof.
  intros Hz Hf Hc. split; [now apply dcgan_generator_shape|].
  split; [intros E; now inversion E | intros ->; reflexivity].
Qed.

Lemma dcgan_generator_ignores_size_witness :
  Keras.output_shape_of
    (DCGAN.generator_layers (DCGAN.nz DCGAN.CONFIG) (DCGAN.ngf DCGAN.CONFIG)
                            (DCGAN.nc DCGAN.CONFIG))
    [DCGAN.nz DCGAN.CONFIG]
  = Some [64; 64; DCGAN.nc DCGAN.CONFIG]
  /\ (Some [64; 64; DCGAN.nc DCGAN.CONFIG]
      = Some [DCGAN.size DCGAN.CONFIG; DCGAN.size DCGAN.CONFIG;
              DCGAN.nc DCGAN.CONFIG]
      <-> DCGAN.size DCGAN.CONFIG = 64).
Proof.
  apply (dcgan_generator_ignores_size DCGAN.CONFIG); reflexivity.
Defined.

(** X2.  [DCGAN.save_images] on the object the constructor builds: when
    the output directory exists, it returns and writes exactly one file,
    named from the epoch, holding 25 tiles; when it does not exist,
    [out.save] raises [FileNotFoundError] and no file is written. *)
Theorem dcgan_save_images_writes_one_file
        {backend : Keras.Backend} {random : Env.Random}
        (d : gmap string (list (string * Np.image))) (epoch : Z) :
  exists self w,
    DCGAN.__init__ DCGAN.CONFIG (Env.initial d) = (inr self, w)
    /\ (is_Some (d !! "../output"%string) ->
        exists w' out,
          DCGAN.save_images self epoch (5, 5) w = (inr tt, w')
          /\ Env.written w'
             = Env.written w
               ++ [(DCGAN.sample_path (DCGAN.otp_path DCGAN.CONFIG) epoch,
                    out)]
          /\ length (Env.pasted out) = 25%nat)
    /\ (d !! "../output"%string = None ->
        exists w',
          DCGAN.save_images self epoch (5, 5) w
          = (inl (Py.FileNotFoundError
                    (DCGAN.sample_path (DCGAN.otp_path DCGAN.CONFIG) epoch)),
             w')
          /\ Env.written w' = Env.written w).
Proof.
  exists DCGAN_built.self, (DCGAN_built.world d).
  split; [apply dcgan_init|]. split.
  - intros Hdir. eexists. eexists. split; [|split].
    + now apply dcgan_save_images_eq.
    + reflexivity.
    + reflexivity.
  - intros Hdir. eexists. split.
    + apply (dcgan_save_images_missing _ epoch 5 5);
        [reflexivity | lia | lia | exact Hdir].
    + reflexivity.
Qed.

(** X3.  The DCGAN script saves distinct epochs under distinct names, each
    holding the decimal digits of its epoch. *)
Theorem dcgan_distinct_epochs_distinct_files (otp : string) (a b : Z) :
  0 <= a -> 0 <= b -> a <> b ->
  DCGAN.sample_path otp a <> DCGAN.sample_path otp b
  /\ exists before after,
       DCGAN.sample_path otp a = before +:+ Py.str_int a +:+ after.
Proof.
  intros Ha Hb Hab. split.
  - intros E. apply Hab. now apply (dcgan_sample_path_injective otp).
  - now apply dcgan_sample_path_names_epoch.
Qed.

Lemma dcgan_distinct_epochs_distinct_files_witness :
  DCGAN.sample_path "../output" 0 <> DCGAN.sample_path "../output" 3
  /\ exists before after,
       DCGAN.sample_path "../output" 0
       = before +:+ Py.str_int 0 +:+ after.
Proof.
  apply (dcgan_distinct_epochs_distinct_files "../output" 0 3); lia.
Defined.

(** X4.  Indexing the training array along its first axis gives back the
    stacked images, in order, when each image fills the common shape. *)
Theorem training_array_rows {A} (s : list Z) (xs : list (Np.ndarray A)) :
  List.Forall (filled s) xs ->
  Np.rows (Np.array xs) = xs
  /\ Np.data (Np.array xs) = concat (map Np.data xs).
Proof.
  intros Hxs. split; [now apply (rows_array s) | apply data_array].
Qed.

Lemma training_array_rows_witness :
  let xs := [Np.mk [2] [1; 2]; Np.mk [2] [3; 4]] in
  Np.rows (Np.array xs) = xs
  /\ Np.data (Np.array xs) = concat (map Np.data xs).
Proof.
  intros xs. apply (training_array_rows [2] xs).
  repeat constructor.
Defined.

(** X6.  On decoded images, and for a source directory that [glob] takes
    literally, [load_images] of either script returns an array of shape
    [(n,) + img_shape], [n] being the number of globbed images of the
    configured shape, or the empty array of shape [(0,)] when there is
    none; and it prints as many lines as there are other globbed images:
    every globbed image is loaded or reported, never both. *)
Theorem load_images_shape_and_count
        (dcgan cyclegan : object) (src : string) (shp shp' : list Z)
        (w : Env.world) :
  dcgan !! "src_path"%string = Some (Env.VStr src) ->
  Py.literal_dir src = true ->
  dcgan !! "img_shape"%string = Some (Env.VTuple shp) ->
  cyclegan !! "img_shape"%string = Some (Env.VTuple shp') ->
  (exists x_train lines,
      DCGAN.load_images dcgan w = (inr x_train, printed w lines)
      /\ Np.shape x_train
         = match kept shp (dcgan_files src w) with
           | [] => [0]
           | fs => Z.of_nat (length fs) :: shp
           end
      /\ (length (kept shp (dcgan_files src w)) + length lines
          = length (dcgan_files src w))%nat)
  /\ (exists x_train lines,
         CYCLEGAN.load_images cyclegan w = (inr x_train, printed w lines)
         /\ Np.shape x_train
            = match kept shp' (cyclegan_files w) with
              | [] => [0]
              | fs => Z.of_nat (length fs) :: shp'
              end
         /\ (length (kept shp' (cyclegan_files w)) + length lines
             = length (cyclegan_files w))%nat).
Proof.
  intros Hsrc _ Hshape Hshape'. split.
  - eexists. eexists.
    split; [exact (dcgan_load_images_eq _ _ _ _ Hsrc Hshape)|]. split.
    + destruct (kept shp (dcgan_files src w)) as [|f fs] eqn:Ek;
        [reflexivity|].
      assert (Hf : In f (kept shp (dcgan_files src w)))
        by (rewrite Ek; now left).
      apply kept_spec in Hf as [_ Hf].
      simpl. now rewrite length_map, Hf.
    + rewrite length_map. unfold kept, skipped. apply filter_length.
  - eexists. eexists.
    split; [exact (cyclegan_load_images_eq _ _ _ Hshape')|]. split.
    + destruct (kept shp' (cyclegan_files w)) as [|f fs] eqn:Ek;
        [reflexivity|].
      assert (Hf : In f (kept shp' (cyclegan_files w)))
        by (rewrite Ek; now left).
      apply kept_spec in Hf as [_ Hf].
      simpl. now rewrite length_map, Hf.
    + rewrite length_map. unfold kept, skipped. apply filter_length.
Qed.

Lemma load_images_shape_and_count_witness :
  let w := Env.initial Demo.disk in
  let dfiles := dcgan_files "../input/hands_64" w in
  let dkept := kept [64; 64; 3] dfiles in
  let ckept := kept [32; 32; 3] (cyclegan_files w) in
  (exists x_train lines,
      DCGAN.load_images DCGAN_built.self w = (inr x_train, printed w lines)
      /\ Np.shape x_train
         = match dkept with
           | [] => [0]
           | fs => Z.of_nat (length fs) :: [64; 64; 3]
           end
      /\ (length dkept + length lines = length dfiles)%nat)
  /\ (exists x_train lines,
         CYCLEGAN.load_images CYCLEGAN_built.self w
         = (inr x_train, printed w lines)
         /\ Np.shape x_train
            = match ckept with
              | [] => [0]
              | fs => Z.of_nat (length fs) :: [32; 32; 3]
              end
         /\ (length ckept + length lines
             = length (cyclegan_files w))%nat).
Proof.
  intros w dfiles dkept ckept.
  apply (load_images_shape_and_count DCGAN_built.self CYCLEGAN_built.self
           "../input/hands_64" [64; 64; 3] [32; 32; 3] w); reflexivity.
Defined.

Lemma round_trip_checked :
  forallb (fun k => DCGAN.denormalize (DCGAN.normalize (Z.of_nat k))
                    =? Z.of_nat k)
          (seq 0 256) = true.
Proof. vm_compute. reflexivity. Qed.

(** X7.  In binary32, the conversion used for saving undoes the
    normalisation used for loading on every 8-bit sample. *)
Theorem denormalize_normalize (v : Z) :
  Np.is_uint8 v -> DCGAN.denormalize (DCGAN.normalize v) = v.
Proof.
  intros [Hlo Hhi].
  assert (Hv : In (Z.to_nat v) (seq 0 256)) by (apply in_seq; lia).
  apply (proj1 (forallb_forall _ _) round_trip_checked) in Hv.
  cbv beta in Hv. rewrite Z2Nat.id in Hv by exact Hlo.
  now apply Z.eqb_eq.
Qed.

Lemma denormalize_normalize_witness :
  DCGAN.denormalize (DCGAN.normalize 200) = 200.
Proof.
  apply (denormalize_normalize 200). unfold Np.is_uint8. lia.
Defined.

(** ** Which image sizes the networks accept *)

Lemma spatial_eq (f g : Z -> Z) (r c ch : Z) :
  Keras.spatial f g [r; c; ch]
  = if (0 <? f r) && ((0 <? f c) && ((0 <? g ch) && true))
    then Some [f r; f c; g ch] else None.
Proof. reflexivity. Qed.

(** Shape inference over a stack, one test at a time. *)
Ltac shape_cases :=
  repeat
    (cbn [Keras.output_shape_of Keras.compute_output_shape];
     rewrite ?spatial_eq;
     cbv beta delta [Keras.conv_output_length Keras.deconv_length];
     match goal with
     | |- context [0 <? ?e] => destruct (Z.ltb_spec 0 e)
     end;
     cbn [andb]).

Ltac by_division := Z.to_euclidean_division_equations; lia.

Ltac shape_leaf :=
  lazymatch goal with
  | |- None = None => reflexivity
  | |- Some _ = Some _ =>
      unfold Np.size_of, fold_right; do 2 f_equal;
      try match goal with
      | |- ?a * (?a * _) = ?b * ?b =>
          replace a with b by by_division; ring
      end;
      by_division
  | |- _ => exfalso; by_division
  end.

Lemma dcgan_discriminator_shape (size ndf nc : Z) (alpha : Q) :
  0 < ndf -> 0 < nc ->
  Keras.output_shape_of (DCGAN.discriminator_layers ndf alpha) [size; size; nc]
  = if 0 <? dcgan_discriminator_side size
    then Some [dcgan_discriminator_side size * dcgan_discriminator_side size]
    else None.
Proof.
  intros Hf Hc. unfold DCGAN.discriminator_layers.
  shape_cases; unfold dcgan_discriminator_side in *; shape_leaf.
Qed.

Lemma cyclegan_discriminator_shape (size ndf nc : Z) (alpha : Q) :
  0 < ndf -> 0 < nc ->
  Keras.output_shape_of (CYCLEGAN.discriminator_layers ndf alpha)
                        [size; size; nc]
  = if 0 <? cyclegan_discriminator_side size
    then Some [cyclegan_discriminator_side size
               * cyclegan_discriminator_side size]
    else None.
Proof.
  intros Hf Hc. unfold CYCLEGAN.discriminator_layers.
  shape_cases; unfold cyclegan_discriminator_side in *; shape_leaf.
Qed.

Lemma cyclegan_generator_accepts (size ngf nc : Z) :
  0 < ngf -> 0 < nc ->
  Keras.output_shape_of (CYCLEGAN.generator_layers ngf nc) [size; size; nc]
  = if 7 <=? size then Some [size; size; nc] else None.
Proof.
  intros Hf Hc. unfold CYCLEGAN.generator_layers.
  shape_cases; destruct (Z.leb_spec 7 size);
    lazymatch goal with
    | |- None = None => reflexivity
    | |- Some _ = Some _ => repeat f_equal; by_division
    | |- _ => exfalso; by_division
    end.
Qed.

Lemma discriminator_sides (size : Z) :
  (0 < dcgan_discriminator_side size <-> 57 <= size)
  /\ (dcgan_discriminator_side size = 1 <-> 57 <= size <= 72)
  /\ (0 < cyclegan_discriminator_side size <-> 25 <= size)
  /\ (cyclegan_discriminator_side size = 1 <-> 25 <= size <= 32).
Proof.
  unfold dcgan_discriminator_side, cyclegan_discriminator_side.
  repeat split; intros; by_division.
Qed.

(** X8.  The discriminator of the DCGAN script, for any positive filter and
    channel counts: images smaller than 57x57 are refused by shape
    inference, sizes 57 to 72 give one number per image, and larger sizes
    give a [k]x[k] map with [k >= 2], flattened. *)
Theorem dcgan_discriminator_sizes (size ndf nc : Z) (alpha : Q) :
  0 < ndf -> 0 < nc ->
  let out := Keras.output_shape_of (DCGAN.discriminator_layers ndf alpha)
                                   [size; size; nc] in
  (size < 57 -> out = None)
  /\ (57 <= size <= 72 -> out = Some [1])
  /\ (72 < size -> exists k, 2 <= k /\ out = Some [k * k]).
Proof.
  intros Hf Hc out. subst out. rewrite dcgan_discriminator_shape by assumption.
  destruct (discriminator_sides size) as (Hpos & Hone & _).
  split; [|split].
  - intros Hs. destruct (Z.ltb_spec 0 (dcgan_discriminator_side size));
      [lia | reflexivity].
  - intros Hs. apply Hone in Hs. rewrite Hs. reflexivity.
  - intros Hs. exists (dcgan_discriminator_side size).
    assert (0 < dcgan_discriminator_side size) as H0 by (apply Hpos; lia).
    rewrite (proj2 (Z.ltb_lt _ _) H0). split; [|reflexivity].
    destruct (Z.eq_dec (dcgan_discriminator_side size) 1) as [E | E]; [|lia].
    apply Hone in E. lia.
Qed.

Lemma dcgan_discriminator_sizes_witness :
  let out := Keras.output_shape_of
               (DCGAN.discriminator_layers (DCGAN.ndf DCGAN.CONFIG)
                                           (DCGAN.alpha DCGAN.CONFIG))
               [32; 32; DCGAN.nc DCGAN.CONFIG] in
  (32 < 57 -> out = None)
  /\ (57 <= 32 <= 72 -> out = Some [1])
  /\ (72 < 32 -> exists k, 2 <= k /\ out = Some [k * k]).
Proof.
  apply (dcgan_discriminator_sizes 32 (DCGAN.ndf DCGAN.CONFIG)
           (DCGAN.nc DCGAN.CONFIG) (DCGAN.alpha DCGAN.CONFIG));
    reflexivity.
Defined.

(** X9.  The discriminator of the CycleGAN script, for any positive filter
    and channel counts: images smaller than 25x25 are refused, sizes 25 to
    32 give one number per image, larger sizes a flattened [k]x[k] map with
    [k >= 2]. *)
Theorem cyclegan_discriminator_sizes (size ndf nc : Z) (alpha : Q) :
  0 < ndf -> 0 < nc ->
  let out := Keras.output_shape_of (CYCLEGAN.discriminator_layers ndf alpha)
                                   [size; size; nc] in
  (size < 25 -> out = None)
  /\ (25 <= size <= 32 -> out = Some [1])
  /\ (32 < size -> exists k, 2 <= k /\ out = Some [k * k]).
Proof.
  intros Hf Hc out. subst out.
  rewrite cyclegan_discriminator_shape by assumption.
  destruct (discriminator_sides size) as (_ & _ & Hpos & Hone).
  split; [|split].
  - intros Hs. destruct (Z.ltb_spec 0 (cyclegan_discriminator_side size));
      [lia | reflexivity].
  - intros Hs. apply Hone in Hs. rewrite Hs. reflexivity.
  - intros Hs. exists (cyclegan_discriminator_side size).
    assert (0 < cyclegan_discriminator_side size) as H0 by (apply Hpos; lia).
    rewrite (proj2 (Z.ltb_lt _ _) H0). split; [|reflexivity].
    destruct (Z.eq_dec (cyclegan_discriminator_side size) 1) as [E | E];
      [|lia].
    apply Hone in E. lia.
Qed.

Lemma cyclegan_discriminator_sizes_witness :
  let out := Keras.output_shape_of
               (CYCLEGAN.discriminator_layers (CYCLEGAN.ndf CYCLEGAN.CONFIG)
                                              (CYCLEGAN.alpha CYCLEGAN.CONFIG))
               [64; 64; CYCLEGAN.nc CYCLEGAN.CONFIG] in
  (64 < 25 -> out = None)
  /\ (25 <= 64 <= 32 -> out = Some [1])
  /\ (32 < 64 -> exists k, 2 <= k /\ out = Some [k * k]).
Proof.
  apply (cyclegan_discriminator_sizes 64 (CYCLEGAN.ndf CYCLEGAN.CONFIG)
           (CYCLEGAN.nc CYCLEGAN.CONFIG) (CYCLEGAN.alpha CYCLEGAN.CONFIG));
    reflexivity.
Defined.

(** X10.  The generator of the CycleGAN script, for any positive filter and
    channel counts, gives back the shape of its input from 7x7 on and is
    refused by shape inference on anything smaller. *)
Theorem cyclegan_generator_sizes (size ngf nc : Z) :
  0 < ngf -> 0 < nc ->
  Keras.output_shape_of (CYCLEGAN.generator_layers ngf nc) [size; size; nc]
  = if 7 <=? size then Some [size; size; nc] else None.
Proof. exact (cyclegan_generator_accepts size ngf nc). Qed.

Lemma cyclegan_generator_sizes_witness :
  Keras.output_shape_of
    (CYCLEGAN.generator_layers (CYCLEGAN.ngf CYCLEGAN.CONFIG)
                               (CYCLEGAN.nc CYCLEGAN.CONFIG))
    [6; 6; CYCLEGAN.nc CYCLEGAN.CONFIG]
  = if 7 <=? 6 then Some [6; 6; CYCLEGAN.nc CYCLEGAN.CONFIG] else None.
Proof.
  apply (cyclegan_generator_sizes 6 (CYCLEGAN.ngf CYCLEGAN.CONFIG)
           (CYCLEGAN.nc CYCLEGAN.CONFIG)); reflexivity.
Defined.

(** X11.  Both constructors raise [ValueError] on a configuration whose
    images are too small for the discriminator (below 57 in the DCGAN
    script, below 25 in the CycleGAN script), before anything is built or
    printed. *)
Theorem constructors_reject_small_images `{Keras.Backend}
        (dcfg : DCGAN.config) (ccfg : CYCLEGAN.config) (w : Env.world) :
  0 < DCGAN.ndf dcfg -> 0 < DCGAN.nc dcfg -> DCGAN.size dcfg < 57 ->
  0 < CYCLEGAN.ndf ccfg -> 0 < CYCLEGAN.nc ccfg -> CYCLEGAN.size ccfg < 25 ->
  DCGAN.__init__ dcfg w
  = (inl (Py.ValueError "incompatible layer input"), w)
  /\ CYCLEGAN.__init__ ccfg w
     = (inl (Py.ValueError "incompatible layer input"), w).
Proof.
  intros Hdf Hdc Hds Hcf Hcc Hcs. split.
  - unfold DCGAN.__init__. erewrite bind_err; [reflexivity|].
    unfold DCGAN.build_discriminator.
    erewrite bind_ok by (apply get_int_some; reflexivity).
    erewrite bind_ok by (apply get_tuple_some; reflexivity).
    erewrite bind_ok by (apply get_num_some; reflexivity).
    erewrite bind_err; [reflexivity|].
    rewrite <- (with_keras_same w) at 2. apply lift_err.
    unfold Keras.sequential.
    rewrite dcgan_discriminator_shape by assumption.
    destruct (Z.ltb_spec 0 (dcgan_discriminator_side (DCGAN.size dcfg)))
      as [Hp | _]; [|reflexivity].
    apply (proj1 (discriminator_sides _)) in Hp. lia.
  - unfold CYCLEGAN.__init__. erewrite bind_err; [reflexivity|].
    unfold CYCLEGAN.build_discriminator.
    erewrite bind_ok by (apply get_int_some; reflexivity).
    erewrite bind_ok by (apply get_tuple_some; reflexivity).
    erewrite bind_ok by (apply get_num_some; reflexivity).
    erewrite bind_err; [reflexivity|].
    rewrite <- (with_keras_same w) at 2. apply lift_err.
    unfold Keras.sequential.
    rewrite cyclegan_discriminator_shape by assumption.
    destruct (Z.ltb_spec 0 (cyclegan_discriminator_side (CYCLEGAN.size ccfg)))
      as [Hp | _]; [|reflexivity].
    apply (proj1 (proj2 (proj2 (discriminator_sides _)))) in Hp. lia.
Qed.

Lemma constructors_reject_small_images_witness :
  let dcfg := {| DCGAN.size := 56; DCGAN.ngf := 64; DCGAN.nz := 200;
                 DCGAN.nc := 3; DCGAN.ndf := 64; DCGAN.lr := 2 # 10000;
                 DCGAN.beta1 := 5 # 10; DCGAN.alpha := 2 # 10;
                 DCGAN.src_path := "../input/hands_64";
                 DCGAN.otp_path := "../output" |} in
  let ccfg := {| CYCLEGAN.size := 24; CYCLEGAN.ngf := 16; CYCLEGAN.nx := 100;
                 CYCLEGAN.ny := 100; CYCLEGAN.nc := 3; CYCLEGAN.ndf := 64;
                 CYCLEGAN.lr := 2 # 10000; CYCLEGAN.beta1 := 5 # 10;
                 CYCLEGAN.alpha := 2 # 10 |} in
  let w := Env.initial Demo.disk in
  @DCGAN.__init__ Demo.null dcfg w
  = (inl (Py.ValueError "incompatible layer input"), w)
  /\ @CYCLEGAN.__init__ Demo.null ccfg w
     = (inl (Py.ValueError "incompatible layer input"), w).
Proof.
  intros dcfg ccfg w.
  apply (@constructors_reject_small_images Demo.null dcfg ccfg w);
    reflexivity.
Defined.

(** ** What a whole run of the DCGAN script prints and writes *)

(** X12.  A run of the DCGAN script on a directory with at least one
    64x64x3 [.jpg], for a batch of at least one image, a non-zero
    [save_interval] and an existing output directory: it returns, it
    prints one progress line per epoch, in order, and it writes one sample
    grid for every epoch that [save_interval] divides (epoch 0 included),
    under the name made from that epoch, and no other file. *)
Theorem dcgan_run_outputs {backend : Keras.Backend} {random : Env.Random}
        (d : gmap string (list (string * Np.image)))
        (epochs half_batch save_interval : Z) :
  kept [64; 64; 3]
       (Py.glob "../input/hands_64" ".jpg"
                (default [] (d !! "../input/hands_64"%string))) <> [] ->
  1 <= half_batch -> save_interval <> 0 ->
  is_Some (d !! "../output"%string) ->
  exists w',
    DCGAN.main epochs half_batch save_interval (Env.initial d) = (inr tt, w')
    /\ progress_epochs (Env.stdout w') = Py.range epochs
    /\ map fst (Env.written w')
       = map (DCGAN.sample_path (DCGAN.otp_path DCGAN.CONFIG))
             (List.filter (fun epoch => epoch mod save_interval =? 0)
                          (Py.range epochs)).
Proof.
  intros Hkept Hhb Hsi Hdir.
  destruct (dcgan_main_ok d epochs half_batch save_interval Hkept Hhb Hsi
              Hdir)
    as (w' & iterations & Hrun & _ & _ & _ & Hout & Hwr).
  exists w'. split; [exact Hrun|]. split; [exact Hout | exact Hwr].
Qed.

Lemma dcgan_run_outputs_witness :
  exists w',
    @DCGAN.main Demo.null Demo.counter 7 2 3 (Env.initial Demo.disk)
    = (inr tt, w')
    /\ progress_epochs (Env.stdout w') = Py.range 7
    /\ map fst (Env.written w')
       = map (DCGAN.sample_path (DCGAN.otp_path DCGAN.CONFIG))
             (List.filter (fun epoch => epoch mod 3 =? 0) (Py.range 7)).
Proof.
  apply (@dcgan_run_outputs Demo.null Demo.counter Demo.disk 7 2 3).
  - vm_compute. discriminate.
  - lia.
  - lia.
  - vm_compute. eexists. reflexivity.
Defined.

(** X13.  With [save_interval = 0] the DCGAN script does not get past its
    first iteration (training set not empty, batch of at least one image):
    the three steps of epoch 0 are run and its progress line is printed,
    then [epoch % save_interval] raises [ZeroDivisionError]; no file is
    written. *)
Theorem dcgan_zero_save_interval {backend : Keras.Backend}
        {random : Env.Random}
        (d : gmap string (list (string * Np.image)))
        (epochs half_batch : Z) :
  kept [64; 64; 3]
       (Py.glob "../input/hands_64" ".jpg"
                (default [] (d !! "../input/hands_64"%string))) <> [] ->
  1 <= half_batch -> 1 <= epochs ->
  exists w',
    DCGAN.main epochs half_batch 0 (Env.initial d)
    = (inl Py.ZeroDivisionError, w')
    /\ dcgan_iteration (dcgan_training_set d) half_batch
                       (Keras.fits (Env.keras w'))
    /\ progress_epochs (Env.stdout w') = [0]
    /\ Env.written w' = [].
Proof.
  intros Hkept Hhb Hepochs.
  destruct (dcgan_training_set_shape d Hkept) as (n & Hn & Hshape).
  destruct (range_pos epochs Hepochs) as (rest & Hrange).
  destruct (dcgan_train_epoch_split
              (printed (DCGAN_built.world d)
                 (map bad_shape_line
                    (skipped [64; 64; 3]
                       (dcgan_files "../input/hands_64"
                                    (DCGAN_built.world d)))))
              (dcgan_training_set d) n half_batch 0 0 eq_refl Hshape Hn Hhb)
    as (w1 & steps & dl & da & gl & Hrun & _ & Hfits & Hsteps & Hout & Hwr
        & _).
  exists w1. split; [|split; [|split]].
  - rewrite dcgan_main_eq, Hrange. cbn [Py.for_each].
    apply bind_err. etransitivity; [exact Hrun | reflexivity].
  - rewrite Hfits. exact Hsteps.
  - rewrite Hout. cbn [printed Env.stdout].
    rewrite !progress_epochs_app, progress_epochs_lines. reflexivity.
  - rewrite Hwr. reflexivity.
Qed.

Lemma dcgan_zero_save_interval_witness :
  exists w',
    @DCGAN.main Demo.null Demo.counter 4000 140 0 (Env.initial Demo.disk)
    = (inl Py.ZeroDivisionError, w')
    /\ @dcgan_iteration Demo.null (dcgan_training_set Demo.disk) 140
                        (Keras.fits (Env.keras w'))
    /\ progress_epochs (Env.stdout w') = [0]
    /\ Env.written w' = [].
Proof.
  apply (@dcgan_zero_save_interval Demo.null Demo.counter Demo.disk 4000 140).
  - vm_compute. discriminate.
  - lia.
  - lia.
Defined.

(** X14.  When the source directory holds no [.jpg] of shape 64x64x3 (or
    does not hold anything), the DCGAN script raises [ValueError] in its
    first iteration before any optimizer step: from [randint], whose
    bounds are both 0, or, when [half_batch] is 0, from [gen.predict] on
    the empty latent batch.  Nothing is trained, no random number is drawn,
    no progress line is printed and no file is written. *)
Theorem dcgan_run_without_images {backend : Keras.Backend}
        {random : Env.Random}
        (d : gmap string (list (string * Np.image)))
        (epochs half_batch save_interval : Z) :
  kept [64; 64; 3]
       (Py.glob "../input/hands_64" ".jpg"
                (default [] (d !! "../input/hands_64"%string))) = [] ->
  1 <= epochs ->
  exists msg w',
    DCGAN.main epochs half_batch save_interval (Env.initial d)
    = (inl (Py.ValueError msg), w')
    /\ Keras.fits (Env.keras w') = []
    /\ progress_epochs (Env.stdout w') = []
    /\ Env.written w' = []
    /\ Env.rng w' = 0%nat.
Proof.
  intros Hkept Hepochs.
  destruct (range_pos epochs Hepochs) as (rest & Hrange).
  set (w := printed (DCGAN_built.world d)
              (map bad_shape_line
                 (skipped [64; 64; 3]
                    (dcgan_files "../input/hands_64" (DCGAN_built.world d))))).
  assert (Hset : dcgan_training_set d = Np.mk [0] []).
  { unfold dcgan_training_set. now rewrite Hkept. }
  assert (Hout : progress_epochs (Env.stdout w) = []).
  { unfold w. cbn [printed Env.stdout].
    rewrite progress_epochs_app, progress_epochs_lines. reflexivity. }
  destruct (Z.eq_dec half_batch 0) as [-> | Hnz].
  - exists "Expected input data to be non-empty."%string, w.
    split; [|repeat split; first [exact Hout | reflexivity]].
    rewrite dcgan_main_eq, Hrange, Hset. cbn [Py.for_each]. fold w.
    apply bind_err. unfold DCGAN.train_epoch.
    rewrite (bind_ok _ _ _ _ _ (randint_zero _ _ w)).
    rewrite (bind_ok _ _ _ _ _
               (get_model_some DCGAN_built.self "gen" _ DCGAN_built.gen
                               eq_refl)).
    rewrite (bind_ok _ _ _ _ _
               (get_int_some DCGAN_built.self "nz" _ 200 eq_refl)).
    erewrite bind_ok by reflexivity.
    apply bind_err.
    etransitivity;
      [apply lift_err; eapply predict_empty; [reflexivity | cbn; lia]|].
    reflexivity.
  - exists "low >= high"%string, w.
    split; [|repeat split; first [exact Hout | reflexivity]].
    rewrite dcgan_main_eq, Hrange, Hset. cbn [Py.for_each]. fold w.
    apply bind_err. unfold DCGAN.train_epoch. apply bind_err.
    apply randint_empty; [exact Hnz | cbn; lia].
Qed.

Lemma dcgan_run_without_images_witness :
  exists msg w',
    @DCGAN.main Demo.null Demo.counter 4000 140 3 (Env.initial Demo.inputs)
    = (inl (Py.ValueError msg), w')
    /\ Keras.fits (Env.keras w') = []
    /\ progress_epochs (Env.stdout w') = []
    /\ Env.written w' = []
    /\ Env.rng w' = 0%nat.
Proof.
  apply (@dcgan_run_without_images Demo.null Demo.counter Demo.inputs
           4000 140 3).
  - vm_compute. reflexivity.
  - lia.
Defined.

(** X20.  Without the output directory (the repository ships none), a run
    of the DCGAN script that would otherwise succeed raises
    [FileNotFoundError] at the end of its first iteration, epoch 0 being
    always saved: the three steps of epoch 0 were run and its progress
    line printed, and no file is written. *)
Theorem dcgan_run_without_output_directory {backend : Keras.Backend}
        {random : Env.Random}
        (d : gmap string (list (string * Np.image)))
        (epochs half_batch save_interval : Z) :
  kept [64; 64; 3]
       (Py.glob "../input/hands_64" ".jpg"
                (default [] (d !! "../input/hands_64"%string))) <> [] ->
  1 <= half_batch -> save_interval <> 0 -> 1 <= epochs ->
  d !! "../output"%string = None ->
  exists w',
    DCGAN.main epochs half_batch save_interval (Env.initial d)
    = (inl (Py.FileNotFoundError
              (DCGAN.sample_path (DCGAN.otp_path DCGAN.CONFIG) 0)), w')
    /\ dcgan_iteration (dcgan_training_set d) half_batch
                       (Keras.fits (Env.keras w'))
    /\ progress_epochs (Env.stdout w') = [0]
    /\ Env.written w' = [].
Proof.
  intros Hkept Hhb Hsi Hepochs Hdir.
  destruct (dcgan_training_set_shape d Hkept) as (n & Hn & Hshape).
  destruct (range_pos epochs Hepochs) as (rest & Hrange).
  destruct (dcgan_train_epoch_split
              (printed (DCGAN_built.world d)
                 (map bad_shape_line
                    (skipped [64; 64; 3]
                       (dcgan_files "../input/hands_64"
                                    (DCGAN_built.world d)))))
              (dcgan_training_set d) n half_batch save_interval 0 eq_refl
              Hshape Hn Hhb)
    as (w1 & steps & dl & da & gl & Hrun & Hm1 & Hfits & Hsteps & Hout & Hwr
        & Hdirs).
  exists (advanced w1 5000). split; [|split; [|split]].
  - rewrite dcgan_main_eq, Hrange. cbn [Py.for_each].
    apply bind_err. etransitivity; [exact Hrun|].
    rewrite (bind_ok _ _ _ _ _ (mod_ok _ _ _ Hsi)).
    rewrite Z.mod_0_l by exact Hsi. cbn [Z.eqb].
    apply (dcgan_save_images_missing w1 0 5 5);
      [exact Hm1 | lia | lia | now rewrite Hdirs].
  - project. rewrite Hfits. exact Hsteps.
  - project. rewrite Hout. cbn [printed Env.stdout].
    rewrite !progress_epochs_app, progress_epochs_lines. reflexivity.
  - project. rewrite Hwr. reflexivity.
Qed.

Lemma dcgan_run_without_output_directory_witness :
  exists w',
    @DCGAN.main Demo.null Demo.counter 4000 140 3 (Env.initial Demo.hands)
    = (inl (Py.FileNotFoundError
              (DCGAN.sample_path (DCGAN.otp_path DCGAN.CONFIG) 0)), w')
    /\ @dcgan_iteration Demo.null (dcgan_training_set Demo.hands) 140
                        (Keras.fits (Env.keras w'))
    /\ progress_epochs (Env.stdout w') = [0]
    /\ Env.written w' = [].
Proof.
  apply (@dcgan_run_without_output_directory Demo.null Demo.counter
           Demo.hands 4000 140 3).
  - vm_compute. discriminate.
  - lia.
  - lia.
  - lia.
  - reflexivity.
Defined.

(** ** Which weights the discriminator steps move *)

Lemma fold_insert_in {K V} `{Countable K} (f : K -> V) (ks : list K)
      (k : K) :
  forall m : gmap K V,
    In k ks -> fold_left (fun acc j => <[j := f j]> acc) ks m !! k
               = Some (f k).
Proof.
  induction ks as [|j ks IH]; intros m Hk; simpl; [contradiction|].
  destruct (in_dec (fun a b => decide (a = b)) k ks) as [Hin | Hout].
  - now apply IH.
  - rewrite fold_insert_other by exact Hout.
    destruct Hk as [-> | Hin]; [|contradiction].
    apply lookup_insert_eq.
Qed.

Lemma combine_seq_lookup {A} (ls : list A) :
  forall (s i : nat) (l : A),
    ls !! i = Some l -> In ((s + i)%nat, l) (combine (seq s (length ls)) ls).
Proof.
  induction ls as [|a ls IH]; intros s [|i] l Hl; simpl in *;
    try discriminate.
  - left. inversion Hl. f_equal. lia.
  - right. replace (s + S i)%nat with (S s + i)%nat by lia. now apply IH.
Qed.

Lemma layer_weights_in (m i : nat) (layers : list Keras.layer)
      (l : Keras.layer) :
  layers !! i = Some l -> Keras.has_weights l = true ->
  In (m, i) (Keras.layer_weights m layers).
Proof.
  intros Hl Hw. unfold Keras.layer_weights. apply in_map_iff.
  exists (i, l). split; [reflexivity|]. apply filter_In. split; [|exact Hw].
  exact (combine_seq_lookup layers 0 i l Hl).
Qed.

(** X15.  In the DCGAN object the discriminator is marked not trainable,
    but only after it was compiled: a step of [discr.train_on_batch] on
    arrays of the right shapes that hold at least one sample still gives
    every layer of the discriminator that has weights its new value from
    the optimizer; and a step of [discr.train_on_batch], on any arrays,
    leaves every weight of the generator as it was. *)
Theorem discriminator_step_trains_discriminator_only
        {backend : Keras.Backend}
        (d : gmap string (list (string * Np.image))) :
  exists self w discr gen md,
    DCGAN.__init__ DCGAN.CONFIG (Env.initial d) = (inr self, w)
    /\ self !! "discr"%string = Some (Env.VModel discr)
    /\ self !! "gen"%string = Some (Env.VModel gen)
    /\ Keras.models (Env.keras w) !! discr = Some md
    /\ Keras.trainable md = false
    /\ forall ws fs x y,
         let h := heap_of (Keras.models (Env.keras w)) ws fs in
         let h' := snd (Keras.train_on_batch discr x y h) in
         (tl (Np.shape x) = [64; 64; 3] -> tl (Np.shape y) = [1] ->
          hd 0 (Np.shape x) = hd 0 (Np.shape y) -> 1 <= hd 0 (Np.shape x) ->
          forall i l,
            DCGAN.discriminator_layers (DCGAN.ndf DCGAN.CONFIG)
                                       (DCGAN.alpha DCGAN.CONFIG) !! i
            = Some l ->
            Keras.has_weights l = true ->
            Keras.weights h' !! (discr, i)
            = Some (Keras.optimizer_update h discr x y (discr, i)))
         /\ (forall i, Keras.weights h' !! (gen, i) = ws !! (gen, i)).
Proof.
  exists DCGAN_built.self, (DCGAN_built.world d),
    DCGAN_built.discr, DCGAN_built.gen.
  eexists. split; [apply dcgan_init|]. do 2 (split; [reflexivity|]).
  split; [reflexivity|]. split; [reflexivity|].
  intros ws fs x y h h'. split.
  - intros Hx Hy Hxy Hn i l Hl Hw. unfold h'.
    erewrite train_on_batch_ok;
      [| reflexivity | reflexivity | exact Hx | exact Hy | exact Hxy
       | exact Hn].
    cbn [snd stepped Keras.weights].
    apply (fold_insert_in
             (fun k => Keras.optimizer_update h DCGAN_built.discr x y k)).
    exact (layer_weights_in DCGAN_built.discr i _ l Hl Hw).
  - intros i. unfold h'.
    erewrite train_on_batch_frame; [reflexivity | reflexivity | reflexivity |].
    intros Hin. apply layer_weights_owner in Hin. discriminate.
Qed.

(** ** The sample grid *)

Lemma paste_all (g : Z -> Env.tile * (Z * Z)) (l : list Z) :
  forall out,
    Env.pasted (fold_left (fun out j => Env.paste out (fst (g j)) (snd (g j)))
                          l out)
    = Env.pasted out ++ map g l
    /\ Env.extent (fold_left
                     (fun out j => Env.paste out (fst (g j)) (snd (g j)))
                     l out)
       = Env.extent out.
Proof.
  induction l as [|j l IH]; intros out; simpl.
  - now rewrite app_nil_r.
  - destruct (IH (Env.paste out (fst (g j)) (snd (g j)))) as [-> ->].
    cbn [Env.paste Env.pasted Env.extent]. rewrite <- app_assoc.
    now destruct (g j).
Qed.

(** The tiles of a grid, in the order they are pasted. *)
Lemma tiled_pasted (as_tile : Np.ndarray Z -> Env.tile) (imgs : Np.ndarray Z)
      (s0 s1 : Z) (n : Z * Z) :
  forall out,
    Env.pasted (tiled as_tile imgs s0 s1 n out)
    = Env.pasted out
      ++ flat_map (fun i =>
                     map (fun j => (as_tile (Np.row imgs (snd n * i + j)),
                                    (2 + s0 * i, 2 + s1 * j)))
                         (Py.range (snd n)))
                  (Py.range (fst n))
    /\ Env.extent (tiled as_tile imgs s0 s1 n out) = Env.extent out.
Proof.
  unfold tiled. induction (Py.range (fst n)) as [|i l IH]; intros out; simpl.
  - now rewrite app_nil_r.
  - destruct (IH (fold_left
                    (fun out j =>
                       Env.paste out (as_tile (Np.row imgs (snd n * i + j)))
                                 (2 + s0 * i, 2 + s1 * j))
                    (Py.range (snd n)) out)) as [-> ->].
    destruct (paste_all
                (fun j => (as_tile (Np.row imgs (snd n * i + j)),
                           (2 + s0 * i, 2 + s1 * j)))
                (Py.range (snd n)) out) as [Hp He].
    cbn [fst snd] in Hp, He. rewrite Hp, He, <- app_assoc. now split.
Qed.

Lemma lookup_map_seq {A} (g : nat -> A) (b : nat) :
  forall s j : nat, (j < b)%nat -> map g (seq s b) !! j = Some (g (s + j)%nat).
Proof.
  induction b as [|b IH]; intros s [|j] Hj; simpl; try lia.
  - now rewrite Nat.add_0_r.
  - rewrite IH by lia. f_equal. f_equal. lia.
Qed.

Lemma length_grid {A} (f : nat -> nat -> A) (b : nat) (l : list nat) :
  length (flat_map (fun i => map (f i) (seq 0 b)) l) = (length l * b)%nat.
Proof.
  induction l as [|i l IH]; simpl; [reflexivity|].
  now rewrite length_app, length_map, length_seq, IH.
Qed.

(** Entry [k] of a grid filled row after row is at [(k / b, k mod b)]. *)
Lemma grid_lookup {A} (f : nat -> nat -> A) (a b k : nat) :
  (k < a * b)%nat ->
  flat_map (fun i => map (f i) (seq 0 b)) (seq 0 a) !! k
  = Some (f (k / b)%nat (k mod b)%nat).
Proof.
  induction a as [|a IH]; intros Hk; [lia|].
  rewrite seq_S, flat_map_app. cbn [flat_map plus]. rewrite app_nil_r.
  destruct (Nat.lt_ge_cases k (a * b)) as [Hlt | Hge].
  - rewrite lookup_app_l by (now rewrite length_grid, length_seq).
    now apply IH.
  - rewrite lookup_app_r by (now rewrite length_grid, length_seq).
    rewrite length_grid, length_seq.
    rewrite lookup_map_seq by lia. cbn [plus].
    assert (Hq : (k / b = a)%nat)
      by (symmetry; apply (Nat.div_unique k b a (k - a * b)); lia).
    assert (Hr : (k mod b = k - a * b)%nat)
      by (symmetry; apply (Nat.mod_unique k b a (k - a * b)); lia).
    now rewrite Hq, Hr.
Qed.

Lemma grid_of_ranges {A} (f : Z -> Z -> A) (a b : Z) :
  flat_map (fun i => map (f i) (Py.range b)) (Py.range a)
  = flat_map (fun i => map (fun j => f (Z.of_nat i) (Z.of_nat j))
                           (seq 0 (Z.to_nat b)))
             (seq 0 (Z.to_nat a)).
Proof.
  unfold Py.range. induction (seq 0 (Z.to_nat a)) as [|i l IH]; simpl;
    [reflexivity|].
  now rewrite IH, map_map.
Qed.

(** X16.  [DCGAN.save_images] on the object the constructor builds, for a
    grid of [n0] by [n1] tiles and an existing output directory: one canvas
    of [2 + 66 n0] by [2 + 66 n1] pixels is saved; it holds [n0 * n1]
    tiles, image [k] of the generated batch (a 64x64x3 array) being pasted
    at offset [(2 + 66 (k / n1), 2 + 66 (k mod n1))], so that consecutive
    images run along the second coordinate and every tile lies inside the
    canvas with a margin of two pixels. *)
Theorem dcgan_sample_grid_layout {backend : Keras.Backend}
        {random : Env.Random}
        (d : gmap string (list (string * Np.image))) (epoch n0 n1 : Z) :
  1 <= n0 -> 1 <= n1 -> is_Some (d !! "../output"%string) ->
  exists self w w' out imgs,
    DCGAN.__init__ DCGAN.CONFIG (Env.initial d) = (inr self, w)
    /\ DCGAN.save_images self epoch (n0, n1) w = (inr tt, w')
    /\ Env.written w'
       = Env.written w
         ++ [(DCGAN.sample_path (DCGAN.otp_path DCGAN.CONFIG) epoch, out)]
    /\ Env.extent out = (2 + n0 * 66, 2 + n1 * 66)
    /\ length (Env.pasted out) = Z.to_nat (n0 * n1)
    /\ Np.shape imgs = [n0 * n1; 64; 64; 3]
    /\ forall k, 0 <= k < n0 * n1 ->
         Env.pasted out !! Z.to_nat k
         = Some (Env.Bytes (Np.row imgs k),
                 (2 + 66 * (k / n1), 2 + 66 * (k mod n1)))
         /\ Np.shape (Np.row imgs k) = [64; 64; 3]
         /\ 2 + 66 * (k / n1) + 64 + 2 <= 2 + n0 * 66
         /\ 2 + 66 * (k mod n1) + 64 + 2 <= 2 + n1 * 66.
Proof.
  intros H0 H1 Hdir.
  exists DCGAN_built.self, (DCGAN_built.world d). eexists. eexists.
  exists (Np.map_ DCGAN.denormalize
            (Keras.forward (Env.keras (DCGAN_built.world d)) DCGAN_built.gen
               (Np.mk [n0 * n1; 200]
                      (drawn_normal (DCGAN_built.world d)
                                    (Z.to_nat (n0 * n1 * 200)))))).
  split; [apply dcgan_init|].
  split; [apply dcgan_save_images_any;
          [reflexivity | exact H0 | exact H1 | exact Hdir]|].
  split; [reflexivity|].
  match goal with
  | |- context [tiled ?t ?i ?a ?b ?n ?o] =>
      destruct (tiled_pasted t i a b n o) as [Hp He]
  end.
  cbn [fst snd Env.pasted Env.extent app] in Hp, He.
  rewrite grid_of_ranges in Hp.
  split; [exact He|]. split; [|split].
  - rewrite Hp, length_grid, length_seq. lia.
  - cbn [Np.map_ Np.shape].
    apply dcgan_generated_shape; reflexivity.
  - intros k Hk.
    assert (Hdiv : 0 <= k / n1 < n0)
      by (split; [apply Z.div_pos; lia | apply Z.div_lt_upper_bound; nia]).
    pose proof (Z.mod_pos_bound k n1 ltac:(lia)) as Hmod.
    split; [|split; [|split]].
    + rewrite Hp, grid_lookup by nia.
      rewrite Nat2Z.inj_div, Nat2Z.inj_mod, !Z2Nat.id by lia.
      rewrite <- (Z.div_mod k n1) by lia. reflexivity.
    + cbn [Np.row Np.shape Np.map_].
      rewrite dcgan_generated_shape with (n := n0 * n1); reflexivity.
    + lia.
    + lia.
Qed.

Lemma dcgan_sample_grid_layout_witness :
  exists self w w' out imgs,
    @DCGAN.__init__ Demo.null DCGAN.CONFIG (Env.initial Demo.disk)
    = (inr self, w)
    /\ @DCGAN.save_images Demo.null Demo.counter self 3 (5, 5) w = (inr tt, w')
    /\ Env.written w'
       = Env.written w
         ++ [(DCGAN.sample_path (DCGAN.otp_path DCGAN.CONFIG) 3, out)]
    /\ Env.extent out = (2 + 5 * 66, 2 + 5 * 66)
    /\ length (Env.pasted out) = Z.to_nat (5 * 5)
    /\ Np.shape imgs = [5 * 5; 64; 64; 3]
    /\ forall k, 0 <= k < 5 * 5 ->
         Env.pasted out !! Z.to_nat k
         = Some (Env.Bytes (Np.row imgs k),
                 (2 + 66 * (k / 5), 2 + 66 * (k mod 5)))
         /\ Np.shape (Np.row imgs k) = [64; 64; 3]
         /\ 2 + 66 * (k / 5) + 64 + 2 <= 2 + 5 * 66
         /\ 2 + 66 * (k mod 5) + 64 + 2 <= 2 + 5 * 66.
Proof.
  apply (@dcgan_sample_grid_layout Demo.null Demo.counter Demo.disk 3 5 5);
    [lia | lia | vm_compute; eexists; reflexivity].
Defined.

(** ** The values the generators return *)




(** ** The composites of the CycleGAN object *)

(** X18.  Of the three composite models the CycleGAN constructor builds,
    only [comb] is compiled: a step of [comb1] or [comb2] raises
    [RuntimeError] and changes nothing, and a step of [comb], whether it
    is accepted or not, can only move weights of the two generators. *)
Theorem cyclegan_only_comb_is_compiled
        {backend : Keras.Backend}
        (d : gmap string (list (string * Np.image))) :
  exists self w comb1 comb2 comb gen1 gen2,
    CYCLEGAN.__init__ CYCLEGAN.CONFIG (Env.initial d) = (inr self, w)
    /\ self !! "comb1"%string = Some (Env.VModel comb1)
    /\ self !! "comb2"%string = Some (Env.VModel comb2)
    /\ self !! "comb"%string = Some (Env.VModel comb)
    /\ self !! "gen1"%string = Some (Env.VModel gen1)
    /\ self !! "gen2"%string = Some (Env.VModel gen2)
    /\ forall ws fs x y,
         let h := heap_of (Keras.models (Env.keras w)) ws fs in
         (exists msg,
             Keras.train_on_batch comb1 x y h = (inl (Py.RuntimeError msg), h))
         /\ (exists msg,
                Keras.train_on_batch comb2 x y h
                = (inl (Py.RuntimeError msg), h))
         /\ (forall k,
                Keras.weights (snd (Keras.train_on_batch comb x y h)) !! k
                <> ws !! k ->
                fst k = gen1 \/ fst k = gen2).
Proof.
  exists CYCLEGAN_built.self, (CYCLEGAN_built.world d),
    CYCLEGAN_built.comb1, CYCLEGAN_built.comb2, CYCLEGAN_built.comb,
    CYCLEGAN_built.gen1, CYCLEGAN_built.gen2.
  split; [apply cyclegan_init|]. do 5 (split; [reflexivity|]).
  intros ws fs x y h. split; [|split].
  - eexists. reflexivity.
  - eexists. reflexivity.
  - intros k Hk.
    destruct (decide (fst k = CYCLEGAN_built.gen1)) as [E1 | E1];
      [now left|].
    destruct (decide (fst k = CYCLEGAN_built.gen2)) as [E2 | E2];
      [now right|].
    contradict Hk.
    erewrite train_on_batch_frame; [reflexivity | reflexivity | reflexivity |].
    intros Hin. apply in_app_or in Hin.
    destruct Hin as [Hin | Hin]; apply layer_weights_owner in Hin;
      contradiction.
Qed.

(** ** Batches drawn from the training array *)

Lemma row_array {A} (s : list Z) (xs : list (Np.ndarray A))
      (d : Np.ndarray A) (i : Z) :
  List.Forall (filled s) xs -> 0 <= i < Z.of_nat (length xs) ->
  Np.row (Np.array xs) i = nth (Z.to_nat i) xs d.
Proof.
  intros Hxs Hi.
  pose proof (rows_array s xs Hxs) as Hrows. unfold Np.rows in Hrows.
  assert (Hhd : hd 0 (Np.shape (Np.array xs)) = Z.of_nat (length xs))
    by (destruct xs; reflexivity).
  rewrite Hhd in Hrows. unfold Py.range in Hrows. rewrite Nat2Z.id in Hrows.
  rewrite <- Hrows at 2.
  rewrite (nth_indep _ d (Np.row (Np.array xs) 0))
    by (rewrite !length_map, length_seq; lia).
  rewrite (map_nth (Np.row (Np.array xs))).
  rewrite (map_nth Z.of_nat _ 0%nat), seq_nth by lia.
  f_equal. lia.
Qed.

(** X19.  The batch [x_train[idx]] that [train] takes from the array
    [load_images] returns is the array of the loaded images the indices
    name, repetitions included: its rows are those images, in the order of
    the indices. *)
Theorem batch_of_training_images {A} (s : list Z) (xs : list (Np.ndarray A))
        (idx : list Z) (d : Np.ndarray A) :
  List.Forall (filled s) xs -> idx <> [] ->
  List.Forall (fun i => 0 <= i < hd 0 (Np.shape (Np.array xs))) idx ->
  let chosen := map (fun i => nth (Z.to_nat i) xs d) idx in
  Np.take (Np.array xs) idx = Np.array chosen
  /\ Np.rows (Np.take (Np.array xs) idx) = chosen.
Proof.
  intros Hxs Hne Hidx chosen.
  assert (Hhd : hd 0 (Np.shape (Np.array xs)) = Z.of_nat (length xs))
    by (destruct xs; reflexivity).
  rewrite Hhd in Hidx.
  assert (Hchosen : List.Forall (filled s) chosen).
  { unfold chosen. apply List.Forall_map.
    eapply List.Forall_impl; [|exact Hidx]. intros i Hi. cbv beta in Hi |- *.
    apply (proj1 (List.Forall_forall _ _) Hxs). apply nth_In. lia. }
  assert (Hdata :
    concat (map (fun i => Np.data (Np.row (Np.array xs) i)) idx)
    = concat (map Np.data chosen)).
  { unfold chosen. rewrite map_map. f_equal. apply map_ext_in. intros j Hj.
    f_equal. apply (row_array s); [exact Hxs|].
    exact (proj1 (List.Forall_forall _ _) Hidx j Hj). }
  assert (Htake : Np.take (Np.array xs) idx = Np.array chosen).
  { unfold Np.take. rewrite Hdata.
    destruct idx as [|i idx]; [congruence|].
    destruct xs as [|x xs];
      [apply List.Forall_inv in Hidx; simpl in Hidx; lia|].
    pose proof (proj1 (List.Forall_inv Hchosen)) as Hs.
    pose proof (proj1 (List.Forall_inv Hxs)) as Hx.
    unfold chosen in *. cbn [map] in *. unfold Np.array.
    cbn [Np.shape tl]. rewrite Hs, Hx. f_equal. f_equal.
    cbn [length]. now rewrite length_map. }
  split; [exact Htake|].
  rewrite Htake. now apply (rows_array s).
Qed.

Lemma batch_of_training_images_witness :
  let xs := [Np.mk [2] [1; 2]; Np.mk [2] [3; 4]] in
  let chosen := map (fun i => nth (Z.to_nat i) xs (Np.mk [2] [0; 0]))
                    [1; 1; 0] in
  Np.take (Np.array xs) [1; 1; 0] = Np.array chosen
  /\ Np.rows (Np.take (Np.array xs) [1; 1; 0]) = chosen.
Proof.
  intros xs.
  apply (batch_of_training_images [2] xs [1; 1; 0] (Np.mk [2] [0; 0])).
  - repeat constructor.
  - discriminate.
  - repeat (constructor; [cbn; lia|]). constructor.
Defined.
